(** * deepprojection: dataset indexing and triplet mining

    A shallow embedding of [deepprojection/dataset.py]: the label-file
    parser ([ImgLabelFileParser]), the image accessing layer ([PsanaImg]),
    the flat catalog ([SPIImg]) and the triplet dataset ([SPIImgDataset]),
    followed by the properties of the indexing and sampling layer.

    Python values are modelled as follows.
    - [str] is [string] (ASCII text), [int] is [Z];
    - a [list] is a [list], indexed the Python way (negative indices count
      from the end, anything else out of range raises [IndexError]);
    - a [dict] is an insertion-ordered association list ([PyDict.t]) whose
      assignment overwrites in place or appends;
    - exceptions are values of [exn]; a method is a computation in the
      state-and-exception monad [M] whose state holds the process-wide
      random source, the lines printed so far, and the calls made to the
      external imaging source. *)

From Stdlib Require Import List ZArith Lia Bool Arith String Ascii.
From Stdlib Require Import Permutation Sorted DecimalString.
Import ListNotations.

Set Implicit Arguments.

Local Open Scope string_scope.
Local Open Scope list_scope.
Local Open Scope Z_scope.

Infix "^^" := String.append (at level 60, right associativity).

(* ================================================================== *)
(** ** Python strings *)

Module PyStr.

  (** The characters [int] strips from both ends of an ASCII string: the
      blank and the control characters 9 to 13. *)
Definition is_space (c : ascii) : bool :=
    let n := nat_of_ascii c in
    ((n =? 32) || ((9 <=? n) && (n <=? 13)))%nat.

Definition is_digit (c : ascii) : bool :=
    let n := nat_of_ascii c in ((48 <=? n) && (n <=? 57))%nat.

Definition digit_val (c : ascii) : Z := Z.of_nat (nat_of_ascii c) - 48.

Fixpoint lstrip (cs : list ascii) : list ascii :=
    match cs with
    | c :: r => if is_space c then lstrip r else cs
    | [] => []
    end.

Definition strip (cs : list ascii) : list ascii :=
    rev (lstrip (rev (lstrip cs))).

  (** Decimal digits, with single underscores allowed between two digits.
      [seen] tells whether the previous character was a digit. *)
Fixpoint digits_val (acc : Z) (seen : bool) (cs : list ascii) : option Z :=
    match cs with
    | [] => if seen then Some acc else None
    | c :: r =>
        if is_digit c then digits_val (10 * acc + digit_val c) true r
        else if (Ascii.eqb c "_" && seen)%bool then digits_val acc false r
        else None
    end.

  (** The most digits [int] converts (the default of
      [sys.get_int_max_str_digits]). *)
Definition max_str_digits : Z := 4300.

  (** [int(s)] for a string [s]: [None] is Python's [ValueError], which
      a literal of more than [max_str_digits] digits raises too. *)
Definition int (s : string) : option Z :=
    let cs := strip (list_ascii_of_string s) in
    if max_str_digits <? Z.of_nat (List.length (filter is_digit cs))
    then None
    else
      match cs with
      | c :: r =>
          if Ascii.eqb c "-" then option_map Z.opp (digits_val 0 false r)
          else if Ascii.eqb c "+" then digits_val 0 false r
          else digits_val 0 false (c :: r)
      | [] => None
      end.

  (** [s.isascii()]. The strings [int] accepts above are ASCII strings;
      beyond ASCII, Python's [int] also strips the blanks and reads the
      decimal digits of Unicode, so that [None] stands for its
      [ValueError] on ASCII strings only. *)
Definition isascii (s : string) : bool :=
    forallb (fun c => (nat_of_ascii c <? 128)%nat) (list_ascii_of_string s).

  (** [str(z)] and the [d] format of an integer. *)
Definition of_nat (n : nat) : string :=
    NilZero.string_of_uint (Nat.to_uint n).

Definition of_Z (z : Z) : string :=
    if z <? 0 then "-" ^^ of_nat (Z.abs_nat z) else of_nat (Z.abs_nat z).

Fixpoint zeros (k : nat) : string :=
    match k with
    | O => EmptyString
    | S k' => String "0" (zeros k')
    end.

  (** [f"{z:04d}"]: zero padding to width four, the sign counted in. *)
Definition format_04d (z : Z) : string :=
    let d := of_nat (Z.abs_nat z) in
    if z <? 0 then "-" ^^ zeros (3 - String.length d) ^^ d
    else zeros (4 - String.length d) ^^ d.

Fixpoint mem (c : ascii) (s : string) : bool :=
    match s with
    | EmptyString => false
    | String a r => (Ascii.eqb a c || mem c r)%bool
    end.

  (** [s.split(sep)] for a one-character separator. *)
Fixpoint split (sep : ascii) (s : string) : list string :=
    match s with
    | EmptyString => [EmptyString]
    | String c r =>
        if Ascii.eqb c sep then EmptyString :: split sep r
        else match split sep r with
             | h :: t => String c h :: t
             | [] => [String c EmptyString]
             end
    end.

Definition startswith_sep (s : string) : bool :=
    match s with
    | String "/" _ => true
    | _ => false
    end.

Fixpoint endswith_sep (s : string) : bool :=
    match s with
    | EmptyString => false
    | String c EmptyString => Ascii.eqb c "/"
    | String _ r => endswith_sep r
    end.

  (** [os.path.join] of [posixpath]: an absolute component discards what
      precedes it; a separator is inserted unless the path so far is empty
      or already ends with one. *)
Definition join2 (path b : string) : string :=
    if startswith_sep b then b
    else if (String.eqb path EmptyString || endswith_sep path)%bool
    then path ^^ b
    else path ^^ "/" ^^ b.

Definition path_join (a : string) (ps : list string) : string :=
    fold_left join2 ps a.

End PyStr.

(* ================================================================== *)
(** ** Exceptions, lists and dicts *)

Inductive exn : Type :=
| IndexError (msg : string)
| ValueError (msg : string)
| KeyError (key : string)
| TypeError (msg : string)
| StopIteration
| JSONDecodeError
| PsanaError (msg : string).

Definition result (A : Type) : Type := (exn + A)%type.

Module PyList.

  (** [l[i]]: a negative [i] counts from the end. *)
Definition getitem {A : Type} (l : list A) (i : Z) : result A :=
    let n := Z.of_nat (List.length l) in
    let j := if i <? 0 then i + n else i in
    if (j <? 0) || (n <=? j) then inl (IndexError "list index out of range")
    else match nth_error l (Z.to_nat j) with
         | Some x => inr x
         | None => inl (IndexError "list index out of range")
         end.

End PyList.

Module PyDict.

Section Dict.
Variables K V : Type.
Variable eqb : K -> K -> bool.

Definition t : Type := list (K * V).

Fixpoint get (k : K) (d : t) : option V :=
      match d with
      | [] => None
      | (k', v) :: r => if eqb k k' then Some v else get k r
      end.

Definition contains (k : K) (d : t) : bool :=
      match get k d with Some _ => true | None => false end.

    (** [d[k] = v]: an existing key keeps its position, a new one is
        appended. *)
Fixpoint set (k : K) (v : V) (d : t) : t :=
      match d with
      | [] => [(k, v)]
      | (k', v') :: r =>
          if eqb k k' then (k', v) :: r else (k', v') :: set k v r
      end.

    (** [dict(pairs)]. *)
Definition of_list (l : list (K * V)) : t :=
      fold_left (fun d kv => set (fst kv) (snd kv) d) l [].

Definition items (d : t) : list (K * V) := d.
Definition keys (d : t) : list K := map fst d.

End Dict.

End PyDict.

(** [sorted(xs, key = ...)] once the keys are computed: a stable sort. *)
Definition key_le {A : Type} (x y : Z * A) : Prop := fst x <= fst y.

Module PySort.

Section Sort.
Variable A : Type.

Fixpoint insert (x : Z * A) (l : list (Z * A)) : list (Z * A) :=
      match l with
      | [] => [x]
      | y :: r => if fst x <=? fst y then x :: l else y :: insert x r
      end.

Fixpoint sort (l : list (Z * A)) : list (Z * A) :=
      match l with
      | [] => []
      | x :: r => insert x (sort r)
      end.

End Sort.

End PySort.

(* ================================================================== *)
(** ** The environment of the program *)

(** A physical timestamp of the imaging source, and a 2-D detector image
    (rows of pixel counts). *)
Definition timestamp : Type := Z.
Definition image : Type := list (list Z).

(** What [json.load] finds in a label file: either text that is not JSON,
    or an object given by its key/value pairs in file order. *)
Inductive json_file : Type :=
| JsonMalformed
| JsonObject (pairs : list (string * Z)).

(** Everything the program reads from outside: the environment variable
    [USER], the label files by path, and the imaging source [psana]
    ([psana_times id] is [run.times()] of the data source [id], [None]
    when the source cannot be opened; [psana_image id det ts] is the image
    of detector [det] for the event at [ts]). *)
Record World : Type := {
  environ_USER : option string;
  label_files : string -> option json_file;
  psana_times : string -> option (list timestamp);
  psana_image : string -> string -> timestamp -> image
}.

(** The generator behind the [random] module: [rng_seed] is
    [random.seed], [randbelow n] is the generator's [_randbelow(n)], which
    returns a number below [n] and advances the state. *)
Record RandomSource : Type := {
  rng_state : Type;
  rng_seed : Z -> rng_state;
  randbelow : nat -> rng_state -> nat * rng_state;
  randbelow_lt : forall n s, (0 < n)%nat -> (fst (randbelow n s) < n)%nat
}.

(** The mutable state of the process: the state of the random source,
    the lines printed, the data sources opened and the events fetched, in
    order. *)
Record ProcState (G : Type) : Type := {
  random : G;
  stdout : list string;
  ds_opened : list string;
  ev_fetched : list (string * timestamp)
}.

Definition State (R : RandomSource) : Type := ProcState (rng_state R).

(** Computations that read and write the state and may raise. *)
Definition M (R : RandomSource) (A : Type) : Type :=
  State R -> State R * result A.

Definition ret {R : RandomSource} {A : Type} (a : A) : M R A :=
  fun s => (s, inr a).

Definition raise {R : RandomSource} {A : Type} (e : exn) : M R A :=
  fun s => (s, inl e).

Definition bind {R : RandomSource} {A B : Type}
  (m : M R A) (f : A -> M R B) : M R B :=
  fun s => match m s with
           | (s', inr a) => f a s'
           | (s', inl e) => (s', inl e)
           end.

Notation "x <- m ;; k" := (bind m (fun x => k))
  (at level 100, m at next level, right associativity).
Notation "' p <- m ;; k" := (bind m (fun x => match x with p => k end))
  (at level 100, p pattern, m at next level, right associativity).
Notation "m ;;; k" := (bind m (fun _ => k))
  (at level 100, right associativity).

Definition lift {R : RandomSource} {A : Type} (r : result A) : M R A :=
  fun s => (s, r).

Definition print {R : RandomSource} (line : string) : M R unit :=
  fun s => ({| random := random s; stdout := stdout s ++ [line];
               ds_opened := ds_opened s; ev_fetched := ev_fetched s |},
            inr tt).

(** [for b in l: a = f(a, b)]. *)
Fixpoint foldM {R : RandomSource} {A B : Type}
  (f : A -> B -> M R A) (l : list B) (a : A) : M R A :=
  match l with
  | [] => ret a
  | b :: r => a' <- f a b ;; foldM f r a'
  end.

Fixpoint mapM {R : RandomSource} {A B : Type}
  (f : A -> M R B) (l : list A) : M R (list B) :=
  match l with
  | [] => ret []
  | a :: r => b <- f a ;; bs <- mapM f r ;; ret (b :: bs)
  end.

Definition py_int {R : RandomSource} (s : string) : M R Z :=
  match PyStr.int s with
  | Some z => ret z
  | None =>
      raise (ValueError ("invalid literal for int() with base 10: '" ^^ s ^^ "'"))
  end.

(** *** The [random] module *)

Definition random_seed {R : RandomSource} (seed : Z) : M R unit :=
  fun s => ({| random := rng_seed R seed; stdout := stdout s;
               ds_opened := ds_opened s; ev_fetched := ev_fetched s |},
            inr tt).

Definition random_randbelow {R : RandomSource} (n : nat) : M R nat :=
  fun s => let (j, g) := randbelow R n (random s) in
           ({| random := g; stdout := stdout s;
               ds_opened := ds_opened s; ev_fetched := ev_fetched s |},
            inr j).

(** [random.sample(population, 1)[0]]: the population must hold at least
    one element; the element at position [_randbelow(n)] is selected. *)
Definition random_sample1 {R : RandomSource} {A : Type}
  (population : list A) : M R A :=
  match population with
  | [] => raise (ValueError "Sample larger than population or is negative")
  | _ :: _ =>
      j <- random_randbelow (List.length population) ;;
      lift (PyList.getitem population (Z.of_nat j))
  end.

(* ================================================================== *)
(** ** The classes of [dataset.py] *)

(** One entry of [imglabel_list]: [(exp, run, event_num, label)]. *)
Definition sample : Type := (string * string * Z * Z)%type.

Definition sample_label (x : sample) : Z := snd x.
Definition sample_event (x : sample) : Z := snd (fst x).

Record PsanaImg : Type := {
  datasource_id : string;
  detector_name : string;
  timestamps : list timestamp
}.

Record ImgLabelFileParser : Type := {
  path_labelfile : string;
  imglabel_dict : PyDict.t string Z
}.

Record SPIImg : Type := {
  dataset_dict : PyDict.t string (PyDict.t string Z);
  imglabel_list : list sample;
  psana_imgreader_dict : PyDict.t string PsanaImg
}.

Record SPIImgDataset : Type := {
  base : SPIImg;
  num_stockimgs : nat;
  size_sample : Z;
  seed : Z;
  label_seqi_dict : PyDict.t Z (list nat)
}.

(** [f"{exp}.{run}"]. *)
Definition basename_of (exp run : string) : string := exp ^^ "." ^^ run.

(** [enumerate(l)]. *)
Definition enumerate {A : Type} (l : list A) : list (nat * A) :=
  combine (seq 0 (List.length l)) l.

(** [img.reshape(-1)] and [img.shape]. *)
Definition reshape_flat (img : image) : list Z := List.concat img.
Definition shape (img : image) : nat * nat :=
  (List.length img, match img with r :: _ => List.length r | [] => O end).

(** The lookup table of [SPIImgDataset.__init__], one step per sample. *)
Definition label_seqi_step (d : PyDict.t Z (list nat)) (e : nat * sample)
  : PyDict.t Z (list nat) :=
  let label := sample_label (snd e) in
  match PyDict.get Z.eqb label d with
  | None => PyDict.set Z.eqb label [fst e] d
  | Some ids => PyDict.set Z.eqb label (ids ++ [fst e]) d
  end.

Definition build_label_seqi_dict (l : list sample) : PyDict.t Z (list nat) :=
  fold_left label_seqi_step (enumerate l) [].

(** The negatives of [SPIImgDataset.__getitem__]: every bucket but the
    anchor's, concatenated in dict order. *)
Definition neg_bucket_of (d : PyDict.t Z (list nat)) (label_anchor : Z)
  : list nat :=
  fold_left (fun acc kv => if Z.eqb (fst kv) label_anchor then acc
                           else acc ++ snd kv)
            (PyDict.items d) [].

Section Program.

Context (R : RandomSource) (W : World).

(** *** [PsanaImg] *)

Definition PsanaImg_init (exp run mode detector : string) : M R PsanaImg :=
  let id := "exp=" ^^ exp ^^ ":run=" ^^ run ^^ ":" ^^ mode in
  fun s =>
    let s' := {| random := random s; stdout := stdout s;
                 ds_opened := ds_opened s ++ [id];
                 ev_fetched := ev_fetched s |} in
    match psana_times W id with
    | None => (s', inl (PsanaError id))
    | Some ts => (s', inr {| datasource_id := id;
                             detector_name := detector;
                             timestamps := ts |})
    end.

Definition PsanaImg_get (self : PsanaImg) (event_num : Z) : M R image :=
  ts <- lift (PyList.getitem (timestamps self) event_num) ;;
  fun s =>
    ({| random := random s; stdout := stdout s;
        ds_opened := ds_opened s;
        ev_fetched := ev_fetched s ++ [(datasource_id self, ts)] |},
     inr (psana_image W (datasource_id self) (detector_name self) ts)).

(** *** [ImgLabelFileParser] *)

Definition ImgLabelFileParser_locate_labelfile
  (exp run drc_root : string) : M R string :=
  let username := environ_USER W in
  r <- py_int run ;;
  let drc_run := "r" ^^ PyStr.format_04d r in
  match username with
  | None =>
      raise (TypeError "expected str, bytes or os.PathLike object, not NoneType")
  | Some user =>
      let drc_psocake := PyStr.path_join exp [user; "psocake"; drc_run] in
      r' <- py_int run ;;
      let basename := exp ^^ "_" ^^ PyStr.format_04d r' in
      let fl_json := basename ^^ ".label.json" in
      ret (PyStr.path_join drc_root [drc_psocake; fl_json])
  end.

Definition json_load (f : json_file) : M R (PyDict.t string Z) :=
  match f with
  | JsonMalformed => raise JSONDecodeError
  | JsonObject pairs => ret (PyDict.of_list String.eqb pairs)
  end.

(** [sorted(items, key = lambda x: int(x[0]))]. *)
Definition sorted_by_int_key (items : list (string * Z))
  : M R (list (string * Z)) :=
  keyed <- mapM (fun kv => k <- py_int (fst kv) ;; ret (k, kv)) items ;;
  ret (map snd (PySort.sort keyed)).

Definition ImgLabelFileParser_load_imglabel
  (exp run drc_root : string) : M R ImgLabelFileParser :=
  path <- ImgLabelFileParser_locate_labelfile exp run drc_root ;;
  match label_files W path with
  | Some f =>
      d <- json_load f ;;
      l <- sorted_by_int_key (PyDict.items d) ;;
      ret {| path_labelfile := path;
             imglabel_dict := PyDict.of_list String.eqb l |}
  | None =>
      print ("File doesn't exist!!! Missing " ^^ path ^^ ".") ;;;
      ret {| path_labelfile := path; imglabel_dict := [] |}
  end.

Definition ImgLabelFileParser_init
  (exp run drc_root : string) : M R ImgLabelFileParser :=
  ImgLabelFileParser_load_imglabel exp run drc_root.

(** *** [SPIImg] *)

(** The body of the loop over the manifest lines. *)
Definition SPIImg_init_line
  (acc : PyDict.t string PsanaImg * PyDict.t string (PyDict.t string Z))
  (line : list string)
  : M R (PyDict.t string PsanaImg * PyDict.t string (PyDict.t string Z)) :=
  match line with
  | [exp; run; mode; detector; drc_root] =>
      let basename := basename_of exp run in
      reader <- PsanaImg_init exp run mode detector ;;
      parser <- ImgLabelFileParser_init exp run drc_root ;;
      ret (PyDict.set String.eqb basename reader (fst acc),
           PyDict.set String.eqb basename (imglabel_dict parser) (snd acc))
  | _ => raise (ValueError "wrong number of values to unpack (expected 5)")
  end.

(** The body of the loop over [dataset_dict.items()]. *)
Definition SPIImg_init_dataset
  (lst : list sample) (entry : string * PyDict.t string Z)
  : M R (list sample) :=
  match PyStr.split "." (fst entry) with
  | [exp; run] =>
      foldM (fun lst kv =>
               event_num <- py_int (fst kv) ;;
               ret (lst ++ [(exp, run, event_num, snd kv)]))
            (PyDict.items (snd entry)) lst
  | _ => raise (ValueError "wrong number of values to unpack (expected 2)")
  end.

(** [SPIImg(fl_csv)], given the lines [csv.reader] yields for [fl_csv]. *)
Definition SPIImg_init (lines : list (list string)) : M R SPIImg :=
  match lines with
  | [] => raise StopIteration
  | _header :: rows =>
      acc <- foldM SPIImg_init_line rows ([], []) ;;
      lst <- foldM SPIImg_init_dataset (PyDict.items (snd acc)) [] ;;
      ret {| dataset_dict := snd acc;
             imglabel_list := lst;
             psana_imgreader_dict := fst acc |}
  end.

Definition SPIImg_len (self : SPIImg) : nat :=
  List.length (imglabel_list self).

(** The part [__getitem__] and [get_imagesize] share. *)
Definition SPIImg_load (self : SPIImg) (idx : Z) : M R (image * Z) :=
  ' (exp, run, event_num, label) <-
      lift (PyList.getitem (imglabel_list self) idx) ;;
  print ("Loading image " ^^ exp ^^ "." ^^ run ^^ "."
           ^^ PyStr.of_Z event_num ^^ "...") ;;;
  let basename := basename_of exp run in
  match PyDict.get String.eqb basename (psana_imgreader_dict self) with
  | None => raise (KeyError basename)
  | Some reader =>
      img <- PsanaImg_get reader event_num ;;
      ret (img, label)
  end.

Definition SPIImg_getitem (self : SPIImg) (idx : Z) : M R (list Z * Z) :=
  r <- SPIImg_load self idx ;;
  ret (reshape_flat (fst r), snd r).

Definition SPIImg_get_imagesize (self : SPIImg) (idx : Z) : M R (nat * nat) :=
  r <- SPIImg_load self idx ;;
  ret (shape (fst r)).

(** *** [SPIImgDataset] *)

(** What follows [super().__init__(fl_csv)] in [__init__]. *)
Definition SPIImgDataset_of (c : SPIImg) (size_sample seed : Z)
  : SPIImgDataset :=
  {| base := c;
     num_stockimgs := List.length (imglabel_list c);
     size_sample := size_sample;
     seed := seed;
     label_seqi_dict := build_label_seqi_dict (imglabel_list c) |}.

Definition SPIImgDataset_init
  (lines : list (list string)) (size_sample seed : Z) : M R SPIImgDataset :=
  c <- SPIImg_init lines ;;
  ret (SPIImgDataset_of c size_sample seed).

Definition SPIImgDataset_len (self : SPIImgDataset) : Z := size_sample self.

(** [__getitem__], returning next to the four values of the source the
    three sequence numbers it drew (a ghost result for the
    specification). *)
Definition SPIImgDataset_getitem_ids (self : SPIImgDataset) (idx : Z)
  : M R ((nat * nat * nat) * (list Z * list Z * list Z * Z)) :=
  if size_sample self <=? idx
  then raise (IndexError "Index is larger than the size of samples.")
  else
    random_seed (seed self) ;;;
    let anchor_bucket := seq 0 (num_stockimgs self) in
    id_anchor <- random_sample1 anchor_bucket ;;
    ' (img_anchor, label_anchor) <-
        SPIImg_getitem (base self) (Z.of_nat id_anchor) ;;
    match PyDict.get Z.eqb label_anchor (label_seqi_dict self) with
    | None => raise (KeyError (PyStr.of_Z label_anchor))
    | Some pos_bucket =>
        let neg_bucket := neg_bucket_of (label_seqi_dict self) label_anchor in
        id_pos <- random_sample1 pos_bucket ;;
        id_neg <- random_sample1 neg_bucket ;;
        ' (img_pos, _) <- SPIImg_getitem (base self) (Z.of_nat id_pos) ;;
        ' (img_neg, _) <- SPIImg_getitem (base self) (Z.of_nat id_neg) ;;
        ret ((id_anchor, id_pos, id_neg),
             (img_anchor, img_pos, img_neg, label_anchor))
    end.

Definition SPIImgDataset_getitem (self : SPIImgDataset) (idx : Z)
  : M R (list Z * list Z * list Z * Z) :=
  r <- SPIImgDataset_getitem_ids self idx ;;
  ret (snd r).

End Program.

(* ================================================================== *)
(** ** The manifest and what it denotes *)

(** One row of the run manifest. *)
Record RunDescriptor : Type := {
  rd_exp : string;
  rd_run : string;
  rd_mode : string;
  rd_detector : string;
  rd_root : string
}.

(** The row as [csv.reader] yields it. *)
Definition manifest_line (rd : RunDescriptor) : list string :=
  [rd_exp rd; rd_run rd; rd_mode rd; rd_detector rd; rd_root rd].

Definition run_basename (rd : RunDescriptor) : string :=
  basename_of (rd_exp rd) (rd_run rd).

Definition run_datasource (rd : RunDescriptor) : string :=
  "exp=" ^^ rd_exp rd ^^ ":run=" ^^ rd_run rd ^^ ":" ^^ rd_mode rd.

(** The path convention of the label file, for user [user] and run
    number [r]. *)
Definition labelfile_path (user exp : string) (r : Z) (root : string)
  : string :=
  PyStr.path_join root
    [PyStr.path_join exp [user; "psocake"; "r" ^^ PyStr.format_04d r];
     (exp ^^ "_" ^^ PyStr.format_04d r) ^^ ".label.json"].

(** The numeric value of an event-number key ([0] for a key that is not
    a number, which no parsed label file holds). *)
Definition key_num (k : string) : Z :=
  match PyStr.int k with Some z => z | None => 0 end.

Definition is_int (k : string) : bool :=
  match PyStr.int k with Some _ => true | None => false end.

(** The label file of a run, when its path can be computed and a file
    is there. *)
Definition run_labelfile (W : World) (rd : RunDescriptor) : option json_file :=
  match PyStr.int (rd_run rd), environ_USER W with
  | Some r, Some user =>
      label_files W (labelfile_path user (rd_exp rd) r (rd_root rd))
  | _, _ => None
  end.

(** The (event, label) pairs the label file of a run defines: the
    mapping read from the file, none when there is no file. *)
Definition run_label_pairs (W : World) (rd : RunDescriptor)
  : list (string * Z) :=
  match run_labelfile W rd with
  | Some (JsonObject pairs) => PyDict.of_list String.eqb pairs
  | _ => []
  end.

(** The pairs in ascending numeric order of the event number. *)
Definition keyed (kv : string * Z) : Z * (string * Z) :=
  (key_num (fst kv), kv).

Definition numeric_order (pairs : list (string * Z)) : list (string * Z) :=
  map snd (PySort.sort (map keyed pairs)).

(** The samples a run contributes to the catalog, in order. *)
Definition run_samples (W : World) (rd : RunDescriptor) : list sample :=
  map (fun kv => (rd_exp rd, rd_run rd, key_num (fst kv), snd kv))
      (numeric_order (run_label_pairs W rd)).

(** The number [N] of (event, label) pairs the label files of the
    manifest define together. *)
Definition total_pairs (W : World) (runs : list RunDescriptor) : nat :=
  list_sum (map (fun rd => List.length (run_label_pairs W rd)) runs).

(** The accessor [PsanaImg(exp, run, mode, detector_name)] builds. *)
Definition run_reader (W : World) (rd : RunDescriptor) : PsanaImg :=
  {| datasource_id := run_datasource rd;
     detector_name := rd_detector rd;
     timestamps := match psana_times W (run_datasource rd) with
                   | Some ts => ts
                   | None => []
                   end |}.

(** The diagnostic [_load_imglabel] prints for a run without label
    file, none for a run with one. *)
Definition run_diagnostic (W : World) (rd : RunDescriptor) : list string :=
  match PyStr.int (rd_run rd), environ_USER W with
  | Some r, Some user =>
      let path := labelfile_path user (rd_exp rd) r (rd_root rd) in
      match label_files W path with
      | None => ["File doesn't exist!!! Missing " ^^ path ^^ "."]
      | Some _ => []
      end
  | _, _ => []
  end.

(** A manifest row the constructor can process: the run is a number, the
    user is known, the experiment name has no dot, the imaging source
    opens, and the label file, if there is one, is a JSON object whose
    keys are all numbers. *)
Definition run_ok (W : World) (rd : RunDescriptor) : bool :=
  match PyStr.int (rd_run rd), environ_USER W with
  | Some r, Some user =>
      negb (PyStr.mem "." (rd_exp rd))
      && match psana_times W (run_datasource rd) with
         | Some _ => true
         | None => false
         end
      && match label_files W (labelfile_path user (rd_exp rd) r (rd_root rd)) with
         | None => true
         | Some JsonMalformed => false
         | Some (JsonObject pairs) => forallb (fun kv => is_int (fst kv)) pairs
         end
  | _, _ => false
  end.

(** The label of the sample at a sequence number. *)
Definition label_at (l : list sample) (i : nat) : option Z :=
  option_map sample_label (nth_error l i).

(** Every member of a bucket carries the label of the bucket. *)
Definition labelled (l : list sample) (d : PyDict.t Z (list nat)) : Prop :=
  forall k ids j, In (k, ids) d -> In j ids -> label_at l j = Some k.

(** The range error of the index check of [SPIImgDataset.__getitem__],
    and the error of sampling from an empty population. *)
Definition index_check_error : exn :=
  IndexError "Index is larger than the size of samples.".
Definition empty_population_error : exn :=
  ValueError "Sample larger than population or is negative".
Definition list_range_error : exn :=
  IndexError "list index out of range".

(** A computation whose result and whose effect on the random source
    are determined by the random source it starts from (whatever was
    printed or fetched before). *)
Definition rng_determined {R : RandomSource} {A : Type} (m : M R A) : Prop :=
  forall s1 s2 : State R,
    random s1 = random s2 ->
    snd (m s1) = snd (m s2) /\ random (fst (m s1)) = random (fst (m s2)).

(** The state after more data sources were opened and more lines
    printed. *)
Definition add_effects {G : Type} (s : ProcState G)
  (opens prints : list string) : ProcState G :=
  {| random := random s;
     stdout := stdout s ++ prints;
     ds_opened := ds_opened s ++ opens;
     ev_fetched := ev_fetched s |}.

(** The samples one entry of [dataset_dict] contributes. *)
Definition entry_samples (entry : string * PyDict.t string Z) : list sample :=
  match PyStr.split "." (fst entry) with
  | [exp; run] =>
      map (fun kv => (exp, run, key_num (fst kv), snd kv)) (snd entry)
  | _ => []
  end.

(** The entries a manifest adds to [dataset_dict] and to
    [psana_imgreader_dict], row by row. *)
Definition run_dataset_entry (W : World) (rd : RunDescriptor)
  : string * PyDict.t string Z :=
  (run_basename rd, numeric_order (run_label_pairs W rd)).

Definition run_reader_entry (W : World) (rd : RunDescriptor)
  : string * PsanaImg :=
  (run_basename rd, run_reader W rd).

(** Whether a sample of the catalog belongs to a run of the manifest. *)
Definition from_run (rd : RunDescriptor) (x : sample) : bool :=
  String.eqb (fst (fst (fst x))) (rd_exp rd)
  && String.eqb (snd (fst (fst x))) (rd_run rd).

(** A computation that opens no data source, however it ends. *)
Definition opens_nothing {R : RandomSource} {A : Type} (m : M R A) : Prop :=
  forall s : State R, ds_opened (fst (m s)) = ds_opened s.

(** A computation all of whose exceptions satisfy [P]. *)
Definition raises_only {R : RandomSource} {A : Type}
  (P : exn -> Prop) (m : M R A) : Prop :=
  forall (s s' : State R) e, m s = (s', inl e) -> P e.

(** The line [SPIImg.__getitem__] prints for a sample. *)
Definition loading_line (x : sample) : string :=
  "Loading image " ^^ fst (fst (fst x)) ^^ "." ^^ snd (fst (fst x)) ^^ "."
    ^^ PyStr.of_Z (sample_event x) ^^ "...".

(** The accessor dict of a catalog holds an entry for the run of every
    sample. *)
Definition readers_cover (c : SPIImg) : Prop :=
  forall x, In x (imglabel_list c) ->
    In (basename_of (fst (fst (fst x))) (snd (fst (fst x))))
       (PyDict.keys (psana_imgreader_dict c)).

(** The sequence numbers of the samples of a label, ascending. *)
Definition positions_of (l : list sample) (k : Z) : list nat :=
  filter (fun i => match label_at l i with
                   | Some k' => k' =? k
                   | None => false
                   end)
         (seq 0 (List.length l)).

(** The invariant of the loop that fills [label_seqi_dict]: before the
    sample of sequence number [i] is entered, every bucket is non-empty,
    strictly ascending and below [i]. *)
Definition buckets_below (i : nat) (d : PyDict.t Z (list nat)) : Prop :=
  forall k ids, In (k, ids) d ->
    ids <> [] /\ StronglySorted lt ids /\ Forall (fun j => (j < i)%nat) ids.

(** A path component that is not empty and neither starts nor ends with
    the separator. *)
Definition plain_component (s : string) : bool :=
  negb (String.eqb s EmptyString)
  && negb (PyStr.startswith_sep s) && negb (PyStr.endswith_sep s).

(* ================================================================== *)
(** ** Concrete environments *)

Module Ex.

(** A small linear congruential generator standing for the random
    source; a draw reads the low ten bits of the state. *)
Definition lcg : RandomSource :=
  {| rng_state := Z;
     rng_seed := fun z => z mod 65537;
     randbelow := fun n g =>
       ((Z.to_nat (g mod 1024) mod n)%nat, (75 * g + 74) mod 65537);
     randbelow_lt := fun n g H =>
       Nat.mod_upper_bound (Z.to_nat (g mod 1024)) n
                           (proj2 (Nat.neq_0_lt_0 n) H) |}.

Definition s0 : State lcg :=
  {| random := (0 : rng_state lcg); stdout := [];
     ds_opened := []; ev_fetched := [] |}.

(** A process that has already drawn numbers, printed and fetched. *)
Definition s_busy : State lcg :=
  {| random := (12345 : rng_state lcg); stdout := ["hello"];
     ds_opened := ["exp=A:run=1:idx"];
     ev_fetched := [("exp=A:run=1:idx", 100)] |}.

Definition header : list string :=
  ["exp"; "run"; "mode"; "detector_name"; "drc_root"].

(** Two runs [A] and [B]; the label file of [A] is
    [{"5":0,"0":1,"2":1}] (the entries of the scenario, the last one
    moved first), the one of [B] is [{"1":0}]. *)
Definition runA : RunDescriptor :=
  {| rd_exp := "A"; rd_run := "1"; rd_mode := "idx";
     rd_detector := "pnccd"; rd_root := "/data" |}.
Definition runB : RunDescriptor :=
  {| rd_exp := "B"; rd_run := "2"; rd_mode := "idx";
     rd_detector := "pnccd"; rd_root := "/data" |}.

Definition two_runs : World :=
  {| environ_USER := Some "alice";
     label_files := fun p =>
       if String.eqb p "/data/A/alice/psocake/r0001/A_0001.label.json"
       then Some (JsonObject [("5", 0); ("0", 1); ("2", 1)])
       else if String.eqb p "/data/B/alice/psocake/r0002/B_0002.label.json"
       then Some (JsonObject [("1", 0)])
       else None;
     psana_times := fun _ => Some [100; 101; 102; 103; 104; 105];
     psana_image := fun _ _ ts => [[ts; 0]; [0; ts]] |}.

(** The catalog and the sampler of the two-run scenario. *)
Definition catalog2 : SPIImg :=
  {| dataset_dict :=
       [("A.1", [("0", 1); ("2", 1); ("5", 0)]); ("B.2", [("1", 0)])];
     imglabel_list :=
       [("A", "1", 0, 1); ("A", "1", 2, 1); ("A", "1", 5, 0);
        ("B", "2", 1, 0)];
     psana_imgreader_dict :=
       [("A.1", run_reader two_runs runA); ("B.2", run_reader two_runs runB)]
  |}.

Definition sampler2 : SPIImgDataset := SPIImgDataset_of catalog2 10 7.

(** The run [A] listed twice, with two root directories holding one
    label each. *)
Definition runA_other : RunDescriptor :=
  {| rd_exp := "A"; rd_run := "1"; rd_mode := "idx";
     rd_detector := "pnccd"; rd_root := "/other" |}.

Definition listed_twice : World :=
  {| environ_USER := Some "alice";
     label_files := fun p =>
       if String.eqb p "/data/A/alice/psocake/r0001/A_0001.label.json"
       then Some (JsonObject [("0", 1)])
       else if String.eqb p "/other/A/alice/psocake/r0001/A_0001.label.json"
       then Some (JsonObject [("7", 0)])
       else None;
     psana_times := fun _ => Some [100; 101; 102; 103; 104; 105; 106; 107];
     psana_image := fun _ _ ts => [[ts]] |}.

(** The run [A] listed twice, the second root directory without label
    file. *)
Definition second_missing : World :=
  {| environ_USER := Some "alice";
     label_files := fun p =>
       if String.eqb p "/data/A/alice/psocake/r0001/A_0001.label.json"
       then Some (JsonObject [("0", 1)])
       else None;
     psana_times := fun _ => Some [100; 101];
     psana_image := fun _ _ ts => [[ts]] |}.

(** Two runs of which the second has no label file. *)
Definition one_missing : World :=
  {| environ_USER := Some "alice";
     label_files := fun p =>
       if String.eqb p "/data/A/alice/psocake/r0001/A_0001.label.json"
       then Some (JsonObject [("3", 1); ("1", 0)])
       else None;
     psana_times := fun _ => Some [100; 101; 102; 103];
     psana_image := fun _ _ ts => [[ts]] |}.

(** One run whose single label names event 5 while the imaging source
    has one event only. *)
Definition short_run : World :=
  {| environ_USER := Some "alice";
     label_files := fun p =>
       if String.eqb p "/data/A/alice/psocake/r0001/A_0001.label.json"
       then Some (JsonObject [("5", 1)])
       else None;
     psana_times := fun _ => Some [100];
     psana_image := fun _ _ ts => [[ts]] |}.

Definition catalog_short : SPIImg :=
  {| dataset_dict := [("A.1", [("5", 1)])];
     imglabel_list := [("A", "1", 5, 1)];
     psana_imgreader_dict := [("A.1", run_reader short_run runA)] |}.

(** One run, two samples of one label, both readable. *)
Definition one_label : World :=
  {| environ_USER := Some "alice";
     label_files := fun p =>
       if String.eqb p "/data/A/alice/psocake/r0001/A_0001.label.json"
       then Some (JsonObject [("0", 1); ("1", 1)])
       else None;
     psana_times := fun _ => Some [100; 101];
     psana_image := fun _ _ ts => [[ts]] |}.

Definition catalog_one_label : SPIImg :=
  {| dataset_dict := [("A.1", [("0", 1); ("1", 1)])];
     imglabel_list := [("A", "1", 0, 1); ("A", "1", 1, 1)];
     psana_imgreader_dict := [("A.1", run_reader one_label runA)] |}.

(** One run whose label file is [{"10":1,"2":0,"02":1}]. *)
Definition ten_two : World :=
  {| environ_USER := Some "alice";
     label_files := fun p =>
       if String.eqb p "/data/A/alice/psocake/r0001/A_0001.label.json"
       then Some (JsonObject [("10", 1); ("2", 0); ("02", 1)])
       else None;
     psana_times := fun _ => Some [100; 101; 102];
     psana_image := fun _ _ ts => [[ts]] |}.

(** An accessor with two timestamps. *)
Definition reader2 : PsanaImg :=
  {| datasource_id := "exp=A:run=1:idx"; detector_name := "pnccd";
     timestamps := [100; 101] |}.

(** The runs of [two_runs] when the data source of [B] cannot be
    opened. *)
Definition no_source_B : World :=
  {| environ_USER := Some "alice";
     label_files := label_files two_runs;
     psana_times := fun id =>
       if String.eqb id "exp=B:run=2:idx" then None
       else Some [100; 101; 102; 103; 104; 105];
     psana_image := fun _ _ ts => [[ts; 0]; [0; ts]] |}.

(** A row whose run is not a number, and a row whose experiment name
    holds a dot. *)
Definition run_nan : RunDescriptor :=
  {| rd_exp := "B"; rd_run := "two"; rd_mode := "idx";
     rd_detector := "pnccd"; rd_root := "/data" |}.
Definition run_dotted : RunDescriptor :=
  {| rd_exp := "amo.065"; rd_run := "7"; rd_mode := "idx";
     rd_detector := "pnccd"; rd_root := "/data" |}.

End Ex.

(* ================================================================== *)
(** * Properties *)

(** ** The monad *)

Section MonadFacts.

Context {R : RandomSource} {A B : Type}.
Implicit Types (m : M R A) (f : A -> M R B).

Lemma bind_ok m f s s1 a :
  m s = (s1, inr a) -> bind m f s = f a s1.
Proof. intros H; unfold bind; now rewrite H. Qed.

Lemma bind_err m f s s1 e :
  m s = (s1, inl e) -> bind m f s = (s1, inl e).
Proof. intros H; unfold bind; now rewrite H. Qed.

Lemma bind_inr_inv m f s s' b :
  bind m f s = (s', inr b) ->
  exists a s1, m s = (s1, inr a) /\ f a s1 = (s', inr b).
Proof.
  unfold bind; destruct (m s) as [s1 [e | a]]; intros H.
  - discriminate.
  - now exists a, s1.
Qed.

Lemma bind_inl_inv m f s s' e :
  bind m f s = (s', inl e) ->
  m s = (s', inl e) \/
  exists a s1, m s = (s1, inr a) /\ f a s1 = (s', inl e).
Proof.
  unfold bind; destruct (m s) as [s1 [e1 | a]]; intros H.
  - left; inversion H; subst; reflexivity.
  - right; now exists a, s1.
Qed.

End MonadFacts.

(** ** Python list indexing *)

Section ListFacts.

Context {A : Type}.
Implicit Types (l : list A) (i : Z).

Lemma getitem_nonneg l i x :
  0 <= i -> nth_error l (Z.to_nat i) = Some x -> PyList.getitem l i = inr x.
Proof.
  intros Hi Hn. unfold PyList.getitem.
  assert (Hlt : (Z.to_nat i < List.length l)%nat)
    by (apply nth_error_Some; congruence).
  assert (E : (i <? 0) = false) by (apply Z.ltb_ge; lia).
  rewrite E; cbv zeta; rewrite E.
  replace (Z.of_nat (List.length l) <=? i) with false
    by (symmetry; apply Z.leb_gt; lia).
  cbn. now rewrite Hn.
Qed.

Lemma getitem_of_nat l (n : nat) x :
  nth_error l n = Some x -> PyList.getitem l (Z.of_nat n) = inr x.
Proof.
  intros H. apply getitem_nonneg; [lia | now rewrite Nat2Z.id].
Qed.

Lemma getitem_negative l i x :
  i < 0 -> - Z.of_nat (List.length l) <= i ->
  nth_error l (Z.to_nat (i + Z.of_nat (List.length l))) = Some x ->
  PyList.getitem l i = inr x.
Proof.
  intros Hi Hlo Hn. unfold PyList.getitem.
  assert (Hlt : (Z.to_nat (i + Z.of_nat (List.length l)) < List.length l)%nat)
    by (apply nth_error_Some; congruence).
  replace (i <? 0) with true by (symmetry; apply Z.ltb_lt; lia).
  cbv zeta.
  replace (i + Z.of_nat (List.length l) <? 0) with false
    by (symmetry; apply Z.ltb_ge; lia).
  replace (Z.of_nat (List.length l) <=? i + Z.of_nat (List.length l))
    with false by (symmetry; apply Z.leb_gt; lia).
  cbn. now rewrite Hn.
Qed.

Lemma getitem_out_of_range l i :
  i < - Z.of_nat (List.length l) \/ Z.of_nat (List.length l) <= i ->
  PyList.getitem l i = inl list_range_error.
Proof.
  intros H. unfold PyList.getitem.
  destruct (i <? 0) eqn:E;
    [apply Z.ltb_lt in E | apply Z.ltb_ge in E].
  - destruct H as [H | H]; [| lia].
    cbv zeta.
    replace (i + Z.of_nat (List.length l) <? 0) with true
      by (symmetry; apply Z.ltb_lt; lia).
    reflexivity.
  - destruct H as [H | H]; [lia |].
    cbv zeta.
    replace (Z.of_nat (List.length l) <=? i) with true
      by (symmetry; apply Z.leb_le; lia).
    now rewrite orb_true_r.
Qed.

Lemma getitem_in_range l i :
  - Z.of_nat (List.length l) <= i < Z.of_nat (List.length l) ->
  exists x, PyList.getitem l i = inr x.
Proof.
  intros H. destruct (Z.lt_ge_cases i 0) as [Hneg | Hpos].
  - destruct (nth_error l (Z.to_nat (i + Z.of_nat (List.length l)))) eqn:E.
    + exists a. apply getitem_negative; auto; lia.
    + apply nth_error_None in E. lia.
  - destruct (nth_error l (Z.to_nat i)) eqn:E.
    + exists a. now apply getitem_nonneg.
    + apply nth_error_None in E. lia.
Qed.

Lemma getitem_error l i e :
  PyList.getitem l i = inl e -> e = list_range_error.
Proof.
  unfold PyList.getitem.
  destruct (_ || _); [intros H; now inversion H |].
  destruct (nth_error _ _); intros H; now inversion H.
Qed.

Lemma getitem_In l i x : PyList.getitem l i = inr x -> In x l.
Proof.
  unfold PyList.getitem.
  destruct (_ || _); [discriminate |].
  destruct (nth_error _ _) eqn:E; [| discriminate].
  intros H; inversion H; subst. eapply nth_error_In; eauto.
Qed.

End ListFacts.

(** ** Dicts *)

Section DictFacts.

Context {K V : Type} (eqb : K -> K -> bool).
Hypothesis eqb_spec : forall a b, eqb a b = true <-> a = b.

Implicit Types (d : PyDict.t K V) (k : K) (v : V).

Lemma eqb_refl_true k : eqb k k = true.
Proof. now apply eqb_spec. Qed.

Lemma eqb_neq_false k k' : k <> k' -> eqb k k' = false.
Proof.
  intros H. destruct (eqb k k') eqn:E; [| reflexivity].
  apply eqb_spec in E. contradiction.
Qed.

Lemma dict_get_Some_In k v d : PyDict.get eqb k d = Some v -> In (k, v) d.
Proof.
  induction d as [| [k' v'] r IH]; cbn; [discriminate |].
  destruct (eqb k k') eqn:E.
  - apply eqb_spec in E; subst. intros H; inversion H; now left.
  - intros H; right; auto.
Qed.

Lemma dict_get_None k d :
  PyDict.get eqb k d = None <-> ~ In k (PyDict.keys d).
Proof.
  induction d as [| [k' v'] r IH]; cbn.
  - tauto.
  - destruct (eqb k k') eqn:E.
    + apply eqb_spec in E; subst. split; [discriminate | intros H; tauto].
    + rewrite IH. split; intros H.
      * intros [H1 | H1]; [| tauto].
        subst. rewrite eqb_refl_true in E. discriminate.
      * tauto.
Qed.

Lemma dict_get_In k v d :
  NoDup (PyDict.keys d) -> In (k, v) d -> PyDict.get eqb k d = Some v.
Proof.
  induction d as [| [k' v'] r IH]; cbn; [tauto |].
  intros Hnd [H | H]; inversion Hnd as [| ? ? Hnotin Hnd']; subst.
  - inversion H; subst. now rewrite eqb_refl_true.
  - destruct (eqb k k') eqn:E; [| auto].
    apply eqb_spec in E; subst. exfalso. apply Hnotin.
    change k' with (fst (k', v)). now apply in_map.
Qed.

Lemma dict_get_set_same k v d : PyDict.get eqb k (PyDict.set eqb k v d) = Some v.
Proof.
  induction d as [| [k' v'] r IH]; cbn.
  - now rewrite eqb_refl_true.
  - destruct (eqb k k') eqn:E; cbn; now rewrite E.
Qed.

Lemma dict_get_set_other k k' v d :
  k <> k' -> PyDict.get eqb k' (PyDict.set eqb k v d) = PyDict.get eqb k' d.
Proof.
  intros Hne. induction d as [| [k1 v1] r IH]; cbn.
  - rewrite eqb_neq_false; auto.
  - destruct (eqb k k1) eqn:E; cbn.
    + apply eqb_spec in E; subst. rewrite eqb_neq_false; auto.
    + now rewrite IH.
Qed.

Lemma dict_set_new k v d :
  ~ In k (PyDict.keys d) -> PyDict.set eqb k v d = d ++ [(k, v)].
Proof.
  induction d as [| [k' v'] r IH]; cbn; [reflexivity |].
  intros H. rewrite eqb_neq_false by (intros ->; tauto).
  f_equal. apply IH. tauto.
Qed.

Lemma dict_set_split k v v0 d :
  PyDict.get eqb k d = Some v0 ->
  exists d1 d2, d = d1 ++ (k, v0) :: d2 /\
                PyDict.set eqb k v d = d1 ++ (k, v) :: d2.
Proof.
  induction d as [| [k' v'] r IH]; cbn; [discriminate |].
  destruct (eqb k k') eqn:E.
  - apply eqb_spec in E; subst. intros H; inversion H; subst.
    now exists [], r.
  - intros H. destruct (IH H) as (d1 & d2 & -> & ->).
    now exists ((k', v') :: d1), d2.
Qed.

Lemma dict_keys_set k v d :
  PyDict.keys (PyDict.set eqb k v d) =
  if PyDict.contains eqb k d then PyDict.keys d else PyDict.keys d ++ [k].
Proof.
  unfold PyDict.contains, PyDict.keys.
  induction d as [| [k' v'] r IH]; cbn; [reflexivity |].
  destruct (eqb k k') eqn:E; cbn; [reflexivity |].
  rewrite IH. now destruct (PyDict.get eqb k r).
Qed.

Lemma dict_NoDup_set k v d :
  NoDup (PyDict.keys d) -> NoDup (PyDict.keys (PyDict.set eqb k v d)).
Proof.
  intros H. rewrite dict_keys_set. unfold PyDict.contains.
  destruct (PyDict.get eqb k d) eqn:E; [assumption |].
  apply dict_get_None in E.
  apply NoDup_app; [assumption | repeat constructor; cbn; tauto |].
  intros x Hx [<- | []]. contradiction.
Qed.

Lemma dict_fold_set_NoDup (l : list (K * V)) d :
  NoDup (PyDict.keys d) ->
  NoDup (PyDict.keys
           (fold_left (fun d kv => PyDict.set eqb (fst kv) (snd kv) d) l d)).
Proof.
  revert d. induction l as [| [k v] r IH]; cbn; intros d H; [assumption |].
  apply IH. now apply dict_NoDup_set.
Qed.

Lemma dict_of_list_NoDup (l : list (K * V)) :
  NoDup (PyDict.keys (PyDict.of_list eqb l)).
Proof. apply dict_fold_set_NoDup. constructor. Qed.

Lemma dict_fold_set_distinct (l : list (K * V)) d :
  NoDup (PyDict.keys d ++ map fst l) ->
  fold_left (fun d kv => PyDict.set eqb (fst kv) (snd kv) d) l d = d ++ l.
Proof.
  revert d. induction l as [| [k v] r IH]; cbn; intros d H.
  - now rewrite app_nil_r.
  - assert (Hk : ~ In k (PyDict.keys d)).
    { apply NoDup_remove_2 in H. intros Hin. apply H.
      apply in_or_app; now left. }
    rewrite dict_set_new by exact Hk. rewrite IH.
    + now rewrite <- app_assoc.
    + unfold PyDict.keys in *. rewrite map_app; cbn.
      rewrite <- app_assoc. exact H.
Qed.

Lemma dict_set_In k v d (kv : K * V) :
  In kv (PyDict.set eqb k v d) -> kv = (k, v) \/ In kv d.
Proof.
  induction d as [| [k' v'] r IH]; cbn.
  - intros [H | []]; now left.
  - destruct (eqb k k') eqn:E; cbn.
    + apply eqb_spec in E; subst k'.
      intros [H | H]; [now left | right; now right].
    + intros [H | H]; [right; now left |].
      apply IH in H as [H | H]; [now left | right; now right].
Qed.

Lemma dict_fold_set_In (l : list (K * V)) d (kv : K * V) :
  In kv (fold_left (fun d kv => PyDict.set eqb (fst kv) (snd kv) d) l d) ->
  In kv d \/ In kv l.
Proof.
  revert d. induction l as [| [k v] r IH]; cbn; intros d H; [now left |].
  apply IH in H as [H | H]; [| right; now right].
  apply dict_set_In in H as [H | H]; [right; left; now symmetry | now left].
Qed.

(** The entries of [dict(pairs)] are among the pairs. *)
Lemma dict_of_list_In (l : list (K * V)) (kv : K * V) :
  In kv (PyDict.of_list eqb l) -> In kv l.
Proof.
  intros H. apply dict_fold_set_In in H as [[] | H]. exact H.
Qed.

Lemma dict_keys_set_In k v d (x : K) :
  In x (PyDict.keys (PyDict.set eqb k v d)) <-> x = k \/ In x (PyDict.keys d).
Proof.
  rewrite dict_keys_set. unfold PyDict.contains.
  destruct (PyDict.get eqb k d) as [v0 |] eqn:E.
  - apply dict_get_Some_In in E.
    assert (Hk : In k (PyDict.keys d))
      by (change k with (fst (k, v0)); now apply in_map).
    split; [now right | intros [-> | H]; assumption].
  - rewrite in_app_iff. cbn. split; intros [H | H]; auto.
    destruct H as [<- | []]. now left.
Qed.

Lemma dict_keys_fold_In (l : list (K * V)) d (x : K) :
  In x (PyDict.keys
          (fold_left (fun d kv => PyDict.set eqb (fst kv) (snd kv) d) l d))
  <-> In x (PyDict.keys d) \/ In x (map fst l).
Proof.
  revert d. induction l as [| [k v] r IH]; intros d; [cbn; tauto |].
  cbn [fold_left fst snd map]. rewrite IH, dict_keys_set_In. cbn [In].
  intuition (subst; auto).
Qed.

(** The keys of [dict(pairs)] are the keys of the pairs. *)
Lemma dict_keys_of_list_In (l : list (K * V)) (x : K) :
  In x (PyDict.keys (PyDict.of_list eqb l)) <-> In x (map fst l).
Proof.
  unfold PyDict.of_list. rewrite dict_keys_fold_In. cbn. tauto.
Qed.

(** A list of pairs with distinct keys is its own dict. *)
Lemma dict_of_list_distinct (l : list (K * V)) :
  NoDup (map fst l) -> PyDict.of_list eqb l = l.
Proof. intros H. unfold PyDict.of_list. now rewrite dict_fold_set_distinct. Qed.

End DictFacts.

(** ** Sorting *)

Section SortFacts.

Context {A : Type}.
Implicit Types (x : Z * A) (l : list (Z * A)).

Lemma insert_perm x l : Permutation (PySort.insert x l) (x :: l).
Proof.
  induction l as [| y r IH]; cbn; [reflexivity |].
  destruct (fst x <=? fst y); [reflexivity |].
  rewrite IH. apply perm_swap.
Qed.

Lemma sort_perm l : Permutation (PySort.sort l) l.
Proof.
  induction l as [| x r IH]; cbn; [reflexivity |].
  rewrite insert_perm. now constructor.
Qed.

Lemma insert_sorted x l :
  StronglySorted key_le l -> StronglySorted key_le (PySort.insert x l).
Proof.
  induction l as [| y r IH]; cbn; intros H.
  - repeat constructor.
  - inversion H as [| ? ? Hr Hy]; subst.
    destruct (fst x <=? fst y) eqn:E.
    + apply Z.leb_le in E. constructor; [assumption |].
      constructor; [exact E |].
      eapply Forall_impl; [| exact Hy].
      intros z Hz. unfold key_le in *. lia.
    + apply Z.leb_gt in E. constructor; [auto |].
      eapply Permutation_Forall; [symmetry; apply insert_perm |].
      constructor; [unfold key_le; lia | assumption].
Qed.

Lemma sort_sorted l : StronglySorted key_le (PySort.sort l).
Proof.
  induction l as [| x r IH]; cbn; [constructor | now apply insert_sorted].
Qed.

(** The sort is stable: elements of one key keep their relative order. *)
Lemma insert_filter_key z x l :
  StronglySorted key_le l ->
  filter (fun y => fst y =? z) (PySort.insert x l) =
  filter (fun y => fst y =? z) (x :: l).
Proof.
  induction l as [| y r IH]; cbn; intros H; [reflexivity |].
  inversion H as [| ? ? Hr Hy]; subst.
  destruct (fst x <=? fst y) eqn:E; [reflexivity |].
  apply Z.leb_gt in E. cbn. rewrite (IH Hr). cbn.
  destruct (fst x =? z) eqn:Ex, (fst y =? z) eqn:Ey; try reflexivity.
  apply Z.eqb_eq in Ex, Ey. lia.
Qed.

Lemma sort_stable z l :
  filter (fun y => fst y =? z) (PySort.sort l) =
  filter (fun y => fst y =? z) l.
Proof.
  induction l as [| x r IH]; cbn; [reflexivity |].
  rewrite insert_filter_key by apply sort_sorted.
  cbn. now rewrite IH.
Qed.

End SortFacts.

(** ** The label buckets *)

Section Buckets.

Implicit Types (d : PyDict.t Z (list nat)) (l : list sample).

Lemma fold_left_invariant {S E : Type} (step : S -> E -> S)
  (P : S -> Prop) (es : list E) :
  (forall acc e, In e es -> P acc -> P (step acc e)) ->
  forall acc, P acc -> P (fold_left step es acc).
Proof.
  induction es as [| e r IH]; cbn; intros Hstep acc Hacc; [assumption |].
  apply IH; [intros; apply Hstep; auto | apply Hstep; auto].
Qed.

Lemma combine_seq_In {T : Type} (xs : list T) s i x :
  In (i, x) (combine (seq s (List.length xs)) xs) ->
  (s <= i)%nat /\ nth_error xs (i - s) = Some x.
Proof.
  revert s. induction xs as [| y r IH]; cbn; intros s; [tauto |].
  intros [H | H].
  - inversion H; subst. now rewrite Nat.sub_diag.
  - apply IH in H as [Hle Hn]. split; [lia |].
    replace (i - s)%nat with (S (i - S s)) by lia. exact Hn.
Qed.

Lemma enumerate_In {T : Type} (xs : list T) i x :
  In (i, x) (enumerate xs) -> nth_error xs i = Some x.
Proof.
  intros H. apply combine_seq_In in H as [_ H].
  now rewrite Nat.sub_0_r in H.
Qed.

Lemma enumerate_fst {T : Type} (xs : list T) :
  map fst (enumerate xs) = seq 0 (List.length xs).
Proof.
  unfold enumerate. generalize 0%nat.
  induction xs as [| y r IH]; cbn; intros s; [reflexivity |].
  now rewrite IH.
Qed.

Lemma label_seqi_step_NoDup d e :
  NoDup (PyDict.keys d) -> NoDup (PyDict.keys (label_seqi_step d e)).
Proof.
  intros H. unfold label_seqi_step.
  destruct (PyDict.get Z.eqb _ d); now apply dict_NoDup_set, H; apply Z.eqb_eq.
Qed.

Lemma label_seqi_step_perm d e :
  Permutation (flat_map snd (label_seqi_step d e)) (flat_map snd d ++ [fst e]).
Proof.
  unfold label_seqi_step.
  destruct (PyDict.get Z.eqb _ d) as [ids |] eqn:E.
  - destruct (dict_set_split Z.eqb Z.eqb_eq _ (ids ++ [fst e]) _ E)
      as (d1 & d2 & Hd & ->).
    subst d. rewrite !flat_map_app. cbn.
    rewrite <- !app_assoc. apply Permutation_app_head.
    apply Permutation_app_head.
    apply Permutation_app_comm.
  - apply (dict_get_None Z.eqb Z.eqb_eq) in E.
    rewrite (dict_set_new Z.eqb Z.eqb_eq) by exact E.
    rewrite flat_map_app. cbn. reflexivity.
Qed.

Lemma label_seqi_fold_perm (es : list (nat * sample)) d :
  Permutation (flat_map snd (fold_left label_seqi_step es d))
              (flat_map snd d ++ map fst es).
Proof.
  revert d. induction es as [| e r IH]; cbn; intros d.
  - now rewrite app_nil_r.
  - rewrite IH, label_seqi_step_perm. now rewrite <- app_assoc.
Qed.

Lemma label_seqi_step_labelled l d i x :
  nth_error l i = Some x -> labelled l d ->
  labelled l (label_seqi_step d (i, x)).
Proof.
  intros Hx Hd k ids j Hin Hj. unfold label_seqi_step in Hin. cbn in Hin.
  assert (Hi : label_at l i = Some (sample_label x))
    by (unfold label_at; now rewrite Hx).
  destruct (PyDict.get Z.eqb (sample_label x) d) as [ids0 |] eqn:E.
  - destruct (dict_set_split Z.eqb Z.eqb_eq _ (ids0 ++ [i]) _ E)
      as (d1 & d2 & Hd12 & Hset).
    rewrite Hset in Hin. apply in_app_or in Hin as [Hin | [Hin | Hin]].
    + apply (Hd k ids j); [| assumption].
      rewrite Hd12. apply in_or_app; now left.
    + inversion Hin; subst k ids.
      apply in_app_or in Hj as [Hj | [<- | []]]; [| assumption].
      apply (Hd (sample_label x) ids0 j); [| assumption].
      now apply (dict_get_Some_In Z.eqb Z.eqb_eq).
    + apply (Hd k ids j); [| assumption].
      rewrite Hd12. apply in_or_app; right; now right.
  - apply (dict_get_None Z.eqb Z.eqb_eq) in E.
    rewrite (dict_set_new Z.eqb Z.eqb_eq) in Hin by exact E.
    apply in_app_or in Hin as [Hin | [Hin | []]].
    + now apply (Hd k ids j).
    + inversion Hin; subst k ids. destruct Hj as [<- | []]. assumption.
Qed.

Lemma build_NoDup_keys l : NoDup (PyDict.keys (build_label_seqi_dict l)).
Proof.
  unfold build_label_seqi_dict.
  apply fold_left_invariant with (P := fun d => NoDup (PyDict.keys d)).
  - intros d e _. apply label_seqi_step_NoDup.
  - constructor.
Qed.

Lemma build_perm l :
  Permutation (flat_map snd (build_label_seqi_dict l))
              (seq 0 (List.length l)).
Proof.
  unfold build_label_seqi_dict.
  rewrite label_seqi_fold_perm. cbn. now rewrite enumerate_fst.
Qed.

Lemma build_labelled l : labelled l (build_label_seqi_dict l).
Proof.
  unfold build_label_seqi_dict.
  apply fold_left_invariant with (P := labelled l).
  - intros d [i x] Hin. apply label_seqi_step_labelled.
    now apply enumerate_In.
  - intros k ids j [].
Qed.

(** The bucket of its label holds each sequence number. *)
Lemma build_bucket_of l i x :
  nth_error l i = Some x ->
  exists ids, PyDict.get Z.eqb (sample_label x) (build_label_seqi_dict l)
              = Some ids /\ In i ids.
Proof.
  intros Hx.
  assert (Hi : In i (flat_map snd (build_label_seqi_dict l))).
  { eapply Permutation_in; [symmetry; apply build_perm |].
    apply in_seq. split; [lia |]. cbn. apply nth_error_Some. congruence. }
  apply in_flat_map in Hi as ([k ids] & Hin & Hi). cbn in Hi.
  pose proof (build_labelled l _ _ _ Hin Hi) as Hl.
  unfold label_at in Hl. rewrite Hx in Hl. inversion Hl; subst k.
  exists ids. split; [| assumption].
  apply (dict_get_In Z.eqb Z.eqb_eq); [apply build_NoDup_keys | assumption].
Qed.

Lemma neg_bucket_fold d a acc :
  fold_left (fun acc kv => if Z.eqb (fst kv) a then acc else acc ++ snd kv)
            d acc
  = acc ++ flat_map snd (filter (fun kv => negb (Z.eqb (fst kv) a)) d).
Proof.
  revert acc. induction d as [| [k ids] r IH]; cbn; intros acc.
  - now rewrite app_nil_r.
  - destruct (k =? a); cbn; rewrite IH; [reflexivity |].
    now rewrite <- app_assoc.
Qed.

(** The negatives are the other buckets, concatenated. *)
Lemma neg_bucket_concat d a :
  neg_bucket_of d a =
  flat_map snd (filter (fun kv => negb (Z.eqb (fst kv) a)) d).
Proof. unfold neg_bucket_of, PyDict.items. now rewrite neg_bucket_fold. Qed.

End Buckets.

Lemma NoDup_flat_map_part {S T : Type} (f : S -> list T) (xs : list S) x :
  NoDup (flat_map f xs) -> In x xs -> NoDup (f x).
Proof.
  induction xs as [| y r IH]; cbn; [tauto |].
  intros Hnd [-> | Hin].
  - eapply NoDup_app_remove_r; exact Hnd.
  - apply IH; [| assumption]. eapply NoDup_app_remove_l; exact Hnd.
Qed.

(** C2. The label buckets built by [SPIImgDataset.__init__] partition the
    range of sequence numbers [0 .. len(imglabel_list) - 1]: the keys of
    [label_seqi_dict] are distinct, the buckets put end to end are a
    rearrangement of the full range, every sequence number occurs once in
    the bucket of its own sample's label and in no other bucket, and no
    bucket holds a number outside the range. *)
Theorem C2_label_buckets_partition (c : SPIImg) (size_sample seed : Z) :
  let self := SPIImgDataset_of c size_sample seed in
  let d := label_seqi_dict self in
  let n := SPIImg_len c in
  NoDup (PyDict.keys d) /\
  Permutation (flat_map snd d) (seq 0 n) /\
  (forall i, (i < n)%nat ->
     exists k ids,
       label_at (imglabel_list c) i = Some k /\
       PyDict.get Z.eqb k d = Some ids /\
       count_occ Nat.eq_dec ids i = 1%nat /\
       forall k' ids', In (k', ids') d -> In i ids' -> k' = k /\ ids' = ids) /\
  (forall k ids i, In (k, ids) d -> In i ids -> (i < n)%nat).
Proof.
  cbn. set (l := imglabel_list c). unfold SPIImg_len. fold l.
  pose proof (build_NoDup_keys l) as Hkeys.
  pose proof (build_perm l) as Hperm.
  pose proof (build_labelled l) as Hlab.
  assert (Hnd : NoDup (flat_map snd (build_label_seqi_dict l))).
  { eapply Permutation_NoDup; [symmetry; exact Hperm | apply seq_NoDup]. }
  repeat split; try assumption.
  - intros i Hi.
    destruct (nth_error l i) as [x |] eqn:Hx;
      [| apply nth_error_None in Hx; lia].
    destruct (build_bucket_of l i Hx) as (ids & Hget & Hin).
    exists (sample_label x), ids.
    assert (Hmem : In (sample_label x, ids) (build_label_seqi_dict l))
      by now apply (dict_get_Some_In Z.eqb Z.eqb_eq).
    repeat split.
    + unfold label_at. now rewrite Hx.
    + exact Hget.
    + apply NoDup_count_occ'; [| exact Hin].
      apply (NoDup_flat_map_part snd _ _ Hnd Hmem).
    + pose proof (Hlab _ _ _ H H0) as Hk.
      unfold label_at in Hk. rewrite Hx in Hk. now inversion Hk.
    + pose proof (Hlab _ _ _ H H0) as Hk.
      unfold label_at in Hk. rewrite Hx in Hk. inversion Hk; subst k'.
      apply (dict_get_In Z.eqb Z.eqb_eq _ _ _ Hkeys) in H. congruence.
  - intros k ids i Hin Hi.
    assert (H : In i (seq 0 (List.length l))).
    { eapply Permutation_in; [exact Hperm |].
      apply in_flat_map. now exists (k, ids). }
    apply in_seq in H. lia.
Qed.

(** ** Sampling and loading *)

Section SamplingFacts.

Context (R : RandomSource) (W : World).

Lemma getitem_of_nat_inv {T : Type} (xs : list T) (n : nat) x :
  PyList.getitem xs (Z.of_nat n) = inr x -> nth_error xs n = Some x.
Proof.
  intros H. destruct (nth_error xs n) as [y |] eqn:E.
  - rewrite (getitem_of_nat _ _ E) in H. congruence.
  - apply nth_error_None in E.
    rewrite getitem_out_of_range in H by lia. discriminate.
Qed.


Lemma random_sample1_empty {T : Type} (s : State R) :
  random_sample1 (@nil T) s = (s, inl empty_population_error).
Proof. reflexivity. Qed.

Lemma random_sample1_error {T : Type} (pop : list T) (s s' : State R) e :
  random_sample1 pop s = (s', inl e) -> pop = [] /\ e = empty_population_error.
Proof.
  destruct pop as [| y r]; [intros H; now inversion H |].
  unfold random_sample1. intros H.
  apply bind_inl_inv in H as [H | (j & s1 & Hj & H)].
  - unfold random_randbelow in H.
    destruct (randbelow R _ _); discriminate.
  - exfalso. unfold random_randbelow in Hj.
    destruct (randbelow R (List.length (y :: r)) (random s)) as [j' g] eqn:E.
    inversion Hj; subst j'.
    pose proof (@randbelow_lt R (List.length (y :: r)) (random s)) as Hlt.
    rewrite E in Hlt. cbn [fst] in Hlt.
    unfold lift in H.
    destruct (@getitem_in_range _ (y :: r) (Z.of_nat j)) as [x Hx].
    { cbn [List.length] in *. lia. }
    rewrite Hx in H. discriminate.
Qed.

Lemma SPIImg_load_inr (c : SPIImg) idx (s s' : State R) img lab :
  SPIImg_load W c idx s = (s', inr (img, lab)) ->
  exists x, PyList.getitem (imglabel_list c) idx = inr x /\
            lab = sample_label x.
Proof.
  unfold SPIImg_load. intros H.
  apply bind_inr_inv in H as ([[[exp run] ev] lb] & s1 & Hx & H).
  apply bind_inr_inv in H as ([] & s2 & _ & H).
  destruct (PyDict.get _ _ _); [| discriminate].
  apply bind_inr_inv in H as (im & s3 & _ & H).
  inversion H; subst.
  unfold lift in Hx. inversion Hx as [[Hs Hg]].
  eexists; split; [exact Hg | reflexivity].
Qed.

Lemma SPIImg_getitem_inr (c : SPIImg) idx (s s' : State R) img lab :
  SPIImg_getitem W c idx s = (s', inr (img, lab)) ->
  exists x, PyList.getitem (imglabel_list c) idx = inr x /\
            lab = sample_label x.
Proof.
  unfold SPIImg_getitem. intros H.
  apply bind_inr_inv in H as ([im lb] & s1 & Hl & H).
  inversion H; subst. cbn. eapply SPIImg_load_inr; eauto.
Qed.

Lemma SPIImg_getitem_label (c : SPIImg) (i : nat) (s s' : State R) img lab :
  SPIImg_getitem W c (Z.of_nat i) s = (s', inr (img, lab)) ->
  label_at (imglabel_list c) i = Some lab.
Proof.
  intros H. apply SPIImg_getitem_inr in H as (x & Hx & ->).
  apply getitem_of_nat_inv in Hx. unfold label_at. now rewrite Hx.
Qed.

End SamplingFacts.



(** ** Determinism of the draw *)

Section Determinism.

Context (R : RandomSource) (W : World).

Lemma rng_determined_ret {A : Type} (a : A) : rng_determined (@ret R A a).
Proof. intros s1 s2 H. now split. Qed.

Lemma rng_determined_raise {A : Type} (e : exn) :
  rng_determined (@raise R A e).
Proof. intros s1 s2 H. now split. Qed.

Lemma rng_determined_lift {A : Type} (r : result A) :
  rng_determined (@lift R A r).
Proof. intros s1 s2 H. now split. Qed.

Lemma rng_determined_bind {A B : Type} (m : M R A) (f : A -> M R B) :
  rng_determined m -> (forall a, rng_determined (f a)) ->
  rng_determined (bind m f).
Proof.
  intros Hm Hf s1 s2 H. unfold bind.
  destruct (Hm s1 s2 H) as [Hr Hg].
  destruct (m s1) as [t1 [e1 | a1]], (m s2) as [t2 [e2 | a2]];
    cbn in Hr, Hg; try discriminate.
  - cbn. split; [congruence | assumption].
  - inversion Hr; subst a2. now apply Hf.
Qed.

Lemma rng_determined_print (line : string) : rng_determined (@print R line).
Proof. intros s1 s2 H. now split. Qed.

Lemma rng_determined_randbelow (n : nat) :
  rng_determined (@random_randbelow R n).
Proof.
  intros s1 s2 H. unfold random_randbelow. rewrite H.
  destruct (randbelow R n (random s2)); now split.
Qed.

Lemma rng_determined_sample1 {A : Type} (pop : list A) :
  rng_determined (@random_sample1 R A pop).
Proof.
  destruct pop; [apply rng_determined_raise |].
  apply rng_determined_bind; [apply rng_determined_randbelow |].
  intros j. apply rng_determined_lift.
Qed.

Lemma rng_determined_PsanaImg_get (self : PsanaImg) (e : Z) :
  rng_determined (PsanaImg_get (R := R) W self e).
Proof.
  apply rng_determined_bind; [apply rng_determined_lift |].
  intros ts s1 s2 H. now split.
Qed.

Lemma rng_determined_SPIImg_load (c : SPIImg) (idx : Z) :
  rng_determined (SPIImg_load (R := R) W c idx).
Proof.
  apply rng_determined_bind; [apply rng_determined_lift |].
  intros [[[exp run] ev] lb].
  apply rng_determined_bind; [apply rng_determined_print |].
  intros _. cbv beta zeta.
  destruct (PyDict.get _ _ _); [| apply rng_determined_raise].
  apply rng_determined_bind; [apply rng_determined_PsanaImg_get |].
  intros img. apply rng_determined_ret.
Qed.

Lemma rng_determined_SPIImg_getitem (c : SPIImg) (idx : Z) :
  rng_determined (SPIImg_getitem (R := R) W c idx).
Proof.
  apply rng_determined_bind; [apply rng_determined_SPIImg_load |].
  intros r. apply rng_determined_ret.
Qed.

(** What [__getitem__] does once the index check has passed. *)
Lemma getitem_ids_after_check (self : SPIImgDataset) (idx : Z) :
  idx < size_sample self ->
  exists body : M R ((nat * nat * nat) * (list Z * list Z * list Z * Z)),
    rng_determined body /\
    forall idx', idx' < size_sample self ->
      SPIImgDataset_getitem_ids W self idx'
      = bind (random_seed (seed self)) (fun _ => body).
Proof.
  intros _. eexists. split; cycle 1.
  - intros idx' H. unfold SPIImgDataset_getitem_ids.
    replace (size_sample self <=? idx') with false
      by (symmetry; apply Z.leb_gt; exact H).
    reflexivity.
  - cbv beta zeta.
    apply rng_determined_bind; [apply rng_determined_sample1 |].
    intros a.
    apply rng_determined_bind; [apply rng_determined_SPIImg_getitem |].
    intros [ia la]. cbv beta zeta.
    destruct (PyDict.get _ _ _); [| apply rng_determined_raise].
    apply rng_determined_bind; [apply rng_determined_sample1 |]. intros p.
    apply rng_determined_bind; [apply rng_determined_sample1 |]. intros n.
    apply rng_determined_bind; [apply rng_determined_SPIImg_getitem |].
    intros [ip lp].
    apply rng_determined_bind; [apply rng_determined_SPIImg_getitem |].
    intros [ineg ln]. apply rng_determined_ret.
Qed.

Lemma seeded_run {A : Type} (body : M R A) (sd : Z) (s1 s2 : State R) :
  rng_determined body ->
  snd (bind (random_seed sd) (fun _ => body) s1)
  = snd (bind (random_seed sd) (fun _ => body) s2) /\
  random (fst (bind (random_seed sd) (fun _ => body) s1))
  = random (fst (bind (random_seed sd) (fun _ => body) s2)).
Proof.
  intros Hb. unfold bind, random_seed. apply Hb. reflexivity.
Qed.

Lemma random_sample1_nth {A : Type} (pop : list A) (s s' : State R) x :
  random_sample1 pop s = (s', inr x) ->
  nth_error pop (fst (randbelow R (List.length pop) (random s))) = Some x.
Proof.
  destruct pop as [| y r]; [discriminate |].
  unfold random_sample1. intros H.
  apply bind_inr_inv in H as (j & s1 & Hj & H).
  unfold random_randbelow in Hj.
  destruct (randbelow R (List.length (y :: r)) (random s)) as [j' g] eqn:E.
  inversion Hj; subst.
  unfold lift in H. inversion H as [[Hs Hg]].
  apply getitem_of_nat_inv in Hg. exact Hg.
Qed.

Lemma sample1_range (n : nat) (s s' : State R) (a : nat) :
  random_sample1 (seq 0 n) s = (s', inr a) ->
  a = fst (randbelow R n (random s)).
Proof.
  intros H. apply random_sample1_nth in H. rewrite length_seq in H.
  set (j := fst (randbelow R n (random s))) in *.
  assert (Hlt : (j < n)%nat).
  { rewrite <- (length_seq n 0). apply nth_error_Some. congruence. }
  rewrite nth_error_nth' with (d := 0%nat) in H
    by (rewrite length_seq; exact Hlt).
  rewrite seq_nth in H by exact Hlt. now inversion H.
Qed.

Lemma getitem_ids_anchor (self : SPIImgDataset) (idx : Z) (s : State R)
  a p n out :
  snd (SPIImgDataset_getitem_ids W self idx s) = inr ((a, p, n), out) ->
  a = fst (randbelow R (num_stockimgs self) (rng_seed R (seed self))).
Proof.
  intros Hout.
  destruct (SPIImgDataset_getitem_ids W self idx s) as [t [e | r]] eqn:Hrun;
    [discriminate |].
  cbn in Hout. inversion Hout; subst r.
  unfold SPIImgDataset_getitem_ids in Hrun.
  destruct (size_sample self <=? idx); [discriminate |].
  apply bind_inr_inv in Hrun as ([] & t0 & Hseed & Hrun).
  apply bind_inr_inv in Hrun as (a' & t1 & Ha & Hrun).
  apply bind_inr_inv in Hrun as ([ia la] & t2 & _ & Hrun).
  destruct (PyDict.get Z.eqb la (label_seqi_dict self)); [| discriminate].
  apply bind_inr_inv in Hrun as (p' & t3 & _ & Hrun).
  apply bind_inr_inv in Hrun as (n' & t4 & _ & Hrun).
  apply bind_inr_inv in Hrun as ([ip lp] & t5 & _ & Hrun).
  apply bind_inr_inv in Hrun as ([ineg ln] & t6 & _ & Hrun).
  inversion Hrun; subst.
  apply sample1_range in Ha.
  unfold random_seed in Hseed. inversion Hseed; subst t0.
  exact Ha.
Qed.

End Determinism.

(** C4. [SPIImgDataset.__getitem__] sets the process-wide random source
    to the seed given at construction before it draws, on every call.
    So whatever the state of the process and whichever index below
    [size_sample] is requested, two calls yield the same result (the
    same three sequence numbers, images and label, or the same error)
    and leave the random source in the same state; the anchor is the
    first draw of the freshly seeded generator. *)
Theorem C4_reseed_determinism (R : RandomSource) (W : World)
  (self : SPIImgDataset) (idx1 idx2 : Z) (s1 s2 : State R) :
  idx1 < size_sample self -> idx2 < size_sample self ->
  snd (SPIImgDataset_getitem_ids W self idx1 s1)
  = snd (SPIImgDataset_getitem_ids W self idx2 s2) /\
  snd (SPIImgDataset_getitem W self idx1 s1)
  = snd (SPIImgDataset_getitem W self idx2 s2) /\
  random (fst (SPIImgDataset_getitem W self idx1 s1))
  = random (fst (SPIImgDataset_getitem W self idx2 s2)) /\
  (forall a p n out,
     snd (SPIImgDataset_getitem_ids W self idx1 s1) = inr ((a, p, n), out) ->
     a = fst (randbelow R (num_stockimgs self) (rng_seed R (seed self)))).
Proof.
  intros H1 H2.
  destruct (@getitem_ids_after_check R W self idx1 H1) as (body & Hdet & Heq).
  assert (Hids : rng_determined (bind (random_seed (seed self))
                                      (fun _ => body))).
  { apply rng_determined_bind; [| intros _; exact Hdet].
    intros t1 t2 _. now split. }
  pose proof (@seeded_run R _ body (seed self) s1 s2 Hdet) as [Hr Hg].
  assert (Hfull : rng_determined
            (bind (bind (random_seed (seed self)) (fun _ => body))
                  (fun r => ret (snd r)))).
  { apply rng_determined_bind; [exact Hids |].
    intros r. apply rng_determined_ret. }
  assert (Hanchor : forall a p n out,
    snd (SPIImgDataset_getitem_ids W self idx1 s1) = inr ((a, p, n), out) ->
    a = fst (randbelow R (num_stockimgs self) (rng_seed R (seed self)))).
  { intros a p n out. apply getitem_ids_anchor. }
  unfold SPIImgDataset_getitem.
  rewrite (Heq idx1 H1), (Heq idx2 H2) in *.
  repeat split.
  - exact Hr.
  - unfold bind at 1 3.
    destruct (bind (random_seed (seed self)) (fun _ => body) s1)
      as [t1 [e1 | r1]],
      (bind (random_seed (seed self)) (fun _ => body) s2)
      as [t2 [e2 | r2]]; cbn in Hr |- *; congruence.
  - unfold bind at 1 3.
    destruct (bind (random_seed (seed self)) (fun _ => body) s1)
      as [t1 [e1 | r1]],
      (bind (random_seed (seed self)) (fun _ => body) s2)
      as [t2 [e2 | r2]]; cbn in Hg |- *; congruence.
  - exact Hanchor.
Qed.

(** Requests 0 and 9 of the two-run sampler, from a fresh and from a busy
    process. *)
Lemma C4_reseed_determinism_witness :
  0 < size_sample Ex.sampler2 /\ 9 < size_sample Ex.sampler2 /\
  snd (SPIImgDataset_getitem_ids Ex.two_runs Ex.sampler2 0 Ex.s0)
  = snd (SPIImgDataset_getitem_ids Ex.two_runs Ex.sampler2 9 Ex.s_busy) /\
  snd (SPIImgDataset_getitem Ex.two_runs Ex.sampler2 0 Ex.s0)
  = snd (SPIImgDataset_getitem Ex.two_runs Ex.sampler2 9 Ex.s_busy) /\
  random (fst (SPIImgDataset_getitem Ex.two_runs Ex.sampler2 0 Ex.s0))
  = random (fst (SPIImgDataset_getitem Ex.two_runs Ex.sampler2 9 Ex.s_busy)) /\
  (forall a p n out,
     snd (SPIImgDataset_getitem_ids Ex.two_runs Ex.sampler2 0 Ex.s0)
     = inr ((a, p, n), out) ->
     a = fst (randbelow Ex.lcg (num_stockimgs Ex.sampler2)
                        (rng_seed Ex.lcg (seed Ex.sampler2)))).
Proof.
  assert (H1 : 0 < size_sample Ex.sampler2) by reflexivity.
  assert (H2 : 9 < size_sample Ex.sampler2) by reflexivity.
  split; [exact H1 |]. split; [exact H2 |].
  exact (@C4_reseed_determinism Ex.lcg Ex.two_runs Ex.sampler2 0 9
           Ex.s0 Ex.s_busy H1 H2).
Defined.

(** ** The exceptions of loading and sampling *)

Section Exceptions.

Context (R : RandomSource) (W : World).

Lemma raises_only_bind {A B : Type} (P : exn -> Prop)
  (m : M R A) (f : A -> M R B) :
  raises_only P m -> (forall a, raises_only P (f a)) ->
  raises_only P (bind m f).
Proof.
  intros Hm Hf s s' e H.
  apply bind_inl_inv in H as [H | (a & s1 & _ & H)].
  - eapply Hm; eauto.
  - eapply Hf; eauto.
Qed.

Lemma raises_only_ret {A : Type} (P : exn -> Prop) (a : A) :
  raises_only P (@ret R A a).
Proof. intros s s' e H. discriminate. Qed.

Lemma raises_only_raise {A : Type} (P : exn -> Prop) (e : exn) :
  P e -> raises_only P (@raise R A e).
Proof. intros He s s' e' H. inversion H; subst. exact He. Qed.

Lemma raises_only_print (P : exn -> Prop) (line : string) :
  raises_only P (@print R line).
Proof. intros s s' e H. discriminate. Qed.

Lemma raises_only_getitem {A : Type} (P : exn -> Prop) (l : list A) (i : Z) :
  P list_range_error -> raises_only P (@lift R A (PyList.getitem l i)).
Proof.
  intros HP s s' e H. unfold lift in H. inversion H as [[Hs He]].
  apply getitem_error in He. now subst.
Qed.

Lemma raises_only_sample1 {A : Type} (P : exn -> Prop) (pop : list A) :
  P empty_population_error -> raises_only P (@random_sample1 R A pop).
Proof.
  intros HP s s' e H. apply random_sample1_error in H as [_ ->]. exact HP.
Qed.

Lemma raises_only_PsanaImg_get (P : exn -> Prop) (self : PsanaImg) (e : Z) :
  P list_range_error -> raises_only P (PsanaImg_get (R := R) W self e).
Proof.
  intros HP. apply raises_only_bind; [now apply raises_only_getitem |].
  intros ts s s' e' H. discriminate.
Qed.

Lemma raises_only_SPIImg_load (P : exn -> Prop) (c : SPIImg) (idx : Z) :
  P list_range_error -> (forall k, P (KeyError k)) ->
  raises_only P (SPIImg_load (R := R) W c idx).
Proof.
  intros HP HK.
  apply raises_only_bind; [now apply raises_only_getitem |].
  intros [[[exp run] ev] lb].
  apply raises_only_bind; [apply raises_only_print |].
  intros _. cbv beta zeta.
  destruct (PyDict.get _ _ _); [| apply raises_only_raise, HK].
  apply raises_only_bind; [now apply raises_only_PsanaImg_get |].
  intros img. apply raises_only_ret.
Qed.

Lemma raises_only_SPIImg_getitem (P : exn -> Prop) (c : SPIImg) (idx : Z) :
  P list_range_error -> (forall k, P (KeyError k)) ->
  raises_only P (SPIImg_getitem (R := R) W c idx).
Proof.
  intros HP HK.
  apply raises_only_bind; [now apply raises_only_SPIImg_load |].
  intros r. apply raises_only_ret.
Qed.

(** Below [size_sample] the only exceptions are those of sampling and
    of loading. *)
Lemma raises_only_getitem_ids (P : exn -> Prop)
  (self : SPIImgDataset) (idx : Z) :
  idx < size_sample self ->
  P list_range_error -> (forall k, P (KeyError k)) ->
  P empty_population_error ->
  raises_only P (SPIImgDataset_getitem_ids (R := R) W self idx).
Proof.
  intros Hidx HP HK HE. unfold SPIImgDataset_getitem_ids.
  replace (size_sample self <=? idx) with false
    by (symmetry; apply Z.leb_gt; exact Hidx).
  apply raises_only_bind; [intros s s' e H; discriminate |].
  intros _. cbv beta zeta.
  apply raises_only_bind; [now apply raises_only_sample1 |]. intros a.
  apply raises_only_bind; [now apply raises_only_SPIImg_getitem |].
  intros [ia la]. cbv beta zeta.
  destruct (PyDict.get _ _ _); [| apply raises_only_raise, HK].
  apply raises_only_bind; [now apply raises_only_sample1 |]. intros p.
  apply raises_only_bind; [now apply raises_only_sample1 |]. intros n.
  apply raises_only_bind; [now apply raises_only_SPIImg_getitem |].
  intros [ip lp].
  apply raises_only_bind; [now apply raises_only_SPIImg_getitem |].
  intros [ineg ln]. apply raises_only_ret.
Qed.

End Exceptions.

(** C7, as the code has it. [SPIImgDataset.__len__] returns
    [size_sample]. [__getitem__] raises the range error of its index
    check exactly for the indices at or above [size_sample]; every index
    below [size_sample], the negative ones included, passes the check,
    and whatever the call raises afterwards is another error. *)
Theorem C7_index_check (R : RandomSource) (W : World)
  (self : SPIImgDataset) (idx : Z) (s : State R) :
  SPIImgDataset_len self = size_sample self /\
  (size_sample self <= idx ->
   SPIImgDataset_getitem W self idx s = (s, inl index_check_error)) /\
  (idx < size_sample self ->
   snd (SPIImgDataset_getitem W self idx s) <> inl index_check_error) /\
  (snd (SPIImgDataset_getitem W self idx s) = inl index_check_error <->
   size_sample self <= idx).
Proof.
  assert (Hhigh : size_sample self <= idx ->
    SPIImgDataset_getitem W self idx s = (s, inl index_check_error)).
  { intros H. unfold SPIImgDataset_getitem, SPIImgDataset_getitem_ids.
    replace (size_sample self <=? idx) with true
      by (symmetry; apply Z.leb_le; exact H).
    reflexivity. }
  assert (Hlow : idx < size_sample self ->
    snd (SPIImgDataset_getitem W self idx s) <> inl index_check_error).
  { intros H Hsnd.
    destruct (SPIImgDataset_getitem W self idx s) as [s' [e | r]] eqn:Hrun;
      [| discriminate].
    cbn in Hsnd. inversion Hsnd; subst e.
    unfold SPIImgDataset_getitem in Hrun.
    apply bind_inl_inv in Hrun as [Hrun | (r & s1 & _ & Hrun)];
      [| discriminate].
    assert (Hro : raises_only (fun e => e <> index_check_error)
                    (SPIImgDataset_getitem_ids (R := R) W self idx)).
    { apply raises_only_getitem_ids; try assumption; intros; discriminate. }
    exact (Hro _ _ _ Hrun eq_refl). }
  repeat split; try assumption.
  - intros H. destruct (Z.lt_ge_cases idx (size_sample self)) as [Hlt | Hge];
      [| exact Hge].
    exfalso. now apply Hlow.
  - intros H. now rewrite Hhigh.
Qed.

(** The request [-1] lies outside [0, size_sample) and yet is served
    from the two-run sampler. *)
Lemma C7_negative_index_counterexample :
  ~ (0 <= -1 < size_sample Ex.sampler2) /\
  snd (SPIImgDataset_getitem Ex.two_runs Ex.sampler2 (-1) Ex.s0)
  = inr ([101; 0; 0; 101], [101; 0; 0; 101], [102; 0; 0; 102], 0).
Proof.
  split; [intros [H _]; apply H; reflexivity |].
  vm_compute. reflexivity.
Qed.

(** Request 10 of a sampler of size 10 is refused by the index check,
    request 9 is not. *)
Lemma C7_index_check_witness :
  SPIImgDataset_getitem Ex.two_runs Ex.sampler2 10 Ex.s0
  = (Ex.s0, inl index_check_error) /\
  snd (SPIImgDataset_getitem Ex.two_runs Ex.sampler2 9 Ex.s0)
  <> inl index_check_error.
Proof.
  split.
  - apply (proj1 (proj2 (C7_index_check Ex.two_runs Ex.sampler2 10 Ex.s0))).
    intros H; discriminate H.
  - apply (proj1 (proj2 (proj2
             (C7_index_check Ex.two_runs Ex.sampler2 9 Ex.s0)))).
    reflexivity.
Defined.

(** C8, as the code has it. [PsanaImg.get(event_num)] indexes the
    timestamp list the way Python indexes a list: it succeeds exactly
    when [-len(timestamps) <= event_num < len(timestamps)], returning the
    image of the event at position [event_num], counted from the end of
    the list when [event_num] is negative; for every other [event_num]
    it raises the range error of list indexing and changes nothing. *)
Theorem C8_get_range (R : RandomSource) (W : World)
  (self : PsanaImg) (event_num : Z) (s : State R) :
  let n := Z.of_nat (List.length (timestamps self)) in
  let image_at ts :=
    psana_image W (datasource_id self) (detector_name self) ts in
  ((exists img, snd (PsanaImg_get W self event_num s) = inr img) <->
   - n <= event_num < n) /\
  (0 <= event_num < n ->
   exists ts, nth_error (timestamps self) (Z.to_nat event_num) = Some ts /\
              snd (PsanaImg_get W self event_num s) = inr (image_at ts)) /\
  (- n <= event_num < 0 ->
   exists ts, nth_error (timestamps self) (Z.to_nat (event_num + n)) = Some ts /\
              snd (PsanaImg_get W self event_num s) = inr (image_at ts)) /\
  (event_num < - n \/ n <= event_num ->
   PsanaImg_get W self event_num s = (s, inl list_range_error)).
Proof.
  intros n image_at.
  assert (Hout : event_num < - n \/ n <= event_num ->
    PsanaImg_get W self event_num s = (s, inl list_range_error)).
  { intros H. unfold PsanaImg_get, bind, lift.
    now rewrite getitem_out_of_range. }
  assert (Hpos : 0 <= event_num < n ->
    exists ts, nth_error (timestamps self) (Z.to_nat event_num) = Some ts /\
               snd (PsanaImg_get W self event_num s) = inr (image_at ts)).
  { intros H.
    destruct (nth_error (timestamps self) (Z.to_nat event_num)) as [ts |] eqn:E;
      [| apply nth_error_None in E; lia].
    exists ts. split; [reflexivity |].
    unfold PsanaImg_get, bind, lift.
    rewrite (getitem_nonneg _ (proj1 H) E). reflexivity. }
  assert (Hneg : - n <= event_num < 0 ->
    exists ts, nth_error (timestamps self) (Z.to_nat (event_num + n)) = Some ts /\
               snd (PsanaImg_get W self event_num s) = inr (image_at ts)).
  { intros H.
    destruct (nth_error (timestamps self) (Z.to_nat (event_num + n)))
      as [ts |] eqn:E; [| apply nth_error_None in E; lia].
    exists ts. split; [reflexivity |].
    unfold PsanaImg_get, bind, lift.
    rewrite (getitem_negative _ (proj2 H) (proj1 H) E). reflexivity. }
  split; [| split; [exact Hpos | split; [exact Hneg | exact Hout]]].
  split.
  - intros [img Himg].
    destruct (Z.lt_ge_cases event_num (- n)) as [Hlo | Hlo];
      [rewrite Hout in Himg by (now left); discriminate |].
    destruct (Z.lt_ge_cases event_num n) as [Hhi | Hhi]; [lia |].
    rewrite Hout in Himg by (now right). discriminate.
  - intros H. destruct (Z.lt_ge_cases event_num 0) as [Hn | Hp].
    + destruct Hneg as (ts & _ & Hts); [lia | eauto].
    + destruct Hpos as (ts & _ & Hts); [lia | eauto].
Qed.

(** With two timestamps, event number 1 and event number -1 both fetch
    the second event, event number 2 and event number -3 fail. *)
Lemma C8_get_range_witness :
  snd (PsanaImg_get Ex.two_runs Ex.reader2 1 Ex.s0) = inr [[101; 0]; [0; 101]] /\
  snd (PsanaImg_get Ex.two_runs Ex.reader2 (-1) Ex.s0)
  = inr [[101; 0]; [0; 101]] /\
  PsanaImg_get Ex.two_runs Ex.reader2 2 Ex.s0 = (Ex.s0, inl list_range_error) /\
  PsanaImg_get Ex.two_runs Ex.reader2 (-3) Ex.s0
  = (Ex.s0, inl list_range_error).
Proof.
  pose proof (C8_get_range Ex.two_runs Ex.reader2 1 Ex.s0) as (_ & H1 & _).
  pose proof (C8_get_range Ex.two_runs Ex.reader2 (-1) Ex.s0) as (_ & _ & H2 & _).
  pose proof (C8_get_range Ex.two_runs Ex.reader2 2 Ex.s0) as (_ & _ & _ & H3).
  pose proof (C8_get_range Ex.two_runs Ex.reader2 (-3) Ex.s0) as (_ & _ & _ & H4).
  split; [| split; [| split]].
  - destruct H1 as (ts & Hts & ->); [cbn; lia |].
    cbn in Hts. now inversion Hts.
  - destruct H2 as (ts & Hts & ->); [cbn; lia |].
    cbn in Hts. now inversion Hts.
  - apply H3. cbn; lia.
  - apply H4. cbn; lia.
Defined.

(** Event number [-1] lies outside [0, len(timestamps)) and yet the
    call returns the image of the last event. *)
Lemma C8_negative_event_counterexample :
  ~ (0 <= -1 < Z.of_nat (List.length (timestamps Ex.reader2))) /\
  snd (PsanaImg_get Ex.two_runs Ex.reader2 (-1) Ex.s0)
  = inr (psana_image Ex.two_runs (datasource_id Ex.reader2)
                     (detector_name Ex.reader2) 101).
Proof.
  split; [intros [H _]; apply H; reflexivity |].
  vm_compute. reflexivity.
Qed.

(** ** A population of one label *)

Lemma single_label_no_negatives (l : list sample) (lab : Z) :
  Forall (fun x => sample_label x = lab) l ->
  neg_bucket_of (build_label_seqi_dict l) lab = [].
Proof.
  intros Hall. rewrite neg_bucket_concat.
  destruct (flat_map snd _) as [| j r] eqn:E; [reflexivity |].
  exfalso.
  assert (Hj : In j (flat_map snd
            (filter (fun kv => negb (fst kv =? lab))
                    (build_label_seqi_dict l))))
    by (rewrite E; now left).
  apply in_flat_map in Hj as ([k ids] & Hk & Hj). cbn in Hj.
  apply filter_In in Hk as [Hk Hne]. cbn in Hne.
  apply negb_true_iff, Z.eqb_neq in Hne.
  pose proof (build_labelled l _ _ _ Hk Hj) as Hl.
  unfold label_at in Hl.
  destruct (nth_error l j) as [x |] eqn:Hx; [| discriminate].
  cbn in Hl. inversion Hl as [Hlx].
  rewrite Forall_forall in Hall.
  apply nth_error_In in Hx. apply Hall in Hx. congruence.
Qed.

Section SingleLabel.

Context (R : RandomSource) (W : World).

Lemma random_sample1_total {A : Type} (pop : list A) (s : State R) :
  pop <> [] ->
  exists x,
    random_sample1 pop s
    = ({| random := snd (randbelow R (List.length pop) (random s));
          stdout := stdout s; ds_opened := ds_opened s;
          ev_fetched := ev_fetched s |}, inr x) /\
    In x pop.
Proof.
  intros Hne. destruct pop as [| y r]; [contradiction |].
  pose proof (@randbelow_lt R (List.length (y :: r)) (random s)) as Hlt.
  unfold random_sample1, bind, random_randbelow.
  destruct (randbelow R (List.length (y :: r)) (random s)) as [j g] eqn:E.
  cbn [fst] in Hlt.
  destruct (nth_error (y :: r) j) as [x |] eqn:Hx.
  - exists x. unfold lift. rewrite (getitem_of_nat _ _ Hx). cbn [snd].
    split; [reflexivity | eapply nth_error_In; eauto].
  - apply nth_error_None in Hx. cbn [List.length] in *. lia.
Qed.

(** The course of [__getitem__] on a population of one label, for an
    index that passes the check: the generator is seeded, the anchor is
    drawn and its image read; when that read returns, the positive is
    drawn and the draw of the negative fails. *)
Lemma single_label_getitem (c : SPIImg) (size sd idx lab : Z) (s : State R) :
  Forall (fun x => sample_label x = lab) (imglabel_list c) ->
  idx < size ->
  let self := SPIImgDataset_of c size sd in
  let d0 := randbelow R (SPIImg_len c) (rng_seed R sd) in
  let t1 := {| random := snd d0; stdout := stdout s;
               ds_opened := ds_opened s; ev_fetched := ev_fetched s |} in
  (SPIImg_len c = 0%nat ->
   snd (SPIImgDataset_getitem W self idx s) = inl empty_population_error) /\
  (SPIImg_len c <> 0%nat ->
   (fst d0 < SPIImg_len c)%nat /\
   snd (SPIImgDataset_getitem W self idx s)
   = match snd (SPIImg_getitem W c (Z.of_nat (fst d0)) t1) with
     | inl e => inl e
     | inr _ => inl empty_population_error
     end).
Proof.
  intros Hall Hlt self d0 t1.
  pose proof (single_label_no_negatives Hall) as Hneg.
  unfold SPIImgDataset_getitem, SPIImgDataset_getitem_ids.
  replace (size_sample self <=? idx) with false
    by (symmetry; apply Z.leb_gt; exact Hlt).
  change (num_stockimgs self) with (SPIImg_len c).
  change (base self) with c. change (seed self) with sd.
  change (label_seqi_dict self) with (build_label_seqi_dict (imglabel_list c)).
  set (s1 := {| random := rng_seed R sd; stdout := stdout s;
                ds_opened := ds_opened s; ev_fetched := ev_fetched s |}).
  assert (Hseed : random_seed sd s = (s1, inr tt)) by reflexivity.
  split.
  - intros Hn. rewrite Hn. cbn [seq].
    erewrite bind_err; [reflexivity |].
    erewrite bind_ok by exact Hseed.
    erewrite bind_err; [reflexivity |]. apply random_sample1_empty.
  - intros Hn.
    assert (Hne : seq 0 (SPIImg_len c) <> []).
    { destruct (SPIImg_len c); [contradiction | discriminate]. }
    destruct (random_sample1_total s1 Hne) as (a & Ha & Hin).
    rewrite length_seq in Ha. cbn [random stdout ds_opened ev_fetched s1] in Ha.
    fold d0 in Ha. fold t1 in Ha.
    pose proof (sample1_range _ _ Ha) as Ea.
    cbn [random s1] in Ea. fold d0 in Ea. subst a.
    apply in_seq in Hin. split; [lia |].
    destruct (SPIImg_getitem W c (Z.of_nat (fst d0)) t1)
      as [t2 [e | [img la]]] eqn:Hg; cbn [snd].
    + erewrite bind_err; [reflexivity |].
      erewrite bind_ok by exact Hseed.
      erewrite bind_ok by exact Ha.
      erewrite bind_err; [reflexivity | exact Hg].
    + pose proof Hg as Hg'. apply SPIImg_getitem_label in Hg'.
      unfold label_at in Hg'.
      destruct (nth_error (imglabel_list c) (fst d0)) as [x |] eqn:Hx;
        [| discriminate].
      cbn in Hg'. injection Hg' as Hl. subst la.
      destruct (build_bucket_of _ _ Hx) as (ids & Hget & Hmem).
      assert (Hlab : sample_label x = lab).
      { rewrite Forall_forall in Hall. apply nth_error_In in Hx.
        now apply Hall. }
      assert (Hids : ids <> []) by (intros ->; destruct Hmem).
      destruct (random_sample1_total t2 Hids) as (p & Hp & _).
      erewrite bind_err; [reflexivity |].
      erewrite bind_ok by exact Hseed.
      erewrite bind_ok by exact Ha.
      erewrite bind_ok by exact Hg. cbv beta iota.
      rewrite Hget.
      erewrite bind_ok by exact Hp.
      rewrite Hlab, Hneg.
      erewrite bind_err; [reflexivity |]. apply random_sample1_empty.
Qed.

End SingleLabel.

(** C10, as the code has it. When every sample of the catalog carries
    one label, the pool of negatives is empty and [__getitem__] never
    returns a triplet. For an index below [size_sample] the error is not
    the one of the index check. The call seeds the generator and draws
    the anchor; when the catalog is empty that draw fails with the error
    of sampling from an empty population. Otherwise the image of the
    anchor is read: if that read fails the call raises the error of that
    read, and if it returns the call raises the error of sampling from an
    empty population, from the draw of the negative. *)
Theorem C10_single_label (R : RandomSource) (W : World) (c : SPIImg)
  (size sd idx lab : Z) (s : State R) :
  Forall (fun x => sample_label x = lab) (imglabel_list c) ->
  let self := SPIImgDataset_of c size sd in
  let d0 := randbelow R (SPIImg_len c) (rng_seed R sd) in
  let t1 := {| random := snd d0; stdout := stdout s;
               ds_opened := ds_opened s; ev_fetched := ev_fetched s |} in
  neg_bucket_of (label_seqi_dict self) lab = [] /\
  exists e,
    snd (SPIImgDataset_getitem W self idx s) = inl e /\
    (idx < size ->
     e <> index_check_error /\
     (SPIImg_len c = 0%nat -> e = empty_population_error) /\
     (SPIImg_len c <> 0%nat ->
      (fst d0 < SPIImg_len c)%nat /\
      match snd (SPIImg_getitem W c (Z.of_nat (fst d0)) t1) with
      | inl e' => e = e'
      | inr _ => e = empty_population_error
      end)).
Proof.
  intros Hall self d0 t1.
  split; [exact (single_label_no_negatives Hall) |].
  destruct (Z.lt_ge_cases idx size) as [Hlt | Hge].
  2:{ exists index_check_error. split; [| lia].
      unfold SPIImgDataset_getitem, SPIImgDataset_getitem_ids.
      replace (size_sample self <=? idx) with true
        by (symmetry; apply Z.leb_le; exact Hge).
      reflexivity. }
  assert (Hro : raises_only (fun e => e <> index_check_error)
                  (SPIImgDataset_getitem_ids (R := R) W self idx)).
  { apply raises_only_getitem_ids; try assumption; intros; discriminate. }
  destruct (@single_label_getitem R W c size sd idx lab s Hall Hlt)
    as [Hzero Hpos].
  fold self d0 t1 in Hzero, Hpos.
  assert (Hcheck : forall e,
            snd (SPIImgDataset_getitem W self idx s) = inl e ->
            e <> index_check_error).
  { intros e He. unfold SPIImgDataset_getitem, bind in He.
    destruct (SPIImgDataset_getitem_ids W self idx s) as [s' [e' | r]] eqn:Hrun;
      [| discriminate].
    cbn [snd] in He. inversion He; subst. exact (Hro _ _ _ Hrun). }
  destruct (Nat.eq_dec (SPIImg_len c) 0) as [Hn | Hn].
  - exists empty_population_error. split; [exact (Hzero Hn) |].
    intros _. split; [discriminate |].
    split; [reflexivity | contradiction].
  - destruct (Hpos Hn) as [Hin Hrun].
    destruct (snd (SPIImg_getitem W c (Z.of_nat (fst d0)) t1))
      as [e' | r] eqn:Hg.
    + exists e'. split; [exact Hrun |].
      intros _. split; [exact (Hcheck _ Hrun) |].
      split; [contradiction |]. intros _. split; [exact Hin | reflexivity].
    + exists empty_population_error. split; [exact Hrun |].
      intros _. split; [discriminate |].
      split; [reflexivity |]. intros _. split; [exact Hin | reflexivity].
Qed.

(** Two readable samples of label 1: the anchor is read, then sampling
    the empty pool of negatives fails. *)
Lemma C10_single_label_witness :
  Forall (fun x => sample_label x = 1) (imglabel_list Ex.catalog_one_label) /\
  snd (SPIImgDataset_getitem Ex.one_label
         (SPIImgDataset_of Ex.catalog_one_label 10 7) 0 Ex.s0)
  = inl empty_population_error /\
  neg_bucket_of
    (label_seqi_dict (SPIImgDataset_of Ex.catalog_one_label 10 7)) 1 = [] /\
  exists e,
    snd (SPIImgDataset_getitem Ex.one_label
           (SPIImgDataset_of Ex.catalog_one_label 10 7) 0 Ex.s0) = inl e /\
    (0 < 10 ->
     e <> index_check_error /\
     (SPIImg_len Ex.catalog_one_label = 0%nat ->
      e = empty_population_error) /\
     (SPIImg_len Ex.catalog_one_label <> 0%nat ->
      (fst (randbelow Ex.lcg (SPIImg_len Ex.catalog_one_label)
              (rng_seed Ex.lcg 7))
       < SPIImg_len Ex.catalog_one_label)%nat /\
      match
        snd (SPIImg_getitem Ex.one_label Ex.catalog_one_label
               (Z.of_nat
                  (fst (randbelow Ex.lcg (SPIImg_len Ex.catalog_one_label)
                          (rng_seed Ex.lcg 7))))
               {| random :=
                    snd (randbelow Ex.lcg (SPIImg_len Ex.catalog_one_label)
                           (rng_seed Ex.lcg 7));
                  stdout := stdout Ex.s0;
                  ds_opened := ds_opened Ex.s0;
                  ev_fetched := ev_fetched Ex.s0 |})
      with
      | inl e' => e = e'
      | inr _ => e = empty_population_error
      end)).
Proof.
  assert (H : Forall (fun x => sample_label x = 1)
                     (imglabel_list Ex.catalog_one_label))
    by (repeat constructor).
  split; [exact H |].
  split; [vm_compute; reflexivity |].
  exact (@C10_single_label Ex.lcg Ex.one_label Ex.catalog_one_label
           10 7 0 1 Ex.s0 H).
Defined.

(** The catalog built for a run whose only label names event 5, where
    the imaging source holds one event: every sample carries label 1,
    request 0 is in range, and the call fails with the range error of
    reading the anchor's image, not with the error of sampling from an
    empty population. *)
Lemma C10_unreadable_anchor_counterexample :
  snd (SPIImg_init Ex.short_run [Ex.header; manifest_line Ex.runA] Ex.s0)
  = inr Ex.catalog_short /\
  Forall (fun x => sample_label x = 1) (imglabel_list Ex.catalog_short) /\
  0 <= 0 < 10 /\
  snd (SPIImgDataset_getitem Ex.short_run
         (SPIImgDataset_of Ex.catalog_short 10 7) 0 Ex.s0)
  = inl list_range_error /\
  list_range_error <> empty_population_error.
Proof.
  split; [vm_compute; reflexivity |].
  split; [repeat constructor |].
  split; [lia |].
  split; [vm_compute; reflexivity | discriminate].
Qed.

(** ** Strings: numbers hold no dot, and names split at their dot *)

Section StringFacts.

Lemma lstrip_keeps (c : ascii) (cs : list ascii) :
  PyStr.is_space c = false -> In c cs -> In c (PyStr.lstrip cs).
Proof.
  intros Hc. induction cs as [| a r IH]; cbn; [tauto |].
  destruct (PyStr.is_space a) eqn:Ea.
  - intros [-> | H]; [congruence | auto].
  - intros H. exact H.
Qed.

Lemma strip_keeps (c : ascii) (cs : list ascii) :
  PyStr.is_space c = false -> In c cs -> In c (PyStr.strip cs).
Proof.
  intros Hc H. unfold PyStr.strip.
  apply in_rev. rewrite rev_involutive.
  apply lstrip_keeps; [assumption |].
  apply -> in_rev. now apply lstrip_keeps.
Qed.

Lemma digits_val_dot (cs : list ascii) :
  In "."%char cs -> forall acc seen, PyStr.digits_val acc seen cs = None.
Proof.
  induction cs as [| c r IH]; cbn; [tauto |].
  intros [-> | H] acc seen.
  - reflexivity.
  - destruct (PyStr.is_digit c); [now apply IH |].
    destruct (Ascii.eqb c "_" && seen)%bool; [now apply IH | reflexivity].
Qed.

Lemma mem_In (c : ascii) (s : string) :
  PyStr.mem c s = true -> In c (list_ascii_of_string s).
Proof.
  induction s as [| a r IH]; cbn; [discriminate |].
  intros H. apply orb_true_iff in H as [H | H].
  - left. now apply Ascii.eqb_eq.
  - right. auto.
Qed.

(** A string [int] accepts holds no dot. *)
Lemma int_no_dot (s : string) (z : Z) :
  PyStr.int s = Some z -> PyStr.mem "." s = false.
Proof.
  intros H. destruct (PyStr.mem "." s) eqn:E; [| reflexivity].
  exfalso. apply mem_In in E.
  apply strip_keeps in E; [| reflexivity].
  unfold PyStr.int in H. cbv zeta in H.
  destruct (PyStr.max_str_digits <? _); [discriminate |].
  destruct (PyStr.strip (list_ascii_of_string s)) as [| c r]; [discriminate |].
  destruct (Ascii.eqb c "-") eqn:Em.
  - apply Ascii.eqb_eq in Em; subst c.
    destruct E as [E | E]; [discriminate |].
    rewrite digits_val_dot in H by exact E. discriminate.
  - destruct (Ascii.eqb c "+") eqn:Ep.
    + apply Ascii.eqb_eq in Ep; subst c.
      destruct E as [E | E]; [discriminate |].
      rewrite digits_val_dot in H by exact E. discriminate.
    + rewrite digits_val_dot in H by exact E. discriminate.
Qed.

Lemma split_no_sep (sep : ascii) (s : string) :
  PyStr.mem sep s = false -> PyStr.split sep s = [s].
Proof.
  induction s as [| a r IH]; cbn; [reflexivity |].
  intros H. apply orb_false_iff in H as [Ha Hr].
  rewrite Ha, (IH Hr). reflexivity.
Qed.

Lemma split_at_sep (sep : ascii) (a b : string) :
  PyStr.mem sep a = false ->
  PyStr.split sep (a ^^ String sep b) = a :: PyStr.split sep b.
Proof.
  induction a as [| c r IH]; cbn.
  - intros _. now rewrite Ascii.eqb_refl.
  - intros H. apply orb_false_iff in H as [Hc Hr].
    rewrite Hc, (IH Hr). reflexivity.
Qed.

(** [f"{exp}.{run}".split(".")] gives back [exp] and [run]. *)
Lemma split_basename (exp run : string) :
  PyStr.mem "." exp = false -> PyStr.mem "." run = false ->
  PyStr.split "." (basename_of exp run) = [exp; run].
Proof.
  intros He Hr. unfold basename_of.
  change ("." ^^ run) with (String "." run).
  rewrite split_at_sep by exact He. now rewrite split_no_sep.
Qed.

End StringFacts.

(** ** The numeric order of a label file *)

Section NumericOrder.

Implicit Types (l : list (string * Z)).

Lemma numeric_order_perm l : Permutation (numeric_order l) l.
Proof.
  unfold numeric_order.
  rewrite (Permutation_map snd (sort_perm (map keyed l))).
  rewrite map_map. cbn. now rewrite map_id.
Qed.

Lemma sort_keyed_inv l :
  Forall (fun x => fst x = key_num (fst (snd x))) (PySort.sort (map keyed l)).
Proof.
  eapply Permutation_Forall; [symmetry; apply sort_perm |].
  apply Forall_forall. intros x Hx. apply in_map_iff in Hx as (kv & <- & _).
  reflexivity.
Qed.

Lemma sorted_map_snd (xs : list (Z * (string * Z))) :
  Forall (fun x => fst x = key_num (fst (snd x))) xs ->
  StronglySorted key_le xs ->
  StronglySorted (fun a b => key_num (fst a) <= key_num (fst b)) (map snd xs).
Proof.
  induction xs as [| x r IH]; cbn; intros Hinv Hs; [constructor |].
  inversion Hinv as [| ? ? Hx Hr]; inversion Hs as [| ? ? Hsr Hle]; subst.
  constructor; [auto |].
  apply Forall_map. rewrite Forall_forall in *.
  intros y Hy. specialize (Hle y Hy). specialize (Hr y Hy).
  unfold key_le in Hle. cbv beta in *. lia.
Qed.

(** The label index is in ascending order of the numeric event number. *)
Lemma numeric_order_sorted l :
  StronglySorted (fun a b => key_num (fst a) <= key_num (fst b))
                 (numeric_order l).
Proof.
  unfold numeric_order. apply sorted_map_snd.
  - apply sort_keyed_inv.
  - apply sort_sorted.
Qed.

Lemma filter_map_snd (z : Z) (xs : list (Z * (string * Z))) :
  Forall (fun x => fst x = key_num (fst (snd x))) xs ->
  filter (fun kv => key_num (fst kv) =? z) (map snd xs)
  = map snd (filter (fun x => fst x =? z) xs).
Proof.
  induction xs as [| x r IH]; cbn; intros Hinv; [reflexivity |].
  inversion Hinv as [| ? ? Hx Hr]; subst.
  rewrite <- Hx. destruct (fst x =? z); cbn; now rewrite IH.
Qed.

(** Entries of equal event number keep the order of the file. *)
Lemma numeric_order_stable (z : Z) l :
  filter (fun kv => key_num (fst kv) =? z) (numeric_order l)
  = filter (fun kv => key_num (fst kv) =? z) l.
Proof.
  unfold numeric_order.
  rewrite filter_map_snd by apply sort_keyed_inv.
  rewrite sort_stable.
  rewrite <- filter_map_snd.
  - rewrite map_map. cbn. now rewrite map_id.
  - apply Forall_forall. intros x Hx.
    apply in_map_iff in Hx as (kv & <- & _). reflexivity.
Qed.

Lemma numeric_order_length l :
  List.length (numeric_order l) = List.length l.
Proof. apply Permutation_length, numeric_order_perm. Qed.

Lemma numeric_order_NoDup_keys l :
  NoDup (map fst l) -> NoDup (map fst (numeric_order l)).
Proof.
  intros H. eapply Permutation_NoDup; [| exact H].
  symmetry. apply Permutation_map, numeric_order_perm.
Qed.

End NumericOrder.

(** ** The label-file parser *)

Section ParserFacts.

Context (R : RandomSource) (W : World).

Lemma add_effects_nil (s : State R) : add_effects s [] [] = s.
Proof. destruct s. unfold add_effects. cbn. now rewrite !app_nil_r. Qed.

Lemma add_effects_add (s : State R) (o1 o2 p1 p2 : list string) :
  add_effects (add_effects s o1 p1) o2 p2
  = add_effects s (o1 ++ o2) (p1 ++ p2).
Proof. unfold add_effects. cbn. now rewrite !app_assoc. Qed.

Lemma py_int_ok (k : string) (z : Z) (s : State R) :
  PyStr.int k = Some z -> py_int k s = (s, inr z).
Proof. intros H. unfold py_int. now rewrite H. Qed.

Lemma locate_labelfile_ok (exp run root user : string) (r : Z) (s : State R) :
  PyStr.int run = Some r -> environ_USER W = Some user ->
  ImgLabelFileParser_locate_labelfile W exp run root s
  = (s, inr (labelfile_path user exp r root)).
Proof.
  intros Hr Hu. unfold ImgLabelFileParser_locate_labelfile.
  rewrite Hu. unfold bind. rewrite (py_int_ok _ s Hr). cbv beta iota.
  rewrite (py_int_ok _ s Hr). reflexivity.
Qed.

Lemma mapM_keyed (items : list (string * Z)) (s : State R) :
  forallb (fun kv => is_int (fst kv)) items = true ->
  mapM (fun kv => k <- py_int (fst kv) ;; ret (k, kv)) items s
  = (s, inr (map keyed items)).
Proof.
  induction items as [| kv r IH]; cbn; intros H; [reflexivity |].
  apply andb_true_iff in H as [Hk Hr].
  unfold is_int in Hk. unfold bind at 1 2.
  destruct (PyStr.int (fst kv)) as [z |] eqn:E; [| discriminate].
  rewrite (py_int_ok _ s E). cbn. erewrite bind_ok by exact (IH Hr). cbn.
  unfold keyed, key_num. now rewrite E.
Qed.

Lemma sorted_by_int_key_ok (items : list (string * Z)) (s : State R) :
  forallb (fun kv => is_int (fst kv)) items = true ->
  sorted_by_int_key items s = (s, inr (numeric_order items)).
Proof.
  intros H. unfold sorted_by_int_key.
  erewrite bind_ok by exact (mapM_keyed _ s H). reflexivity.
Qed.

End ParserFacts.

Section ParserRuns.

Context (R : RandomSource) (W : World).

Lemma forallb_of_list (f : string * Z -> bool) (pairs : list (string * Z)) :
  forallb f pairs = true ->
  forallb f (PyDict.of_list String.eqb pairs) = true.
Proof.
  intros H. apply forallb_forall. intros kv Hkv.
  apply (dict_of_list_In String.eqb String.eqb_eq) in Hkv.
  rewrite forallb_forall in H. now apply H.
Qed.

(** A label file that is there and whose keys are numbers is parsed into
    its numeric order; nothing is printed. *)
Lemma parser_init_exists (exp run root user : string) (r : Z)
  (pairs : list (string * Z)) (s : State R) :
  PyStr.int run = Some r -> environ_USER W = Some user ->
  label_files W (labelfile_path user exp r root) = Some (JsonObject pairs) ->
  forallb (fun kv => is_int (fst kv)) pairs = true ->
  ImgLabelFileParser_init W exp run root s
  = (s, inr {| path_labelfile := labelfile_path user exp r root;
               imglabel_dict :=
                 numeric_order (PyDict.of_list String.eqb pairs) |}).
Proof.
  intros Hr Hu Hf Hk.
  unfold ImgLabelFileParser_init, ImgLabelFileParser_load_imglabel.
  erewrite bind_ok by exact (@locate_labelfile_ok R W exp run root user r s Hr Hu).
  rewrite Hf. cbn [json_load].
  unfold bind at 1. cbn [ret].
  erewrite bind_ok
    by (apply sorted_by_int_key_ok; unfold PyDict.items;
        now apply forallb_of_list).
  unfold ret. repeat f_equal.
  apply (dict_of_list_distinct String.eqb String.eqb_eq).
  apply numeric_order_NoDup_keys.
  apply (dict_of_list_NoDup String.eqb String.eqb_eq).
Qed.

(** Without label file the parser prints its diagnostic and keeps the
    empty dict. *)
Lemma parser_init_missing (exp run root user : string) (r : Z) (s : State R) :
  PyStr.int run = Some r -> environ_USER W = Some user ->
  label_files W (labelfile_path user exp r root) = None ->
  ImgLabelFileParser_init W exp run root s
  = (add_effects s []
       ["File doesn't exist!!! Missing "
          ^^ labelfile_path user exp r root ^^ "."],
     inr {| path_labelfile := labelfile_path user exp r root;
            imglabel_dict := [] |}).
Proof.
  intros Hr Hu Hf.
  unfold ImgLabelFileParser_init, ImgLabelFileParser_load_imglabel.
  erewrite bind_ok by exact (@locate_labelfile_ok R W exp run root user r s Hr Hu).
  rewrite Hf. unfold bind, print, ret, add_effects. cbn.
  now rewrite app_nil_r.
Qed.

End ParserRuns.

(** C5. For a label file that exists and maps event-number strings to
    labels, [ImgLabelFileParser] returns, without printing, an index
    that holds the entries of the file in ascending order of the numeric
    value of their keys: the index is sorted by [int(key)], it is a
    rearrangement of the mapping read from the file, and entries whose
    keys have the same numeric value keep the order of the file. *)
Theorem C5_label_index_numeric_order (R : RandomSource) (W : World)
  (exp run root user : string) (r : Z) (pairs : list (string * Z))
  (s : State R) :
  PyStr.int run = Some r -> environ_USER W = Some user ->
  label_files W (labelfile_path user exp r root) = Some (JsonObject pairs) ->
  forallb (fun kv => is_int (fst kv)) pairs = true ->
  exists p,
    ImgLabelFileParser_init W exp run root s = (s, inr p) /\
    StronglySorted (fun a b => key_num (fst a) <= key_num (fst b))
                   (imglabel_dict p) /\
    Permutation (imglabel_dict p) (PyDict.of_list String.eqb pairs) /\
    (forall z,
       filter (fun kv => key_num (fst kv) =? z) (imglabel_dict p)
       = filter (fun kv => key_num (fst kv) =? z)
                (PyDict.of_list String.eqb pairs)).
Proof.
  intros Hr Hu Hf Hk. eexists. split.
  - apply (@parser_init_exists R W exp run root user r pairs s Hr Hu Hf Hk).
  - cbn [imglabel_dict]. split; [apply numeric_order_sorted |].
    split; [apply numeric_order_perm |].
    intros z. apply numeric_order_stable.
Qed.

(** The label file [{"10":1,"2":0,"02":1}]: key 2 precedes key 10, and
    the keys 2 and 02 keep their order. *)
Lemma C5_label_index_numeric_order_witness :
  let pairs := [("10", 1); ("2", 0); ("02", 1)] in
  PyStr.int "1" = Some 1 /\ environ_USER Ex.ten_two = Some "alice" /\
  label_files Ex.ten_two (labelfile_path "alice" "A" 1 "/data")
  = Some (JsonObject pairs) /\
  forallb (fun kv => is_int (fst kv)) pairs = true /\
  snd (ImgLabelFileParser_init Ex.ten_two "A" "1" "/data" Ex.s0)
  = inr {| path_labelfile := "/data/A/alice/psocake/r0001/A_0001.label.json";
           imglabel_dict := [("2", 0); ("02", 1); ("10", 1)] |} /\
  exists p,
    ImgLabelFileParser_init Ex.ten_two "A" "1" "/data" Ex.s0
    = (Ex.s0, inr p) /\
    StronglySorted (fun a b => key_num (fst a) <= key_num (fst b))
                   (imglabel_dict p) /\
    Permutation (imglabel_dict p) (PyDict.of_list String.eqb pairs) /\
    (forall z,
       filter (fun kv => key_num (fst kv) =? z) (imglabel_dict p)
       = filter (fun kv => key_num (fst kv) =? z)
                (PyDict.of_list String.eqb pairs)).
Proof.
  intros pairs.
  assert (H1 : PyStr.int "1" = Some 1) by reflexivity.
  assert (H2 : environ_USER Ex.ten_two = Some "alice") by reflexivity.
  assert (H3 : label_files Ex.ten_two (labelfile_path "alice" "A" 1 "/data")
               = Some (JsonObject pairs)) by reflexivity.
  assert (H4 : forallb (fun kv => is_int (fst kv)) pairs = true)
    by reflexivity.
  split; [exact H1 |]. split; [exact H2 |]. split; [exact H3 |].
  split; [exact H4 |]. split; [vm_compute; reflexivity |].
  exact (@C5_label_index_numeric_order Ex.lcg Ex.ten_two "A" "1" "/data"
           "alice" 1 pairs Ex.s0 H1 H2 H3 H4).
Defined.

(** ** Catalog construction *)

Section Construction.

Context (R : RandomSource) (W : World).

Lemma PsanaImg_init_ok (exp run mode det : string) (ts : list timestamp)
  (s : State R) :
  psana_times W ("exp=" ^^ exp ^^ ":run=" ^^ run ^^ ":" ^^ mode) = Some ts ->
  PsanaImg_init W exp run mode det s
  = (add_effects s ["exp=" ^^ exp ^^ ":run=" ^^ run ^^ ":" ^^ mode] [],
     inr {| datasource_id := "exp=" ^^ exp ^^ ":run=" ^^ run ^^ ":" ^^ mode;
            detector_name := det;
            timestamps := ts |}).
Proof.
  intros H. unfold PsanaImg_init. cbv zeta. rewrite H.
  unfold add_effects. now rewrite app_nil_r.
Qed.

Lemma run_ok_inv (rd : RunDescriptor) :
  run_ok W rd = true ->
  exists r user ts,
    PyStr.int (rd_run rd) = Some r /\ environ_USER W = Some user /\
    PyStr.mem "." (rd_exp rd) = false /\
    psana_times W (run_datasource rd) = Some ts /\
    (label_files W (labelfile_path user (rd_exp rd) r (rd_root rd)) = None \/
     exists pairs,
       label_files W (labelfile_path user (rd_exp rd) r (rd_root rd))
       = Some (JsonObject pairs) /\
       forallb (fun kv => is_int (fst kv)) pairs = true).
Proof.
  unfold run_ok. intros H.
  destruct (PyStr.int (rd_run rd)) as [r |]; [| discriminate].
  destruct (environ_USER W) as [user |]; [| discriminate].
  apply andb_true_iff in H as [H Hf]. apply andb_true_iff in H as [He Ht].
  apply negb_true_iff in He.
  destruct (psana_times W (run_datasource rd)) as [ts |]; [| discriminate].
  exists r, user, ts. repeat split; try assumption.
  destruct (label_files W _) as [[| pairs] |]; [discriminate | | now left].
  right. now exists pairs.
Qed.

Lemma run_ok_split (rd : RunDescriptor) :
  run_ok W rd = true ->
  PyStr.split "." (run_basename rd) = [rd_exp rd; rd_run rd].
Proof.
  intros H. apply run_ok_inv in H as (r & user & ts & Hr & _ & He & _).
  apply split_basename; [exact He | exact (int_no_dot _ Hr)].
Qed.

Lemma run_ok_keys (rd : RunDescriptor) :
  run_ok W rd = true ->
  forallb (fun kv => is_int (fst kv)) (numeric_order (run_label_pairs W rd))
  = true.
Proof.
  intros H. apply run_ok_inv in H as (r & user & ts & Hr & Hu & _ & _ & Hf).
  apply forallb_forall. intros kv Hkv.
  eapply Permutation_in in Hkv; [| apply numeric_order_perm].
  unfold run_label_pairs, run_labelfile in Hkv. rewrite Hr, Hu in Hkv.
  destruct Hf as [Hf | (pairs & Hf & Hk)]; rewrite Hf in Hkv; [destruct Hkv |].
  apply (dict_of_list_In String.eqb String.eqb_eq) in Hkv.
  rewrite forallb_forall in Hk. now apply Hk.
Qed.

Lemma run_ok_samples (rd : RunDescriptor) :
  run_ok W rd = true ->
  entry_samples (run_dataset_entry W rd) = run_samples W rd.
Proof.
  intros H. unfold entry_samples, run_dataset_entry. cbn [fst snd].
  now rewrite (run_ok_split _ H).
Qed.

(** One manifest row: the data source is opened, the label file parsed,
    and both dicts receive the entry of the row. *)
Lemma SPIImg_init_line_ok (rd : RunDescriptor)
  (acc : PyDict.t string PsanaImg * PyDict.t string (PyDict.t string Z))
  (s : State R) :
  run_ok W rd = true ->
  SPIImg_init_line W acc (manifest_line rd) s
  = (add_effects s [run_datasource rd] (run_diagnostic W rd),
     inr (PyDict.set String.eqb (run_basename rd) (run_reader W rd) (fst acc),
          PyDict.set String.eqb (run_basename rd)
                     (numeric_order (run_label_pairs W rd)) (snd acc))).
Proof.
  intros H. apply run_ok_inv in H as (r & user & ts & Hr & Hu & _ & Ht & Hf).
  unfold SPIImg_init_line, manifest_line. cbv zeta.
  erewrite bind_ok
    by exact (@PsanaImg_init_ok (rd_exp rd) (rd_run rd) (rd_mode rd)
                (rd_detector rd) ts s Ht).
  unfold run_reader, run_label_pairs, run_labelfile, run_diagnostic.
  fold (run_datasource rd). rewrite Ht, Hr, Hu.
  destruct Hf as [Hf | (pairs & Hf & Hk)]; rewrite Hf.
  - erewrite bind_ok
      by exact (@parser_init_missing R W (rd_exp rd) (rd_run rd) (rd_root rd)
                  user r _ Hr Hu Hf).
    rewrite add_effects_add. reflexivity.
  - erewrite bind_ok
      by exact (@parser_init_exists R W (rd_exp rd) (rd_run rd) (rd_root rd)
                  user r pairs _ Hr Hu Hf Hk).
    reflexivity.
Qed.

Lemma SPIImg_init_lines_ok (runs : list RunDescriptor) :
  forallb (run_ok W) runs = true ->
  forall acc (s : State R),
    foldM (SPIImg_init_line W) (map manifest_line runs) acc s
    = (add_effects s (map run_datasource runs)
                   (flat_map (run_diagnostic W) runs),
       inr (fold_left (fun d e => PyDict.set String.eqb (fst e) (snd e) d)
                      (map (run_reader_entry W) runs) (fst acc),
            fold_left (fun d e => PyDict.set String.eqb (fst e) (snd e) d)
                      (map (run_dataset_entry W) runs) (snd acc))).
Proof.
  induction runs as [| rd r IH]; cbn [map forallb foldM flat_map fold_left];
    intros H acc s.
  - rewrite add_effects_nil. now destruct acc.
  - apply andb_true_iff in H as [Hrd Hr].
    erewrite bind_ok by exact (SPIImg_init_line_ok rd acc s Hrd).
    rewrite (IH Hr). rewrite add_effects_add. reflexivity.
Qed.

Lemma init_dataset_inner (exp run : string) (content : list (string * Z)) :
  forallb (fun kv => is_int (fst kv)) content = true ->
  forall (lst : list sample) (s : State R),
    foldM (fun lst kv =>
             event_num <- py_int (fst kv) ;;
             ret (lst ++ [(exp, run, event_num, snd kv)]))
          content lst s
    = (s, inr (lst ++ map (fun kv => (exp, run, key_num (fst kv), snd kv))
                          content)).
Proof.
  induction content as [| kv r IH]; cbn [map forallb foldM]; intros H lst s.
  - now rewrite app_nil_r.
  - apply andb_true_iff in H as [Hk Hr]. unfold is_int in Hk.
    destruct (PyStr.int (fst kv)) as [z |] eqn:E; [| discriminate].
    unfold bind at 1 2. rewrite (py_int_ok _ s E). cbn [ret].
    rewrite (IH Hr). unfold key_num. rewrite E.
    now rewrite <- app_assoc.
Qed.

Lemma SPIImg_init_dataset_ok (entry : string * PyDict.t string Z)
  (exp run : string) (lst : list sample) (s : State R) :
  PyStr.split "." (fst entry) = [exp; run] ->
  forallb (fun kv => is_int (fst kv)) (snd entry) = true ->
  SPIImg_init_dataset lst entry s = (s, inr (lst ++ entry_samples entry)).
Proof.
  intros Hs Hk. unfold SPIImg_init_dataset, entry_samples. rewrite Hs.
  now apply init_dataset_inner.
Qed.

Lemma SPIImg_init_datasets_ok (dd : PyDict.t string (PyDict.t string Z)) :
  Forall (fun entry =>
            (exists exp run, PyStr.split "." (fst entry) = [exp; run]) /\
            forallb (fun kv => is_int (fst kv)) (snd entry) = true) dd ->
  forall (lst : list sample) (s : State R),
    foldM (@SPIImg_init_dataset R) dd lst s
    = (s, inr (lst ++ flat_map entry_samples dd)).
Proof.
  induction dd as [| entry r IH]; cbn [foldM flat_map]; intros H lst s.
  - now rewrite app_nil_r.
  - inversion H as [| ? ? [(exp & run & Hs) Hk] Hr]; subst.
    erewrite bind_ok by exact (SPIImg_init_dataset_ok entry lst s Hs Hk).
    rewrite (IH Hr). now rewrite <- app_assoc.
Qed.

(** The catalog of a manifest whose rows can all be processed. A row
    whose name occurred before replaces the entries of that name. *)
Lemma SPIImg_init_ok (hdr : list string) (runs : list RunDescriptor)
  (s : State R) :
  forallb (run_ok W) runs = true ->
  SPIImg_init W (hdr :: map manifest_line runs) s
  = (add_effects s (map run_datasource runs)
                 (flat_map (run_diagnostic W) runs),
     inr {| dataset_dict :=
              PyDict.of_list String.eqb (map (run_dataset_entry W) runs);
            imglabel_list :=
              flat_map entry_samples
                (PyDict.of_list String.eqb (map (run_dataset_entry W) runs));
            psana_imgreader_dict :=
              PyDict.of_list String.eqb (map (run_reader_entry W) runs) |}).
Proof.
  intros H. unfold SPIImg_init.
  erewrite bind_ok by exact (SPIImg_init_lines_ok runs H ([], []) s).
  cbn [fst snd]. fold (PyDict.of_list String.eqb (map (run_dataset_entry W) runs)).
  fold (PyDict.of_list String.eqb (map (run_reader_entry W) runs)).
  erewrite bind_ok; [reflexivity |].
  unfold PyDict.items.
  rewrite SPIImg_init_datasets_ok; [reflexivity |].
  apply Forall_forall. intros entry Hin.
  apply (dict_of_list_In String.eqb String.eqb_eq) in Hin.
  apply in_map_iff in Hin as (rd & <- & Hrd).
  rewrite forallb_forall in H. specialize (H rd Hrd).
  split.
  - exists (rd_exp rd), (rd_run rd). now apply run_ok_split.
  - now apply run_ok_keys.
Qed.

Lemma of_list_entries {V : Type} (f : RunDescriptor -> V)
  (runs : list RunDescriptor) :
  NoDup (map run_basename runs) ->
  PyDict.of_list String.eqb (map (fun rd => (run_basename rd, f rd)) runs)
  = map (fun rd => (run_basename rd, f rd)) runs.
Proof.
  intros H. apply (dict_of_list_distinct String.eqb String.eqb_eq).
  now rewrite map_map.
Qed.

Lemma flat_map_run_samples (runs : list RunDescriptor) :
  forallb (run_ok W) runs = true ->
  flat_map entry_samples (map (run_dataset_entry W) runs)
  = flat_map (run_samples W) runs.
Proof.
  induction runs as [| rd r IH]; cbn [map flat_map forallb]; intros H;
    [reflexivity |].
  apply andb_true_iff in H as [Hrd Hr].
  now rewrite (run_ok_samples _ Hrd), (IH Hr).
Qed.

(** With pairwise distinct names every row keeps its entries. *)
Lemma SPIImg_init_distinct (hdr : list string) (runs : list RunDescriptor)
  (s : State R) :
  forallb (run_ok W) runs = true ->
  NoDup (map run_basename runs) ->
  SPIImg_init W (hdr :: map manifest_line runs) s
  = (add_effects s (map run_datasource runs)
                 (flat_map (run_diagnostic W) runs),
     inr {| dataset_dict := map (run_dataset_entry W) runs;
            imglabel_list := flat_map (run_samples W) runs;
            psana_imgreader_dict := map (run_reader_entry W) runs |}).
Proof.
  intros H Hnd. rewrite (SPIImg_init_ok hdr runs s H).
  unfold run_dataset_entry, run_reader_entry.
  rewrite !(of_list_entries _ runs Hnd).
  rewrite <- (flat_map_run_samples runs H). reflexivity.
Qed.

End Construction.

(** ** What each run contributes *)

Section Contributions.

Context (W : World).

Lemma run_samples_length (rd : RunDescriptor) :
  List.length (run_samples W rd) = List.length (run_label_pairs W rd).
Proof. unfold run_samples. now rewrite length_map, numeric_order_length. Qed.

Lemma flat_map_run_samples_length (runs : list RunDescriptor) :
  List.length (flat_map (run_samples W) runs) = total_pairs W runs.
Proof.
  unfold total_pairs. induction runs as [| rd r IH]; cbn; [reflexivity |].
  now rewrite length_app, run_samples_length, IH.
Qed.

Lemma run_samples_sorted (rd : RunDescriptor) :
  StronglySorted Z.le (map sample_event (run_samples W rd)).
Proof.
  unfold run_samples. rewrite map_map. cbn.
  pose proof (numeric_order_sorted (run_label_pairs W rd)) as H.
  induction H as [| kv r Hr IH Hle]; cbn; constructor; [assumption |].
  apply Forall_map. exact Hle.
Qed.

Lemma from_run_same (rd : RunDescriptor) :
  filter (from_run rd) (run_samples W rd) = run_samples W rd.
Proof.
  unfold run_samples. induction (numeric_order _) as [| kv r IH];
    cbn; [reflexivity |].
  unfold from_run at 1. cbn. rewrite !String.eqb_refl. cbn. now rewrite IH.
Qed.

Lemma from_run_other (rd rd' : RunDescriptor) :
  run_basename rd' <> run_basename rd ->
  filter (from_run rd) (run_samples W rd') = [].
Proof.
  intros Hne. unfold run_samples.
  induction (numeric_order _) as [| kv r IH]; cbn; [reflexivity |].
  unfold from_run at 1. cbn.
  destruct (String.eqb (rd_exp rd') (rd_exp rd)) eqn:Ee;
    [| cbn; exact IH].
  destruct (String.eqb (rd_run rd') (rd_run rd)) eqn:Er;
    [| cbn; exact IH].
  exfalso. apply Hne. apply String.eqb_eq in Ee, Er.
  unfold run_basename. now rewrite Ee, Er.
Qed.

Lemma from_run_others (rd : RunDescriptor) (runs : list RunDescriptor) :
  ~ In (run_basename rd) (map run_basename runs) ->
  filter (from_run rd) (flat_map (run_samples W) runs) = [].
Proof.
  induction runs as [| rd' r IH]; cbn; intros H; [reflexivity |].
  rewrite filter_app, from_run_other, IH; [reflexivity | tauto |].
  intros E. apply H. now left.
Qed.

(** In a catalog of distinct names the samples of a run are those its
    own label file defines. *)
Lemma from_run_catalog (rd : RunDescriptor) (runs : list RunDescriptor) :
  NoDup (map run_basename runs) -> In rd runs ->
  filter (from_run rd) (flat_map (run_samples W) runs) = run_samples W rd.
Proof.
  induction runs as [| rd' r IH]; cbn; intros Hnd Hin; [destruct Hin |].
  inversion Hnd as [| ? ? Hnot Hnd']; subst.
  rewrite filter_app. destruct Hin as [-> | Hin].
  - rewrite from_run_same, from_run_others by exact Hnot.
    now rewrite app_nil_r.
  - rewrite from_run_other.
    + now rewrite IH.
    + intros E. apply Hnot. rewrite E. now apply in_map.
Qed.

End Contributions.

(** ** Computations that open no data source *)

Section Frames.

Context (R : RandomSource) (W : World).

Lemma opens_nothing_bind {A B : Type} (m : M R A) (f : A -> M R B) :
  opens_nothing m -> (forall a, opens_nothing (f a)) ->
  opens_nothing (bind m f).
Proof.
  intros Hm Hf s. unfold bind. specialize (Hm s).
  destruct (m s) as [s1 [e | a]]; cbn in *; [exact Hm |].
  now rewrite Hf.
Qed.

Lemma opens_nothing_ret {A : Type} (a : A) : opens_nothing (@ret R A a).
Proof. intros s. reflexivity. Qed.

Lemma opens_nothing_raise {A : Type} (e : exn) :
  opens_nothing (@raise R A e).
Proof. intros s. reflexivity. Qed.

Lemma opens_nothing_lift {A : Type} (r : result A) :
  opens_nothing (@lift R A r).
Proof. intros s. reflexivity. Qed.

Lemma opens_nothing_print (line : string) : opens_nothing (@print R line).
Proof. intros s. reflexivity. Qed.

Lemma opens_nothing_sample1 {A : Type} (pop : list A) :
  opens_nothing (@random_sample1 R A pop).
Proof.
  destruct pop; [apply opens_nothing_raise |].
  apply opens_nothing_bind; [| intros j; apply opens_nothing_lift].
  intros s. unfold random_randbelow. now destruct (randbelow R _ _).
Qed.

Lemma opens_nothing_PsanaImg_get (self : PsanaImg) (e : Z) :
  opens_nothing (PsanaImg_get (R := R) W self e).
Proof.
  apply opens_nothing_bind; [apply opens_nothing_lift |].
  intros ts s. reflexivity.
Qed.

Lemma opens_nothing_SPIImg_load (c : SPIImg) (idx : Z) :
  opens_nothing (SPIImg_load (R := R) W c idx).
Proof.
  apply opens_nothing_bind; [apply opens_nothing_lift |].
  intros [[[exp run] ev] lb].
  apply opens_nothing_bind; [apply opens_nothing_print |].
  intros _. cbv beta zeta.
  destruct (PyDict.get _ _ _); [| apply opens_nothing_raise].
  apply opens_nothing_bind; [apply opens_nothing_PsanaImg_get |].
  intros img. apply opens_nothing_ret.
Qed.

Lemma opens_nothing_SPIImg_getitem (c : SPIImg) (idx : Z) :
  opens_nothing (SPIImg_getitem (R := R) W c idx).
Proof.
  apply opens_nothing_bind; [apply opens_nothing_SPIImg_load |].
  intros r. apply opens_nothing_ret.
Qed.

Lemma opens_nothing_get_imagesize (c : SPIImg) (idx : Z) :
  opens_nothing (SPIImg_get_imagesize (R := R) W c idx).
Proof.
  apply opens_nothing_bind; [apply opens_nothing_SPIImg_load |].
  intros r. apply opens_nothing_ret.
Qed.

Lemma opens_nothing_triplet (self : SPIImgDataset) (idx : Z) :
  opens_nothing (SPIImgDataset_getitem (R := R) W self idx).
Proof.
  apply opens_nothing_bind; [| intros r; apply opens_nothing_ret].
  unfold SPIImgDataset_getitem_ids.
  destruct (size_sample self <=? idx); [apply opens_nothing_raise |].
  apply opens_nothing_bind; [intros s; reflexivity |].
  intros _. cbv beta zeta.
  apply opens_nothing_bind; [apply opens_nothing_sample1 |]. intros a.
  apply opens_nothing_bind; [apply opens_nothing_SPIImg_getitem |].
  intros [ia la]. cbv beta zeta.
  destruct (PyDict.get _ _ _); [| apply opens_nothing_raise].
  apply opens_nothing_bind; [apply opens_nothing_sample1 |]. intros p.
  apply opens_nothing_bind; [apply opens_nothing_sample1 |]. intros n.
  apply opens_nothing_bind; [apply opens_nothing_SPIImg_getitem |].
  intros [ip lp].
  apply opens_nothing_bind; [apply opens_nothing_SPIImg_getitem |].
  intros [ineg ln]. apply opens_nothing_ret.
Qed.

End Frames.

(** C1, as the code has it. For a manifest whose rows the constructor
    can process and whose [exp.run] names are pairwise distinct, [SPIImg]
    is built; its [imglabel_list] is the samples of the runs in manifest
    order, each run's in ascending numeric order of the event number;
    [len] is the number [N] of pairs the label files define together;
    and the positions that hold a sample are exactly [0 .. N-1]. *)
Theorem C1_catalog_order (R : RandomSource) (W : World)
  (hdr : list string) (runs : list RunDescriptor) (s : State R) :
  forallb (run_ok W) runs = true ->
  NoDup (map run_basename runs) ->
  exists s' c,
    SPIImg_init W (hdr :: map manifest_line runs) s = (s', inr c) /\
    imglabel_list c = flat_map (run_samples W) runs /\
    SPIImg_len c = total_pairs W runs /\
    (forall i, (i < total_pairs W runs)%nat <->
               exists x, nth_error (imglabel_list c) i = Some x) /\
    Forall (fun rd =>
              StronglySorted Z.le (map sample_event (run_samples W rd)) /\
              List.length (run_samples W rd)
              = List.length (run_label_pairs W rd)) runs.
Proof.
  intros Hok Hnd. eexists. eexists. split.
  - apply (SPIImg_init_distinct W hdr runs s Hok Hnd).
  - cbn [imglabel_list]. unfold SPIImg_len. cbn [imglabel_list].
    split; [reflexivity |].
    split; [apply flat_map_run_samples_length |].
    split.
    + intros i. rewrite <- flat_map_run_samples_length.
      rewrite <- nth_error_Some.
      destruct (nth_error (flat_map (run_samples W) runs) i) as [x |].
      * split; [intros _; now exists x | intros _; discriminate].
      * split; [intros H; now contradiction H | intros [x Hx]; discriminate].
    + apply Forall_forall. intros rd _.
      split; [apply run_samples_sorted | apply run_samples_length].
Qed.

(** The end-to-end scenario: runs [A] and [B] give the catalog
    [(A,0,1), (A,2,1), (A,5,0), (B,1,0)]. *)
Lemma C1_catalog_order_witness :
  forallb (run_ok Ex.two_runs) [Ex.runA; Ex.runB] = true /\
  NoDup (map run_basename [Ex.runA; Ex.runB]) /\
  flat_map (run_samples Ex.two_runs) [Ex.runA; Ex.runB]
  = [("A", "1", 0, 1); ("A", "1", 2, 1); ("A", "1", 5, 0); ("B", "2", 1, 0)] /\
  exists s' c,
    SPIImg_init Ex.two_runs (Ex.header :: map manifest_line [Ex.runA; Ex.runB])
                Ex.s0 = (s', inr c) /\
    imglabel_list c = flat_map (run_samples Ex.two_runs) [Ex.runA; Ex.runB] /\
    SPIImg_len c = total_pairs Ex.two_runs [Ex.runA; Ex.runB] /\
    (forall i, (i < total_pairs Ex.two_runs [Ex.runA; Ex.runB])%nat <->
               exists x, nth_error (imglabel_list c) i = Some x) /\
    Forall (fun rd =>
              StronglySorted Z.le
                (map sample_event (run_samples Ex.two_runs rd)) /\
              List.length (run_samples Ex.two_runs rd)
              = List.length (run_label_pairs Ex.two_runs rd))
           [Ex.runA; Ex.runB].
Proof.
  assert (H1 : forallb (run_ok Ex.two_runs) [Ex.runA; Ex.runB] = true)
    by (vm_compute; reflexivity).
  assert (H2 : NoDup (map run_basename [Ex.runA; Ex.runB])).
  { repeat constructor; cbn; intuition discriminate. }
  split; [exact H1 |]. split; [exact H2 |].
  split; [vm_compute; reflexivity |].
  exact (@C1_catalog_order Ex.lcg Ex.two_runs Ex.header
           [Ex.runA; Ex.runB] Ex.s0 H1 H2).
Defined.

(** A manifest that lists run [A.1] twice, under two root directories
    whose label files define one pair each: both rows are processed,
    the label files define two pairs together, and the catalog holds
    one sample, the one of the second row. *)
Lemma C1_listed_twice_counterexample :
  forallb (run_ok Ex.listed_twice) [Ex.runA; Ex.runA_other] = true /\
  total_pairs Ex.listed_twice [Ex.runA; Ex.runA_other] = 2%nat /\
  exists c,
    snd (SPIImg_init Ex.listed_twice
           (Ex.header :: map manifest_line [Ex.runA; Ex.runA_other]) Ex.s0)
    = inr c /\
    imglabel_list c = [("A", "1", 7, 0)] /\
    SPIImg_len c <> total_pairs Ex.listed_twice [Ex.runA; Ex.runA_other].
Proof.
  split; [vm_compute; reflexivity |].
  split; [vm_compute; reflexivity |].
  eexists. split; [vm_compute; reflexivity |].
  split; [reflexivity | vm_compute; discriminate].
Qed.

(** C6, as the code has it. When no label file exists at the computed
    path, [ImgLabelFileParser] does not raise: it prints its diagnostic
    and keeps an empty index. A manifest of pairwise distinct [exp.run]
    names that holds such a run is still turned into a catalog (given
    that its rows can be processed); no sample of the catalog belongs to
    that run, and every run of the manifest has as many samples in the
    catalog as its label file defines pairs. *)
Theorem C6_missing_label_file (R : RandomSource) (W : World)
  (hdr : list string) (runs : list RunDescriptor) (rd : RunDescriptor)
  (user : string) (r : Z) (s t : State R) :
  PyStr.int (rd_run rd) = Some r -> environ_USER W = Some user ->
  label_files W (labelfile_path user (rd_exp rd) r (rd_root rd)) = None ->
  forallb (run_ok W) runs = true ->
  NoDup (map run_basename runs) ->
  In rd runs ->
  (exists p,
     ImgLabelFileParser_init W (rd_exp rd) (rd_run rd) (rd_root rd) t
     = (add_effects t []
          ["File doesn't exist!!! Missing "
             ^^ labelfile_path user (rd_exp rd) r (rd_root rd) ^^ "."],
        inr p) /\
     imglabel_dict p = []) /\
  exists s' c,
    SPIImg_init W (hdr :: map manifest_line runs) s = (s', inr c) /\
    filter (from_run rd) (imglabel_list c) = [] /\
    (forall rd', In rd' runs ->
       List.length (filter (from_run rd') (imglabel_list c))
       = List.length (run_label_pairs W rd')) /\
    SPIImg_len c = total_pairs W runs.
Proof.
  intros Hr Hu Hf Hok Hnd Hin. split.
  - eexists. split.
    + apply (@parser_init_missing R W (rd_exp rd) (rd_run rd) (rd_root rd)
               user r t Hr Hu Hf).
    + reflexivity.
  - eexists. eexists. split.
    + apply (SPIImg_init_distinct W hdr runs s Hok Hnd).
    + cbn [imglabel_list]. unfold SPIImg_len. cbn [imglabel_list].
      split; [| split].
      * rewrite (from_run_catalog W rd runs Hnd Hin).
        unfold run_samples, run_label_pairs, run_labelfile.
        now rewrite Hr, Hu, Hf.
      * intros rd' Hin'. rewrite (from_run_catalog W rd' runs Hnd Hin').
        apply run_samples_length.
      * apply flat_map_run_samples_length.
Qed.

(** Runs [A] and [B], the label file of [B] missing: the catalog holds
    the two samples of [A] and none of [B]. *)
Lemma C6_missing_label_file_witness :
  PyStr.int (rd_run Ex.runB) = Some 2 /\
  environ_USER Ex.one_missing = Some "alice" /\
  label_files Ex.one_missing
    (labelfile_path "alice" (rd_exp Ex.runB) 2 (rd_root Ex.runB)) = None /\
  forallb (run_ok Ex.one_missing) [Ex.runA; Ex.runB] = true /\
  NoDup (map run_basename [Ex.runA; Ex.runB]) /\
  In Ex.runB [Ex.runA; Ex.runB] /\
  (exists p,
     ImgLabelFileParser_init Ex.one_missing
       (rd_exp Ex.runB) (rd_run Ex.runB) (rd_root Ex.runB) Ex.s0
     = (add_effects Ex.s0 []
          ["File doesn't exist!!! Missing "
             ^^ labelfile_path "alice" (rd_exp Ex.runB) 2 (rd_root Ex.runB)
             ^^ "."],
        inr p) /\
     imglabel_dict p = []) /\
  exists s' c,
    SPIImg_init Ex.one_missing
      (Ex.header :: map manifest_line [Ex.runA; Ex.runB]) Ex.s0
    = (s', inr c) /\
    filter (from_run Ex.runB) (imglabel_list c) = [] /\
    (forall rd', In rd' [Ex.runA; Ex.runB] ->
       List.length (filter (from_run rd') (imglabel_list c))
       = List.length (run_label_pairs Ex.one_missing rd')) /\
    SPIImg_len c = total_pairs Ex.one_missing [Ex.runA; Ex.runB].
Proof.
  assert (H1 : PyStr.int (rd_run Ex.runB) = Some 2) by reflexivity.
  assert (H2 : environ_USER Ex.one_missing = Some "alice") by reflexivity.
  assert (H3 : label_files Ex.one_missing
                 (labelfile_path "alice" (rd_exp Ex.runB) 2 (rd_root Ex.runB))
               = None) by reflexivity.
  assert (H4 : forallb (run_ok Ex.one_missing) [Ex.runA; Ex.runB] = true)
    by (vm_compute; reflexivity).
  assert (H5 : NoDup (map run_basename [Ex.runA; Ex.runB])).
  { repeat constructor; cbn; intuition discriminate. }
  assert (H6 : In Ex.runB [Ex.runA; Ex.runB]) by (right; now left).
  split; [exact H1 |]. split; [exact H2 |]. split; [exact H3 |].
  split; [exact H4 |]. split; [exact H5 |]. split; [exact H6 |].
  exact (@C6_missing_label_file Ex.lcg Ex.one_missing Ex.header
           [Ex.runA; Ex.runB] Ex.runB "alice" 2 Ex.s0 Ex.s0
           H1 H2 H3 H4 H5 H6).
Defined.

(** A manifest that lists run [A.1] twice, the label file missing under
    the second root directory: the first row's label file defines one
    pair, both rows are processed, and the catalog is empty. *)
Lemma C6_second_missing_counterexample :
  forallb (run_ok Ex.second_missing) [Ex.runA; Ex.runA_other] = true /\
  run_labelfile Ex.second_missing Ex.runA_other = None /\
  List.length (run_label_pairs Ex.second_missing Ex.runA) = 1%nat /\
  exists c,
    snd (SPIImg_init Ex.second_missing
           (Ex.header :: map manifest_line [Ex.runA; Ex.runA_other]) Ex.s0)
    = inr c /\
    imglabel_list c = [].
Proof.
  split; [vm_compute; reflexivity |].
  split; [vm_compute; reflexivity |].
  split; [vm_compute; reflexivity |].
  eexists. split; [vm_compute; reflexivity | reflexivity].
Qed.

(** C9, as the code has it. [SPIImg.__init__] constructs one [PsanaImg]
    per manifest row, opening the row's data source once, in manifest
    order. For a manifest whose rows the constructor can process and
    whose [exp.run] names are pairwise distinct, that is exactly one
    accessor per run, and every one of them is stored in
    [psana_imgreader_dict] under the name of its run: the dict holds one
    entry per run, in manifest order, and no other. Afterwards
    [__getitem__] and [get_imagesize] of the catalog, and [__getitem__]
    of the triplet dataset, open no data source: they look the accessor
    up in the dict of the catalog, which no method changes, whatever the
    index and however the call ends. *)
Theorem C9_accessors_opened_once (R : RandomSource) (W : World)
  (hdr : list string) (runs : list RunDescriptor) (s t : State R)
  (c0 : SPIImg) (self : SPIImgDataset) (idx : Z) :
  forallb (run_ok W) runs = true ->
  NoDup (map run_basename runs) ->
  (exists s' c,
     SPIImg_init W (hdr :: map manifest_line runs) s = (s', inr c) /\
     ds_opened s' = ds_opened s ++ map run_datasource runs /\
     psana_imgreader_dict c = map (run_reader_entry W) runs /\
     List.length (psana_imgreader_dict c) = List.length runs /\
     NoDup (PyDict.keys (psana_imgreader_dict c)) /\
     (forall rd, In rd runs ->
        PyDict.get String.eqb (run_basename rd) (psana_imgreader_dict c)
        = Some (run_reader W rd)) /\
     (forall k reader,
        In (k, reader) (psana_imgreader_dict c) ->
        exists rd, In rd runs /\ k = run_basename rd /\
                   reader = run_reader W rd)) /\
  ds_opened (fst (SPIImg_getitem W c0 idx t)) = ds_opened t /\
  ds_opened (fst (SPIImg_get_imagesize W c0 idx t)) = ds_opened t /\
  ds_opened (fst (SPIImgDataset_getitem W self idx t)) = ds_opened t.
Proof.
  intros Hok Hnd. split.
  - eexists. eexists.
    split; [apply (SPIImg_init_distinct W hdr runs s Hok Hnd) |].
    cbn [psana_imgreader_dict].
    assert (Hkeys : NoDup (PyDict.keys (map (run_reader_entry W) runs))).
    { unfold PyDict.keys. rewrite map_map. exact Hnd. }
    split; [reflexivity |]. split; [reflexivity |].
    split; [apply length_map |].
    split; [exact Hkeys |].
    split.
    + intros rd Hrd.
      apply (dict_get_In String.eqb String.eqb_eq); [exact Hkeys |].
      apply in_map_iff. exists rd. now split.
    + intros k reader Hin.
      apply in_map_iff in Hin as (rd & E & Hrd).
      inversion E; subst. now exists rd.
  - split; [apply opens_nothing_SPIImg_getitem |].
    split; [apply opens_nothing_get_imagesize | apply opens_nothing_triplet].
Qed.

(** The two-run manifest opens two data sources and stores the accessor
    of [B] under [B.2]; request 3 of the sampler opens none. *)
Lemma C9_accessors_opened_once_witness :
  forallb (run_ok Ex.two_runs) [Ex.runA; Ex.runB] = true /\
  NoDup (map run_basename [Ex.runA; Ex.runB]) /\
  ds_opened (fst (SPIImg_init Ex.two_runs
                    (Ex.header :: map manifest_line [Ex.runA; Ex.runB])
                    Ex.s0))
  = ["exp=A:run=1:idx"; "exp=B:run=2:idx"] /\
  (exists c,
     snd (SPIImg_init Ex.two_runs
            (Ex.header :: map manifest_line [Ex.runA; Ex.runB]) Ex.s0)
     = inr c /\
     PyDict.get String.eqb "B.2" (psana_imgreader_dict c)
     = Some (run_reader Ex.two_runs Ex.runB)) /\
  ds_opened (fst (SPIImgDataset_getitem Ex.two_runs Ex.sampler2 3 Ex.s_busy))
  = ds_opened Ex.s_busy.
Proof.
  assert (H1 : forallb (run_ok Ex.two_runs) [Ex.runA; Ex.runB] = true)
    by (vm_compute; reflexivity).
  assert (H2 : NoDup (map run_basename [Ex.runA; Ex.runB])).
  { repeat constructor; cbn; intuition discriminate. }
  split; [exact H1 |]. split; [exact H2 |].
  pose proof (@C9_accessors_opened_once Ex.lcg Ex.two_runs Ex.header
                [Ex.runA; Ex.runB] Ex.s0 Ex.s_busy Ex.catalog2 Ex.sampler2 3
                H1 H2) as (Hinit & _ & _ & Hget).
  destruct Hinit as (s' & c & Hrun & Hopened & _ & _ & _ & Hstored & _).
  split; [rewrite Hrun; cbn [fst]; rewrite Hopened; reflexivity |].
  split; [| exact Hget].
  exists c. split; [rewrite Hrun; reflexivity |].
  apply (Hstored Ex.runB). right. now left.
Defined.

(** A manifest that lists run [A.1] twice: both rows are processed, the
    data source of the run is opened twice, once per row, and one
    accessor is kept for the two rows. *)
Lemma C9_listed_twice_counterexample :
  forallb (run_ok Ex.listed_twice) [Ex.runA; Ex.runA_other] = true /\
  exists s' c,
    SPIImg_init Ex.listed_twice
      (Ex.header :: map manifest_line [Ex.runA; Ex.runA_other]) Ex.s0
    = (s', inr c) /\
    ds_opened s' = ["exp=A:run=1:idx"; "exp=A:run=1:idx"] /\
    PyDict.keys (psana_imgreader_dict c) = ["A.1"] /\
    List.length (psana_imgreader_dict c)
    <> List.length [Ex.runA; Ex.runA_other].
Proof.
  split; [vm_compute; reflexivity |].
  eexists. eexists. split; [vm_compute; reflexivity |].
  split; [reflexivity |]. split; [reflexivity |].
  cbn. discriminate.
Qed.

(* ================================================================== *)
(** * Further properties of the catalog and of the sampler *)

(** ** Reading one sample *)

Section CatalogGet.

Context (R : RandomSource) (W : World).

Lemma SPIImg_load_spec (c : SPIImg) (idx : Z) (t t' : State R)
  (img : image) (lab : Z) :
  SPIImg_load W c idx t = (t', inr (img, lab)) <->
  exists exp run ev reader ts,
    PyList.getitem (imglabel_list c) idx = inr (exp, run, ev, lab) /\
    PyDict.get String.eqb (basename_of exp run) (psana_imgreader_dict c)
    = Some reader /\
    PyList.getitem (timestamps reader) ev = inr ts /\
    img = psana_image W (datasource_id reader) (detector_name reader) ts /\
    t' = {| random := random t;
            stdout := stdout t ++ [loading_line (exp, run, ev, lab)];
            ds_opened := ds_opened t;
            ev_fetched := ev_fetched t ++ [(datasource_id reader, ts)] |}.
Proof.
  unfold SPIImg_load. split.
  - intros H.
    apply bind_inr_inv in H as ([[[exp run] ev] lb] & s1 & Hx & H).
    apply bind_inr_inv in H as ([] & s2 & Hp & H).
    destruct (PyDict.get String.eqb (basename_of exp run)
                (psana_imgreader_dict c)) as [reader |] eqn:Hr;
      [| discriminate].
    apply bind_inr_inv in H as (im & s3 & Hg & H).
    unfold PsanaImg_get in Hg.
    apply bind_inr_inv in Hg as (ts & s4 & Hts & Hg).
    unfold lift in Hx, Hts. unfold print in Hp. unfold ret in H.
    inversion Hx; inversion Hp; inversion Hts; inversion Hg; inversion H.
    subst. exists exp, run, ev, reader, ts.
    repeat split; try assumption; reflexivity.
  - intros (exp & run & ev & reader & ts & Hx & Hr & Hts & -> & ->).
    unfold bind, lift. rewrite Hx. cbn. rewrite Hr.
    unfold PsanaImg_get, bind, lift. rewrite Hts. reflexivity.
Qed.

End CatalogGet.

(** [SPIImg.__getitem__] returns a pair exactly when the index addresses
    a sample (Python indexing), the accessor dict holds the run of the
    sample, and the event number addresses a timestamp of that accessor.
    The pair is then the flattened image of that event and the label of
    the sample; the call has printed the line of the sample and fetched
    that one event, and has neither opened a data source nor touched the
    random source. *)
Theorem SPIImg_getitem_returns (R : RandomSource) (W : World) (c : SPIImg)
  (idx : Z) (t t' : State R) (flat : list Z) (lab : Z) :
  SPIImg_getitem W c idx t = (t', inr (flat, lab)) <->
  exists exp run ev reader ts,
    PyList.getitem (imglabel_list c) idx = inr (exp, run, ev, lab) /\
    PyDict.get String.eqb (basename_of exp run) (psana_imgreader_dict c)
    = Some reader /\
    PyList.getitem (timestamps reader) ev = inr ts /\
    flat = reshape_flat
             (psana_image W (datasource_id reader) (detector_name reader) ts) /\
    t' = {| random := random t;
            stdout := stdout t ++ [loading_line (exp, run, ev, lab)];
            ds_opened := ds_opened t;
            ev_fetched := ev_fetched t ++ [(datasource_id reader, ts)] |}.
Proof.
  unfold SPIImg_getitem. split.
  - intros H. apply bind_inr_inv in H as ([img lb] & s1 & Hl & H).
    inversion H; subst.
    apply SPIImg_load_spec in Hl
      as (exp & run & ev & reader & ts & Hx & Hr & Hts & -> & ->).
    exists exp, run, ev, reader, ts. repeat split; assumption.
  - intros (exp & run & ev & reader & ts & Hx & Hr & Hts & -> & ->).
    erewrite bind_ok; cycle 1.
    { apply SPIImg_load_spec. exists exp, run, ev, reader, ts.
      split; [exact Hx |]. split; [exact Hr |]. split; [exact Hts |].
      split; reflexivity. }
    reflexivity.
Qed.

(** [SPIImg.get_imagesize] returns under the same conditions as
    [__getitem__] and with the same effects; what it returns is the shape
    of the image of the addressed event, not flattened. *)
Theorem SPIImg_get_imagesize_returns (R : RandomSource) (W : World)
  (c : SPIImg) (idx : Z) (t t' : State R) (sh : nat * nat) :
  SPIImg_get_imagesize W c idx t = (t', inr sh) <->
  exists exp run ev lab reader ts,
    PyList.getitem (imglabel_list c) idx = inr (exp, run, ev, lab) /\
    PyDict.get String.eqb (basename_of exp run) (psana_imgreader_dict c)
    = Some reader /\
    PyList.getitem (timestamps reader) ev = inr ts /\
    sh = shape
           (psana_image W (datasource_id reader) (detector_name reader) ts) /\
    SPIImg_getitem W c idx t
    = (t', inr (reshape_flat
                  (psana_image W (datasource_id reader)
                               (detector_name reader) ts), lab)).
Proof.
  unfold SPIImg_get_imagesize. split.
  - intros H. apply bind_inr_inv in H as ([img lb] & s1 & Hl & H).
    inversion H; subst. pose proof Hl as Hl'.
    apply SPIImg_load_spec in Hl
      as (exp & run & ev & reader & ts & Hx & Hr & Hts & -> & ->).
    exists exp, run, ev, lb, reader, ts.
    split; [exact Hx |]. split; [exact Hr |]. split; [exact Hts |].
    split; [reflexivity |].
    unfold SPIImg_getitem. erewrite bind_ok by exact Hl'. reflexivity.
  - intros (exp & run & ev & lab & reader & ts & Hx & Hr & Hts & -> & Hg).
    unfold SPIImg_getitem in Hg.
    apply bind_inr_inv in Hg as ([img lb] & s1 & Hl & Hg).
    inversion Hg; subst. pose proof Hl as Hl'.
    apply SPIImg_load_spec in Hl
      as (exp' & run' & ev' & reader' & ts' & Hx' & Hr' & Hts' & -> & _).
    erewrite bind_ok by exact Hl'. cbn.
    rewrite Hx in Hx'. inversion Hx'; subst.
    rewrite Hr in Hr'. inversion Hr'; subst.
    rewrite Hts in Hts'. inversion Hts'; subst. reflexivity.
Qed.

(** An index outside [-len, len) makes [SPIImg.__getitem__] and
    [get_imagesize] raise the range error of list indexing before
    anything is printed or fetched. For an index inside, each of the two
    prints the line of the addressed sample whether or not the image is
    then read, and leaves the random source alone; the two end in the
    same state. *)
Theorem SPIImg_getitem_index (R : RandomSource) (W : World) (c : SPIImg)
  (idx : Z) (t : State R) :
  let n := Z.of_nat (SPIImg_len c) in
  (idx < - n \/ n <= idx ->
   SPIImg_getitem W c idx t = (t, inl list_range_error) /\
   SPIImg_get_imagesize W c idx t = (t, inl list_range_error)) /\
  (- n <= idx < n ->
   exists x,
     PyList.getitem (imglabel_list c) idx = inr x /\
     stdout (fst (SPIImg_getitem W c idx t)) = stdout t ++ [loading_line x] /\
     random (fst (SPIImg_getitem W c idx t)) = random t /\
     stdout (fst (SPIImg_get_imagesize W c idx t))
     = stdout t ++ [loading_line x] /\
     random (fst (SPIImg_get_imagesize W c idx t)) = random t /\
     fst (SPIImg_get_imagesize W c idx t) = fst (SPIImg_getitem W c idx t)).
Proof.
  intros n. split.
  - intros H.
    unfold SPIImg_getitem, SPIImg_get_imagesize, SPIImg_load, bind, lift.
    rewrite getitem_out_of_range by exact H. now split.
  - intros H. destruct (@getitem_in_range _ (imglabel_list c) idx H) as [x Hx].
    exists x. split; [exact Hx |].
    destruct x as [[[exp run] ev] lb].
    unfold SPIImg_getitem, SPIImg_get_imagesize, SPIImg_load, bind, lift.
    rewrite Hx. cbn.
    destruct (PyDict.get String.eqb _ _) as [reader |]; cbn;
      [| repeat split; reflexivity].
    unfold PsanaImg_get, bind, lift.
    destruct (PyList.getitem (timestamps reader) ev); cbn;
      repeat split; reflexivity.
Qed.

(** ** The errors of a constructed catalog *)

Section ConstructedCatalog.

Context (R : RandomSource) (W : World).

Lemma constructed_readers_cover (runs : list RunDescriptor) :
  forallb (run_ok W) runs = true ->
  readers_cover
    {| dataset_dict :=
         PyDict.of_list String.eqb (map (run_dataset_entry W) runs);
       imglabel_list :=
         flat_map entry_samples
           (PyDict.of_list String.eqb (map (run_dataset_entry W) runs));
       psana_imgreader_dict :=
         PyDict.of_list String.eqb (map (run_reader_entry W) runs) |}.
Proof.
  intros Hok x Hx. cbn [imglabel_list psana_imgreader_dict] in *.
  apply in_flat_map in Hx as (entry & Hentry & Hx).
  apply (dict_of_list_In String.eqb String.eqb_eq) in Hentry.
  apply in_map_iff in Hentry as (rd & <- & Hrd).
  rewrite forallb_forall in Hok.
  rewrite (run_ok_samples W rd (Hok rd Hrd)) in Hx.
  unfold run_samples in Hx. apply in_map_iff in Hx as (kv & <- & _).
  cbn [fst snd].
  apply (dict_keys_of_list_In String.eqb String.eqb_eq).
  rewrite map_map. cbn [run_reader_entry fst].
  change (basename_of (rd_exp rd) (rd_run rd)) with (run_basename rd).
  now apply in_map.
Qed.

Lemma covered_load_errors (c : SPIImg) (idx : Z) :
  readers_cover c ->
  raises_only (fun e => e = list_range_error) (SPIImg_load (R := R) W c idx).
Proof.
  intros Hcov s s' e H. unfold SPIImg_load in H.
  apply bind_inl_inv in H as [H | ([[[exp run] ev] lb] & s1 & Hx & H)].
  { unfold lift in H. inversion H as [[Hs He]]. now apply getitem_error in He. }
  unfold lift in Hx. inversion Hx as [[Hs Hg]]. apply getitem_In in Hg.
  apply bind_inl_inv in H as [H | ([] & s2 & _ & H)]; [discriminate |].
  destruct (PyDict.get String.eqb (basename_of exp run)
              (psana_imgreader_dict c)) as [reader |] eqn:Hr.
  - apply bind_inl_inv in H as [H | (img & s3 & _ & H)]; [| discriminate].
    exact (@raises_only_PsanaImg_get R W (fun e => e = list_range_error)
             reader ev eq_refl _ _ _ H).
  - exfalso. apply (dict_get_None String.eqb String.eqb_eq) in Hr.
    apply Hr. exact (Hcov _ Hg).
Qed.

End ConstructedCatalog.

(** A catalog [SPIImg.__init__] has built holds an accessor for the run
    of every one of its samples, so that [__getitem__] and
    [get_imagesize] never raise a key error on it: whatever the index,
    the only exception they raise is the range error of list indexing
    (index outside the sample list, or event number outside the
    timestamps of the run). *)
Theorem SPIImg_constructed_get_errors (R : RandomSource) (W : World)
  (hdr : list string) (runs : list RunDescriptor) (s : State R) :
  forallb (run_ok W) runs = true ->
  exists s' c,
    SPIImg_init W (hdr :: map manifest_line runs) s = (s', inr c) /\
    readers_cover c /\
    forall idx (t t' : State R) e,
      SPIImg_getitem W c idx t = (t', inl e) \/
      SPIImg_get_imagesize W c idx t = (t', inl e) ->
      e = list_range_error.
Proof.
  intros Hok. eexists. eexists.
  split; [apply (SPIImg_init_ok W hdr runs s Hok) |].
  pose proof (@constructed_readers_cover W runs Hok) as Hcov.
  split; [exact Hcov |].
  intros idx t t' e [H | H].
  - unfold SPIImg_getitem in H.
    apply bind_inl_inv in H as [H | (r & s1 & _ & H)]; [| discriminate].
    exact (@covered_load_errors R W _ idx Hcov _ _ _ H).
  - unfold SPIImg_get_imagesize in H.
    apply bind_inl_inv in H as [H | (r & s1 & _ & H)]; [| discriminate].
    exact (@covered_load_errors R W _ idx Hcov _ _ _ H).
Qed.

(** The catalog of the two-run manifest: index 4 is out of range. *)
Lemma SPIImg_constructed_get_errors_witness :
  forallb (run_ok Ex.two_runs) [Ex.runA; Ex.runB] = true /\
  snd (SPIImg_init Ex.two_runs
         (Ex.header :: map manifest_line [Ex.runA; Ex.runB]) Ex.s0)
  = inr Ex.catalog2 /\
  snd (SPIImg_getitem Ex.two_runs Ex.catalog2 4 Ex.s0) = inl list_range_error /\
  exists s' c,
    SPIImg_init Ex.two_runs
      (Ex.header :: map manifest_line [Ex.runA; Ex.runB]) Ex.s0
    = (s', inr c) /\
    readers_cover c /\
    forall idx (t t' : State Ex.lcg) e,
      SPIImg_getitem Ex.two_runs c idx t = (t', inl e) \/
      SPIImg_get_imagesize Ex.two_runs c idx t = (t', inl e) ->
      e = list_range_error.
Proof.
  assert (H1 : forallb (run_ok Ex.two_runs) [Ex.runA; Ex.runB] = true)
    by (vm_compute; reflexivity).
  split; [exact H1 |].
  split; [vm_compute; reflexivity |].
  split; [vm_compute; reflexivity |].
  exact (@SPIImg_constructed_get_errors Ex.lcg Ex.two_runs Ex.header
           [Ex.runA; Ex.runB] Ex.s0 H1).
Defined.

(** On a catalog whose accessor dict covers its samples, the triplet
    dataset built over it raises three errors only: the range error of
    its index check (exactly for the indices at or above [size_sample]),
    the error of sampling from an empty population, and the range error
    of list indexing from reading an image. The lookup of the anchor's
    label in [label_seqi_dict] never fails. *)
Theorem SPIImgDataset_getitem_errors (R : RandomSource) (W : World)
  (c : SPIImg) (size sd idx : Z) (t t' : State R) (e : exn) :
  readers_cover c ->
  SPIImgDataset_getitem W (SPIImgDataset_of c size sd) idx t = (t', inl e) ->
  (size <= idx /\ e = index_check_error /\ t' = t) \/
  (idx < size /\ (e = empty_population_error \/ e = list_range_error)).
Proof.
  intros Hcov H. unfold SPIImgDataset_getitem in H.
  apply bind_inl_inv in H as [H | (r & s1 & _ & H)]; [| discriminate].
  unfold SPIImgDataset_getitem_ids in H.
  change (size_sample (SPIImgDataset_of c size sd)) with size in H.
  change (base (SPIImgDataset_of c size sd)) with c in H.
  destruct (size <=? idx) eqn:E.
  { apply Z.leb_le in E. left. unfold raise in H. inversion H. auto. }
  apply Z.leb_gt in E. right. split; [exact E |].
  assert (Hget : forall i,
            raises_only (fun e => e = empty_population_error
                                  \/ e = list_range_error)
                        (SPIImg_getitem (R := R) W c i)).
  { intros i s s' e' Hg. right. unfold SPIImg_getitem in Hg.
    apply bind_inl_inv in Hg as [Hg | (r & s1 & _ & Hg)]; [| discriminate].
    exact (@covered_load_errors R W c i Hcov _ _ _ Hg). }
  apply bind_inl_inv in H as [H | ([] & s1 & _ & H)]; [discriminate |].
  apply bind_inl_inv in H as [H | (a & s2 & Ha & H)].
  { apply random_sample1_error in H as [_ ->]. now left. }
  apply bind_inl_inv in H as [H | ([ia la] & s3 & Hla & H)].
  { exact (Hget _ _ _ _ H). }
  change (label_seqi_dict (SPIImgDataset_of c size sd))
    with (build_label_seqi_dict (imglabel_list c)) in H.
  destruct (PyDict.get Z.eqb la (build_label_seqi_dict (imglabel_list c)))
    as [pos |] eqn:Hpos.
  2:{ exfalso. apply SPIImg_getitem_label in Hla.
      unfold label_at in Hla.
      destruct (nth_error (imglabel_list c) a) as [x |] eqn:Hx;
        [| discriminate].
      destruct (build_bucket_of _ _ Hx) as (ids & Hgetb & _).
      cbn in Hla. inversion Hla as [Hl]. rewrite Hl in Hgetb. congruence. }
  apply bind_inl_inv in H as [H | (p & s4 & _ & H)].
  { apply random_sample1_error in H as [_ ->]. now left. }
  apply bind_inl_inv in H as [H | (n & s5 & _ & H)].
  { apply random_sample1_error in H as [_ ->]. now left. }
  apply bind_inl_inv in H as [H | ([ip lp] & s6 & _ & H)].
  { exact (Hget _ _ _ _ H). }
  apply bind_inl_inv in H as [H | ([ineg ln] & s7 & _ & H)].
  { exact (Hget _ _ _ _ H). }
  discriminate.
Qed.

(** The one-label catalog: request 0 fails with the error of sampling
    from an empty population. *)
Lemma SPIImgDataset_getitem_errors_witness :
  let t' := fst (SPIImgDataset_getitem Ex.one_label
                   (SPIImgDataset_of Ex.catalog_one_label 10 7) 0 Ex.s0) in
  readers_cover Ex.catalog_one_label /\
  SPIImgDataset_getitem Ex.one_label
    (SPIImgDataset_of Ex.catalog_one_label 10 7) 0 Ex.s0
  = (t', inl empty_population_error) /\
  ((10 <= 0 /\ empty_population_error = index_check_error /\ t' = Ex.s0) \/
   (0 < 10 /\ (empty_population_error = empty_population_error \/
               empty_population_error = list_range_error))).
Proof.
  intros t'.
  assert (H1 : readers_cover Ex.catalog_one_label).
  { intros x Hx. cbn in Hx. destruct Hx as [<- | [<- | []]]; cbn; auto. }
  assert (H2 : SPIImgDataset_getitem Ex.one_label
                 (SPIImgDataset_of Ex.catalog_one_label 10 7) 0 Ex.s0
               = (t', inl empty_population_error))
    by (vm_compute; reflexivity).
  split; [exact H1 |]. split; [exact H2 |].
  exact (@SPIImgDataset_getitem_errors Ex.lcg Ex.one_label
           Ex.catalog_one_label 10 7 0 Ex.s0 t' empty_population_error
           H1 H2).
Defined.

(** ** Rows of one name *)

Section RepeatedNames.

Context {V : Type}.

Lemma dict_get_fold_other (k : string) (l : list (string * V))
  (d : PyDict.t string V) :
  ~ In k (map fst l) ->
  PyDict.get String.eqb k
    (fold_left (fun d kv => PyDict.set String.eqb (fst kv) (snd kv) d) l d)
  = PyDict.get String.eqb k d.
Proof.
  revert d. induction l as [| [k' v'] r IH]; cbn; intros d H; [reflexivity |].
  rewrite IH by tauto.
  apply (dict_get_set_other String.eqb String.eqb_eq). intros ->. tauto.
Qed.

(** In [dict(pairs)] a key carries the value of its last pair. *)
Lemma dict_get_of_list_last (k : string) (v : V)
  (l1 l2 : list (string * V)) :
  ~ In k (map fst l2) ->
  PyDict.get String.eqb k (PyDict.of_list String.eqb (l1 ++ (k, v) :: l2))
  = Some v.
Proof.
  intros H. unfold PyDict.of_list. rewrite fold_left_app. cbn [fold_left fst snd].
  rewrite dict_get_fold_other by exact H.
  apply (dict_get_set_same String.eqb String.eqb_eq).
Qed.

End RepeatedNames.

Section RepeatedRuns.

Context (W : World).

Lemma entry_from_run (rd : RunDescriptor) (entry : string * PyDict.t string Z)
  (exp run : string) :
  PyStr.split "." (fst entry) = [exp; run] ->
  filter (from_run rd) (entry_samples entry)
  = if (String.eqb exp (rd_exp rd) && String.eqb run (rd_run rd))%bool
    then entry_samples entry else [].
Proof.
  intros Hs. unfold entry_samples. rewrite Hs.
  induction (snd entry) as [| kv r IH]; cbn [map filter].
  - now destruct (_ && _)%bool.
  - unfold from_run at 1. cbn [fst snd].
    destruct (String.eqb exp (rd_exp rd) && String.eqb run (rd_run rd))%bool;
      now rewrite IH.
Qed.

Lemma from_run_entries_none (rd : RunDescriptor)
  (dd : PyDict.t string (PyDict.t string Z)) :
  Forall (fun entry => exists rd', run_ok W rd' = true /\
                                   fst entry = run_basename rd') dd ->
  ~ In (run_basename rd) (PyDict.keys dd) ->
  filter (from_run rd) (flat_map entry_samples dd) = [].
Proof.
  induction dd as [| entry r IH]; cbn [flat_map]; intros Hall Hnot;
    [reflexivity |].
  inversion Hall as [| ? ? (rd' & Hok' & Hk) Hall']; subst.
  rewrite filter_app.
  pose proof (run_ok_split W rd' Hok') as Hs. rewrite <- Hk in Hs.
  rewrite (@entry_from_run rd entry _ _ Hs).
  destruct (String.eqb (rd_exp rd') (rd_exp rd)
            && String.eqb (rd_run rd') (rd_run rd))%bool eqn:E.
  - exfalso. apply Hnot. left.
    apply andb_true_iff in E as [Ee Er]. apply String.eqb_eq in Ee, Er.
    rewrite Hk. unfold run_basename. now rewrite Ee, Er.
  - cbn [app]. apply IH; [exact Hall' |].
    intros Hc. apply Hnot. now right.
Qed.

(** The samples of a name in the catalog are those of the entry stored
    under the name. *)
Lemma from_run_entries (rd : RunDescriptor)
  (dd : PyDict.t string (PyDict.t string Z)) (content : PyDict.t string Z) :
  run_ok W rd = true ->
  NoDup (PyDict.keys dd) ->
  Forall (fun entry => exists rd', run_ok W rd' = true /\
                                   fst entry = run_basename rd') dd ->
  In (run_basename rd, content) dd ->
  filter (from_run rd) (flat_map entry_samples dd)
  = entry_samples (run_basename rd, content).
Proof.
  intros Hok. induction dd as [| entry r IH]; cbn [flat_map];
    intros Hnd Hall Hin; [destruct Hin |].
  inversion Hnd as [| ? ? Hnot Hnd']; subst.
  inversion Hall as [| ? ? (rd' & Hok' & Hk) Hall']; subst.
  rewrite filter_app.
  destruct Hin as [-> | Hin].
  - cbn [fst] in Hnot.
    rewrite (@from_run_entries_none rd r Hall' Hnot), app_nil_r.
    rewrite (@entry_from_run rd (run_basename rd, content) _ _
               (run_ok_split W rd Hok)).
    now rewrite !String.eqb_refl.
  - assert (Hne : fst entry <> run_basename rd).
    { intros E. apply Hnot. rewrite E.
      change (run_basename rd) with (fst (run_basename rd, content)).
      now apply in_map. }
    pose proof (run_ok_split W rd' Hok') as Hs. rewrite <- Hk in Hs.
    rewrite (@entry_from_run rd entry _ _ Hs).
    destruct (String.eqb (rd_exp rd') (rd_exp rd)
              && String.eqb (rd_run rd') (rd_run rd))%bool eqn:E.
    + exfalso. apply Hne.
      apply andb_true_iff in E as [Ee Er]. apply String.eqb_eq in Ee, Er.
      rewrite Hk. unfold run_basename. now rewrite Ee, Er.
    + cbn [app]. now apply IH.
Qed.

End RepeatedRuns.

(** A manifest may name a run more than once. [SPIImg.__init__] over rows
    it can process is then still built: the data source of every row is
    opened, once per row, and both dicts hold one entry per name of the
    manifest. Under the name of a row that is the last of its name, the
    catalog holds the label index and the accessor of that row, and the
    samples of that name in the catalog are the samples of that row, the
    earlier rows of the name contributing nothing. *)
Theorem SPIImg_init_last_row_wins (R : RandomSource) (W : World)
  (hdr : list string) (pre post : list RunDescriptor) (rd : RunDescriptor)
  (s : State R) :
  forallb (run_ok W) (pre ++ rd :: post) = true ->
  ~ In (run_basename rd) (map run_basename post) ->
  exists s' c,
    SPIImg_init W (hdr :: map manifest_line (pre ++ rd :: post)) s
    = (s', inr c) /\
    ds_opened s' = ds_opened s ++ map run_datasource (pre ++ rd :: post) /\
    NoDup (PyDict.keys (dataset_dict c)) /\
    NoDup (PyDict.keys (psana_imgreader_dict c)) /\
    (forall k, In k (map run_basename (pre ++ rd :: post)) <->
               In k (PyDict.keys (dataset_dict c))) /\
    (forall k, In k (map run_basename (pre ++ rd :: post)) <->
               In k (PyDict.keys (psana_imgreader_dict c))) /\
    PyDict.get String.eqb (run_basename rd) (dataset_dict c)
    = Some (numeric_order (run_label_pairs W rd)) /\
    PyDict.get String.eqb (run_basename rd) (psana_imgreader_dict c)
    = Some (run_reader W rd) /\
    filter (from_run rd) (imglabel_list c) = run_samples W rd.
Proof.
  intros Hok Hlast. eexists. eexists.
  split; [apply (SPIImg_init_ok W hdr _ s Hok) |].
  cbn [dataset_dict psana_imgreader_dict imglabel_list].
  assert (Hrd : run_ok W rd = true).
  { rewrite forallb_forall in Hok. apply Hok.
    apply in_or_app. right. now left. }
  assert (Hget : PyDict.get String.eqb (run_basename rd)
                   (PyDict.of_list String.eqb
                      (map (run_dataset_entry W) (pre ++ rd :: post)))
                 = Some (numeric_order (run_label_pairs W rd))).
  { rewrite map_app. cbn [map]. unfold run_dataset_entry at 2.
    apply dict_get_of_list_last. now rewrite map_map. }
  split; [reflexivity |].
  split; [apply (dict_of_list_NoDup String.eqb String.eqb_eq) |].
  split; [apply (dict_of_list_NoDup String.eqb String.eqb_eq) |].
  split.
  { intros k. rewrite (dict_keys_of_list_In String.eqb String.eqb_eq).
    now rewrite map_map. }
  split.
  { intros k. rewrite (dict_keys_of_list_In String.eqb String.eqb_eq).
    now rewrite map_map. }
  split; [exact Hget |].
  split.
  - rewrite map_app. cbn [map]. unfold run_reader_entry at 2.
    apply dict_get_of_list_last. now rewrite map_map.
  - rewrite (@from_run_entries W rd _ (numeric_order (run_label_pairs W rd))
               Hrd).
    + change (run_basename rd, numeric_order (run_label_pairs W rd))
        with (run_dataset_entry W rd).
      now apply run_ok_samples.
    + apply (dict_of_list_NoDup String.eqb String.eqb_eq).
    + apply Forall_forall. intros entry Hin.
      apply (dict_of_list_In String.eqb String.eqb_eq) in Hin.
      apply in_map_iff in Hin as (rd' & <- & Hrd').
      exists rd'. split; [| reflexivity].
      rewrite forallb_forall in Hok. now apply Hok.
    + now apply (dict_get_Some_In String.eqb String.eqb_eq).
Qed.

(** Run [A.1] listed under two root directories: its data source is
    opened twice, and the catalog holds the sample of the second row. *)
Lemma SPIImg_init_last_row_wins_witness :
  forallb (run_ok Ex.listed_twice) ([Ex.runA] ++ Ex.runA_other :: []) = true /\
  ~ In (run_basename Ex.runA_other) (map run_basename []) /\
  run_samples Ex.listed_twice Ex.runA_other = [("A", "1", 7, 0)] /\
  exists s' c,
    SPIImg_init Ex.listed_twice
      (Ex.header :: map manifest_line ([Ex.runA] ++ Ex.runA_other :: []))
      Ex.s0 = (s', inr c) /\
    ds_opened s'
    = ds_opened Ex.s0
        ++ map run_datasource ([Ex.runA] ++ Ex.runA_other :: []) /\
    NoDup (PyDict.keys (dataset_dict c)) /\
    NoDup (PyDict.keys (psana_imgreader_dict c)) /\
    (forall k, In k (map run_basename ([Ex.runA] ++ Ex.runA_other :: [])) <->
               In k (PyDict.keys (dataset_dict c))) /\
    (forall k, In k (map run_basename ([Ex.runA] ++ Ex.runA_other :: [])) <->
               In k (PyDict.keys (psana_imgreader_dict c))) /\
    PyDict.get String.eqb (run_basename Ex.runA_other) (dataset_dict c)
    = Some (numeric_order (run_label_pairs Ex.listed_twice Ex.runA_other)) /\
    PyDict.get String.eqb (run_basename Ex.runA_other)
               (psana_imgreader_dict c)
    = Some (run_reader Ex.listed_twice Ex.runA_other) /\
    filter (from_run Ex.runA_other) (imglabel_list c)
    = run_samples Ex.listed_twice Ex.runA_other.
Proof.
  assert (H1 : forallb (run_ok Ex.listed_twice)
                 ([Ex.runA] ++ Ex.runA_other :: []) = true)
    by (vm_compute; reflexivity).
  assert (H2 : ~ In (run_basename Ex.runA_other) (map run_basename []))
    by (intros []).
  split; [exact H1 |]. split; [exact H2 |].
  split; [vm_compute; reflexivity |].
  exact (@SPIImg_init_last_row_wins Ex.lcg Ex.listed_twice Ex.header
           [Ex.runA] [] Ex.runA_other Ex.s0 H1 H2).
Defined.

(** ** The buckets, exactly *)

Section BucketOrder.

Lemma sorted_snoc (ids : list nat) (i : nat) :
  StronglySorted lt ids -> Forall (fun j => (j < i)%nat) ids ->
  StronglySorted lt (ids ++ [i]).
Proof.
  induction ids as [| a r IH]; cbn; intros Hs Hb.
  - repeat constructor.
  - inversion Hs as [| ? ? Hr Ha]; inversion Hb as [| ? ? Hai Hri]; subst.
    constructor; [auto |].
    apply Forall_app. split; [assumption | now repeat constructor].
Qed.

Lemma sorted_same_members (a b : list nat) :
  StronglySorted lt a -> StronglySorted lt b ->
  (forall x, In x a <-> In x b) -> a = b.
Proof.
  revert b. induction a as [| x r IH]; intros b Ha Hb Hmem.
  - destruct b as [| y q]; [reflexivity |].
    exfalso. apply (Hmem y). now left.
  - destruct b as [| y q].
    { exfalso. apply (Hmem x). now left. }
    inversion Ha as [| ? ? Hr Hx]; inversion Hb as [| ? ? Hq Hy]; subst.
    rewrite Forall_forall in Hx, Hy.
    assert (Exy : x = y).
    { destruct (proj1 (Hmem x) (or_introl eq_refl)) as [E | Hin];
        [now symmetry |].
      destruct (proj2 (Hmem y) (or_introl eq_refl)) as [E | Hin'];
        [assumption |].
      specialize (Hx _ Hin'). specialize (Hy _ Hin). lia. }
    subst y. f_equal. apply IH; try assumption.
    intros z. split; intros Hz.
    + destruct (proj1 (Hmem z) (or_intror Hz)) as [E | Hin]; [| exact Hin].
      subst z. specialize (Hx _ Hz). lia.
    + destruct (proj2 (Hmem z) (or_intror Hz)) as [E | Hin]; [| exact Hin].
      subst z. specialize (Hy _ Hz). lia.
Qed.

Lemma seq_sorted (s n : nat) : StronglySorted lt (seq s n).
Proof.
  revert s. induction n as [| n IH]; cbn; intros s; constructor; [apply IH |].
  apply Forall_forall. intros x Hx. apply in_seq in Hx. lia.
Qed.

Lemma filter_sorted (f : nat -> bool) (l : list nat) :
  StronglySorted lt l -> StronglySorted lt (filter f l).
Proof.
  induction l as [| a r IH]; cbn; intros H; [constructor |].
  inversion H as [| ? ? Hr Ha]; subst.
  destruct (f a); [| auto].
  constructor; [auto |].
  rewrite Forall_forall in *. intros x Hx. apply filter_In in Hx as [Hx _].
  auto.
Qed.

Lemma label_seqi_step_below (i : nat) (x : sample)
  (d : PyDict.t Z (list nat)) :
  buckets_below i d -> buckets_below (S i) (label_seqi_step d (i, x)).
Proof.
  intros Hd k ids Hin. unfold label_seqi_step in Hin. cbn [fst snd] in Hin.
  assert (Hweak : forall k' ids', In (k', ids') d ->
            ids' <> [] /\ StronglySorted lt ids' /\
            Forall (fun j => (j < S i)%nat) ids').
  { intros k' ids' H'. destruct (Hd _ _ H') as (Hne & Hs & Hb).
    repeat split; try assumption.
    eapply Forall_impl; [| exact Hb]. cbn. lia. }
  destruct (PyDict.get Z.eqb (sample_label x) d) as [ids0 |] eqn:E.
  - destruct (dict_set_split Z.eqb Z.eqb_eq _ (ids0 ++ [i]) _ E)
      as (d1 & d2 & Hd12 & Hset).
    rewrite Hset in Hin. apply in_app_or in Hin as [Hin | [Hin | Hin]].
    + apply Hweak with (k' := k). rewrite Hd12. apply in_or_app. now left.
    + inversion Hin; subst k ids.
      destruct (Hd (sample_label x) ids0) as (Hne & Hs & Hb).
      { now apply (dict_get_Some_In Z.eqb Z.eqb_eq). }
      split; [now destruct ids0 |].
      split; [now apply sorted_snoc |].
      apply Forall_app. split.
      * eapply Forall_impl; [| exact Hb]. cbn. lia.
      * repeat constructor.
    + apply Hweak with (k' := k). rewrite Hd12.
      apply in_or_app. right. now right.
  - apply (dict_get_None Z.eqb Z.eqb_eq) in E.
    rewrite (dict_set_new Z.eqb Z.eqb_eq) in Hin by exact E.
    apply in_app_or in Hin as [Hin | [Hin | []]].
    + now apply Hweak with (k' := k).
    + inversion Hin; subst k ids.
      split; [discriminate |]. split; repeat constructor.
Qed.

Lemma label_seqi_fold_below (l : list sample) :
  forall (start : nat) (d : PyDict.t Z (list nat)),
    buckets_below start d ->
    buckets_below (start + List.length l)
      (fold_left label_seqi_step (combine (seq start (List.length l)) l) d).
Proof.
  induction l as [| x r IH]; cbn [List.length seq combine fold_left];
    intros start d Hd.
  - now rewrite Nat.add_0_r.
  - replace (start + S (List.length r))%nat
      with (S start + List.length r)%nat by lia.
    apply IH. now apply label_seqi_step_below.
Qed.

Lemma build_below (l : list sample) :
  buckets_below (List.length l) (build_label_seqi_dict l).
Proof.
  unfold build_label_seqi_dict, enumerate.
  apply (@label_seqi_fold_below l 0%nat []). intros k ids [].
Qed.

Lemma positions_of_In (l : list sample) (k : Z) (i : nat) :
  In i (positions_of l k) <-> label_at l i = Some k.
Proof.
  unfold positions_of. rewrite filter_In, in_seq. split.
  - intros [_ H]. destruct (label_at l i) as [k' |]; [| discriminate].
    apply Z.eqb_eq in H. now subst.
  - intros H. rewrite H, Z.eqb_refl. split; [| reflexivity].
    split; [lia |]. cbn. unfold label_at in H.
    apply nth_error_Some. destruct (nth_error l i); [discriminate | discriminate].
Qed.

End BucketOrder.

(** The table [SPIImgDataset.__init__] builds maps every label that
    occurs in the catalog, and no other, to the list of all sequence
    numbers of the samples of that label, in ascending order. *)
Theorem label_seqi_dict_positions (c : SPIImg) (size sd : Z) (k : Z) :
  let d := label_seqi_dict (SPIImgDataset_of c size sd) in
  let l := imglabel_list c in
  (forall ids, In (k, ids) d -> ids = positions_of l k /\ ids <> []) /\
  (PyDict.get Z.eqb k d
   = if existsb (fun x => sample_label x =? k) l
     then Some (positions_of l k) else None).
Proof.
  cbn zeta. cbn [label_seqi_dict SPIImgDataset_of].
  set (l := imglabel_list c).
  assert (Hchar : forall ids, In (k, ids) (build_label_seqi_dict l) ->
                              ids = positions_of l k /\ ids <> []).
  { intros ids Hin.
    destruct (build_below l k ids Hin) as (Hne & Hs & _).
    split; [| exact Hne].
    apply sorted_same_members;
      [exact Hs | apply filter_sorted, seq_sorted |].
    intros i. rewrite positions_of_In. split.
    - intros Hi. exact (build_labelled l _ _ _ Hin Hi).
    - intros Hi. unfold label_at in Hi.
      destruct (nth_error l i) as [x |] eqn:Hx; [| discriminate].
      cbn in Hi. inversion Hi as [Hl].
      destruct (build_bucket_of l i Hx) as (ids' & Hget & Hin').
      rewrite Hl in Hget.
      apply (dict_get_In Z.eqb Z.eqb_eq _ _ _ (build_NoDup_keys l)) in Hin.
      rewrite Hin in Hget. inversion Hget; now subst. }
  split; [exact Hchar |].
  destruct (existsb (fun x => sample_label x =? k) l) eqn:E.
  - apply existsb_exists in E as (x & Hx & Hk). apply Z.eqb_eq in Hk.
    apply In_nth_error in Hx as (i & Hi).
    destruct (build_bucket_of l i Hi) as (ids & Hget & _).
    rewrite Hk in Hget. rewrite Hget. f_equal.
    apply Hchar. now apply (dict_get_Some_In Z.eqb Z.eqb_eq).
  - destruct (PyDict.get Z.eqb k (build_label_seqi_dict l)) as [ids |] eqn:Hget;
      [| reflexivity].
    exfalso. apply (dict_get_Some_In Z.eqb Z.eqb_eq) in Hget.
    destruct (build_below l k ids Hget) as (Hne & _ & _).
    destruct ids as [| i r]; [now apply Hne |].
    pose proof (build_labelled l _ _ _ Hget (or_introl eq_refl)) as Hl.
    unfold label_at in Hl.
    destruct (nth_error l i) as [x |] eqn:Hx; [| discriminate].
    cbn in Hl. inversion Hl as [Hk].
    assert (Hex : existsb (fun x => sample_label x =? k) l = true).
    { apply existsb_exists. exists x. split;
        [eapply nth_error_In; eauto | now apply Z.eqb_eq]. }
    congruence.
Qed.

(** ** The draws of one call *)

Section Draws.

Context (R : RandomSource) (W : World).

Lemma random_sample1_run {A : Type} (pop : list A) (s s' : State R) (x : A) :
  random_sample1 pop s = (s', inr x) ->
  nth_error pop (fst (randbelow R (List.length pop) (random s))) = Some x /\
  s' = {| random := snd (randbelow R (List.length pop) (random s));
          stdout := stdout s; ds_opened := ds_opened s;
          ev_fetched := ev_fetched s |}.
Proof.
  intros H. split; [now apply random_sample1_nth in H |].
  destruct pop as [| y r]; [discriminate |].
  unfold random_sample1 in H.
  apply bind_inr_inv in H as (j & s1 & Hj & H).
  unfold random_randbelow in Hj.
  destruct (randbelow R (List.length (y :: r)) (random s)) as [j' g].
  inversion Hj; subst. unfold lift in H. now inversion H.
Qed.

Lemma SPIImg_getitem_nat (c : SPIImg) (i : nat) (t t' : State R)
  (flat : list Z) (lab : Z) :
  SPIImg_getitem W c (Z.of_nat i) t = (t', inr (flat, lab)) ->
  exists x,
    nth_error (imglabel_list c) i = Some x /\ sample_label x = lab /\
    random t' = random t /\
    stdout t' = stdout t ++ [loading_line x] /\
    ds_opened t' = ds_opened t /\
    List.length (ev_fetched t') = S (List.length (ev_fetched t)).
Proof.
  intros H. unfold SPIImg_getitem in H.
  apply bind_inr_inv in H as ([img lb] & t1 & Hl & Hg).
  unfold ret in Hg. cbn [fst snd] in Hg. inversion Hg; subst.
  apply SPIImg_load_spec in Hl
    as (exp & run & ev & reader & ts & Hx & _ & _ & _ & ->).
  apply getitem_of_nat_inv in Hx.
  exists (exp, run, ev, lab). cbn.
  repeat split; try assumption; try reflexivity.
  rewrite length_app. cbn. lia.
Qed.

End Draws.

(** One successful call of [SPIImgDataset.__getitem__] seeds the random
    source and draws from it three times: the anchor from the range of
    sequence numbers, the positive from the bucket of the anchor's label,
    the negative from the pool of the other buckets, each as the element
    at the position the generator yields. The three images are read in
    the order anchor, positive, negative (three lines printed, three
    events fetched), and no data source is opened. *)
Theorem SPIImgDataset_getitem_draws (R : RandomSource) (W : World)
  (self : SPIImgDataset) (idx : Z) (s s' : State R)
  (a p n : nat) (out : list Z * list Z * list Z * Z) :
  SPIImgDataset_getitem_ids W self idx s = (s', inr ((a, p, n), out)) ->
  let lab := snd out in
  let neg := neg_bucket_of (label_seqi_dict self) lab in
  let d0 := randbelow R (num_stockimgs self) (rng_seed R (seed self)) in
  exists pos xa xp xn,
    PyDict.get Z.eqb lab (label_seqi_dict self) = Some pos /\
    a = fst d0 /\
    nth_error pos (fst (randbelow R (List.length pos) (snd d0))) = Some p /\
    nth_error neg
      (fst (randbelow R (List.length neg)
              (snd (randbelow R (List.length pos) (snd d0))))) = Some n /\
    random s'
    = snd (randbelow R (List.length neg)
             (snd (randbelow R (List.length pos) (snd d0)))) /\
    nth_error (imglabel_list (base self)) a = Some xa /\
    nth_error (imglabel_list (base self)) p = Some xp /\
    nth_error (imglabel_list (base self)) n = Some xn /\
    sample_label xa = lab /\
    stdout s'
    = stdout s ++ [loading_line xa; loading_line xp; loading_line xn] /\
    List.length (ev_fetched s') = (List.length (ev_fetched s) + 3)%nat /\
    ds_opened s' = ds_opened s.
Proof.
  intros H. unfold SPIImgDataset_getitem_ids in H.
  destruct (size_sample self <=? idx); [discriminate |].
  apply bind_inr_inv in H as ([] & s1 & Hseed & H).
  apply bind_inr_inv in H as (a' & s2 & Ha & H).
  apply bind_inr_inv in H as ([ia la] & s3 & Hla & H).
  destruct (PyDict.get Z.eqb la (label_seqi_dict self)) as [pos |] eqn:Hpos;
    [| discriminate].
  apply bind_inr_inv in H as (p' & s4 & Hp & H).
  apply bind_inr_inv in H as (n' & s5 & Hn & H).
  apply bind_inr_inv in H as ([ip lp] & s6 & Hlp & H).
  apply bind_inr_inv in H as ([ineg ln] & s7 & Hln & H).
  inversion H; subst; clear H. cbn [snd].
  unfold random_seed in Hseed. inversion Hseed; subst s1; clear Hseed.
  pose proof (sample1_range _ _ Ha) as Ea. cbn [random] in Ea.
  apply random_sample1_run in Ha as [_ ->].
  apply SPIImg_getitem_nat in Hla
    as (xa & Hxa & Hlab & Hr3 & Ho3 & Hd3 & Hf3).
  apply random_sample1_run in Hp as [Hp ->].
  apply random_sample1_run in Hn as [Hn ->].
  apply SPIImg_getitem_nat in Hlp
    as (xp & Hxp & _ & Hr6 & Ho6 & Hd6 & Hf6).
  apply SPIImg_getitem_nat in Hln
    as (xn & Hxn & _ & Hr7 & Ho7 & Hd7 & Hf7).
  cbn [random stdout ds_opened ev_fetched] in *.
  rewrite length_seq in *.
  exists pos, xa, xp, xn.
  rewrite Hr3 in Hp, Hn.
  split; [exact Hpos |]. split; [exact Ea |].
  split; [exact Hp |]. split; [exact Hn |].
  split; [rewrite Hr7, Hr6, Hr3; reflexivity |].
  split; [exact Hxa |]. split; [exact Hxp |]. split; [exact Hxn |].
  split; [exact Hlab |].
  split; [rewrite Ho7, Ho6, Ho3, <- !app_assoc; reflexivity |].
  split; [rewrite Hf7, Hf6, Hf3; lia |].
  rewrite Hd7, Hd6, Hd3. reflexivity.
Qed.

(** Request 3 of the two-run sampler: draws 3, 3 and 1. *)
Lemma SPIImgDataset_getitem_draws_witness :
  let self := Ex.sampler2 in
  let out := ([101; 0; 0; 101], [101; 0; 0; 101], [102; 0; 0; 102], 0) in
  let s' := fst (SPIImgDataset_getitem_ids Ex.two_runs self 3 Ex.s0) in
  SPIImgDataset_getitem_ids Ex.two_runs self 3 Ex.s0
  = (s', inr ((3%nat, 3%nat, 1%nat), out)) /\
  let lab := snd out in
  let neg := neg_bucket_of (label_seqi_dict self) lab in
  let d0 := randbelow Ex.lcg (num_stockimgs self)
                      (rng_seed Ex.lcg (seed self)) in
  exists pos xa xp xn,
    PyDict.get Z.eqb lab (label_seqi_dict self) = Some pos /\
    3%nat = fst d0 /\
    nth_error pos (fst (randbelow Ex.lcg (List.length pos) (snd d0)))
    = Some 3%nat /\
    nth_error neg
      (fst (randbelow Ex.lcg (List.length neg)
              (snd (randbelow Ex.lcg (List.length pos) (snd d0)))))
    = Some 1%nat /\
    random s'
    = snd (randbelow Ex.lcg (List.length neg)
             (snd (randbelow Ex.lcg (List.length pos) (snd d0)))) /\
    nth_error (imglabel_list (base self)) 3 = Some xa /\
    nth_error (imglabel_list (base self)) 3 = Some xp /\
    nth_error (imglabel_list (base self)) 1 = Some xn /\
    sample_label xa = lab /\
    stdout s'
    = stdout Ex.s0 ++ [loading_line xa; loading_line xp; loading_line xn] /\
    List.length (ev_fetched s') = (List.length (ev_fetched Ex.s0) + 3)%nat /\
    ds_opened s' = ds_opened Ex.s0.
Proof.
  intros self out s'.
  assert (H : SPIImgDataset_getitem_ids Ex.two_runs self 3 Ex.s0
              = (s', inr ((3%nat, 3%nat, 1%nat), out)))
    by (vm_compute; reflexivity).
  split; [exact H |].
  exact (@SPIImgDataset_getitem_draws Ex.lcg Ex.two_runs self 3 Ex.s0 s'
           3%nat 3%nat 1%nat out H).
Defined.

(** ** When a triplet is returned *)

Section Totality.

Context (R : RandomSource) (W : World).

Lemma readable_getitem (c : SPIImg) (i : nat) (x : sample) (t : State R) :
  nth_error (imglabel_list c) i = Some x ->
  (exists reader ts,
     PyDict.get String.eqb
       (basename_of (fst (fst (fst x))) (snd (fst (fst x))))
       (psana_imgreader_dict c) = Some reader /\
     PyList.getitem (timestamps reader) (sample_event x) = inr ts) ->
  exists t' flat,
    SPIImg_getitem W c (Z.of_nat i) t = (t', inr (flat, sample_label x)) /\
    random t' = random t.
Proof.
  intros Hx (reader & ts & Hr & Hts).
  destruct x as [[[exp run] ev] lb]. cbn in Hr, Hts.
  eexists. eexists. split.
  - unfold SPIImg_getitem. erewrite bind_ok; cycle 1.
    { apply SPIImg_load_spec. exists exp, run, ev, reader, ts.
      split; [apply getitem_of_nat; exact Hx |].
      split; [exact Hr |]. split; [exact Hts |]. split; reflexivity. }
    reflexivity.
  - reflexivity.
Qed.

End Totality.

(** When the catalog holds samples of at least two labels and the image
    of every sample can be read (its run has an accessor and its event
    number addresses a timestamp), [SPIImgDataset.__getitem__] returns a
    triplet for every index below [size_sample]. *)
Theorem SPIImgDataset_getitem_total (R : RandomSource) (W : World)
  (c : SPIImg) (size sd idx : Z) (s : State R) (x y : sample) :
  idx < size ->
  In x (imglabel_list c) -> In y (imglabel_list c) ->
  sample_label x <> sample_label y ->
  (forall z, In z (imglabel_list c) ->
     exists reader ts,
       PyDict.get String.eqb
         (basename_of (fst (fst (fst z))) (snd (fst (fst z))))
         (psana_imgreader_dict c) = Some reader /\
       PyList.getitem (timestamps reader) (sample_event z) = inr ts) ->
  exists s' img_anchor img_pos img_neg label,
    SPIImgDataset_getitem W (SPIImgDataset_of c size sd) idx s
    = (s', inr (img_anchor, img_pos, img_neg, label)).
Proof.
  intros Hidx Hx Hy Hxy Hread.
  set (l := imglabel_list c) in *.
  set (d := build_label_seqi_dict l).
  assert (Hload : forall i (t : State R), (i < List.length l)%nat ->
            exists z t' flat,
              nth_error l i = Some z /\
              SPIImg_getitem W c (Z.of_nat i) t
              = (t', inr (flat, sample_label z))).
  { intros i t Hi.
    destruct (nth_error l i) as [z |] eqn:Hz;
      [| apply nth_error_None in Hz; lia].
    destruct (@readable_getitem R W c i z t Hz) as (t' & flat & Hg & _).
    { apply Hread. eapply nth_error_In; eauto. }
    now exists z, t', flat. }
  assert (Hbound : forall k ids i, In (k, ids) d -> In i ids ->
                                   (i < List.length l)%nat).
  { intros k ids i Hin Hi.
    destruct (build_below l k ids Hin) as (_ & _ & Hb).
    rewrite Forall_forall in Hb. now apply Hb. }
  unfold SPIImgDataset_getitem, SPIImgDataset_getitem_ids.
  change (size_sample (SPIImgDataset_of c size sd)) with size.
  change (base (SPIImgDataset_of c size sd)) with c.
  change (num_stockimgs (SPIImgDataset_of c size sd)) with (List.length l).
  change (label_seqi_dict (SPIImgDataset_of c size sd)) with d.
  change (seed (SPIImgDataset_of c size sd)) with sd.
  replace (size <=? idx) with false by (symmetry; apply Z.leb_gt; exact Hidx).
  assert (Hne : seq 0 (List.length l) <> []).
  { destruct l; [destruct Hx | discriminate]. }
  set (s1 := {| random := rng_seed R sd; stdout := stdout s;
                ds_opened := ds_opened s; ev_fetched := ev_fetched s |}).
  destruct (random_sample1_total s1 Hne) as (a & Ha & Hain).
  apply in_seq in Hain.
  match type of Ha with _ = (?t, _) => set (s2 := t) in * end.
  destruct (Hload a s2) as (za & s3 & ia & Hza & Hga); [lia |].
  destruct (build_bucket_of l a Hza) as (pos & Hpos & Hapos).
  fold d in Hpos.
  assert (Hposne : pos <> []) by (destruct pos; [destruct Hapos | discriminate]).
  destruct (random_sample1_total s3 Hposne) as (p & Hp & Hpin).
  match type of Hp with _ = (?t, _) => set (s4 := t) in * end.
  assert (Hnegne : neg_bucket_of d (sample_label za) <> []).
  { assert (Hother : exists w, In w l /\ sample_label w <> sample_label za).
    { destruct (Z.eq_dec (sample_label x) (sample_label za)) as [E | E].
      - exists y. split; [exact Hy | congruence].
      - exists x. split; [exact Hx | exact E]. }
    destruct Hother as (w & Hw & Hwl).
    apply In_nth_error in Hw as (j & Hj).
    destruct (build_bucket_of l j Hj) as (ids & Hids & Hjids).
    fold d in Hids.
    assert (Hin : In j (neg_bucket_of d (sample_label za))).
    { rewrite neg_bucket_concat. apply in_flat_map.
      exists (sample_label w, ids). split; [| exact Hjids].
      apply filter_In. split.
      - now apply (dict_get_Some_In Z.eqb Z.eqb_eq).
      - cbn. apply negb_true_iff, Z.eqb_neq. exact Hwl. }
    intros E. rewrite E in Hin. destruct Hin. }
  destruct (random_sample1_total s4 Hnegne) as (n & Hn & Hnin).
  match type of Hn with _ = (?t, _) => set (s5 := t) in * end.
  assert (Hplt : (p < List.length l)%nat).
  { apply (dict_get_Some_In Z.eqb Z.eqb_eq) in Hpos.
    exact (Hbound _ _ _ Hpos Hpin). }
  assert (Hnlt : (n < List.length l)%nat).
  { rewrite neg_bucket_concat in Hnin.
    apply in_flat_map in Hnin as ([k ids] & Hk & Hnin).
    apply filter_In in Hk as [Hk _]. eapply Hbound; eauto. }
  destruct (Hload p s5 Hplt) as (zp & s6 & ip & _ & Hgp).
  destruct (Hload n s6 Hnlt) as (zn & s7 & ineg & _ & Hgn).
  exists s7, ia, ip, ineg, (sample_label za).
  erewrite bind_ok; cycle 1.
  { unfold bind at 1. unfold random_seed at 1. fold s1.
    erewrite bind_ok by exact Ha.
    erewrite bind_ok by exact Hga.
    cbv beta iota. rewrite Hpos.
    erewrite bind_ok by exact Hp.
    erewrite bind_ok by exact Hn.
    erewrite bind_ok by exact Hgp.
    cbv beta iota.
    erewrite bind_ok by exact Hgn.
    reflexivity. }
  reflexivity.
Qed.

(** The two-run catalog has labels 1 and 0 and six timestamps per run:
    request 3 is served. *)
Lemma SPIImgDataset_getitem_total_witness :
  3 < 10 /\
  In ("A", "1", 0, 1) (imglabel_list Ex.catalog2) /\
  In ("B", "2", 1, 0) (imglabel_list Ex.catalog2) /\
  sample_label ("A", "1", 0, 1) <> sample_label ("B", "2", 1, 0) /\
  exists s' img_anchor img_pos img_neg label,
    SPIImgDataset_getitem Ex.two_runs (SPIImgDataset_of Ex.catalog2 10 7)
                          3 Ex.s0
    = (s', inr (img_anchor, img_pos, img_neg, label)).
Proof.
  assert (H1 : 3 < 10) by lia.
  assert (H2 : In ("A", "1", 0, 1) (imglabel_list Ex.catalog2))
    by (cbn; auto).
  assert (H3 : In ("B", "2", 1, 0) (imglabel_list Ex.catalog2))
    by (cbn; auto 6).
  assert (H4 : sample_label ("A", "1", 0, 1) <> sample_label ("B", "2", 1, 0))
    by (cbn; discriminate).
  assert (H5 : forall z, In z (imglabel_list Ex.catalog2) ->
            exists reader ts,
              PyDict.get String.eqb
                (basename_of (fst (fst (fst z))) (snd (fst (fst z))))
                (psana_imgreader_dict Ex.catalog2) = Some reader /\
              PyList.getitem (timestamps reader) (sample_event z) = inr ts).
  { intros z Hz. cbn in Hz.
    destruct Hz as [<- | [<- | [<- | [<- | []]]]];
      eexists; eexists; split; vm_compute; reflexivity. }
  split; [exact H1 |]. split; [exact H2 |]. split; [exact H3 |].
  split; [exact H4 |].
  exact (@SPIImgDataset_getitem_total Ex.lcg Ex.two_runs Ex.catalog2
           10 7 3 Ex.s0 _ _ H1 H2 H3 H4 H5).
Defined.

(** ** The path of the label file *)

Section PathFacts.

Implicit Types (a b c : string).

Lemma str_append_assoc a b c : (a ^^ b) ^^ c = a ^^ b ^^ c.
Proof. induction a as [| x r IH]; cbn; [reflexivity | now rewrite IH]. Qed.

Lemma str_length_append a b :
  String.length (a ^^ b) = (String.length a + String.length b)%nat.
Proof. induction a as [| x r IH]; cbn; [reflexivity | now rewrite IH]. Qed.

Lemma str_mem_append (x : ascii) a b :
  PyStr.mem x (a ^^ b) = (PyStr.mem x a || PyStr.mem x b)%bool.
Proof.
  induction a as [| y r IH]; cbn; [reflexivity |].
  now rewrite IH, orb_assoc.
Qed.

Lemma startswith_sep_append a b :
  a <> EmptyString ->
  PyStr.startswith_sep (a ^^ b) = PyStr.startswith_sep a.
Proof. destruct a; [contradiction | reflexivity]. Qed.

Lemma endswith_sep_append a b :
  b <> EmptyString -> PyStr.endswith_sep (a ^^ b) = PyStr.endswith_sep b.
Proof.
  intros Hb. induction a as [| x r IH]; [reflexivity |].
  cbn [String.append]. cbn [PyStr.endswith_sep].
  destruct (r ^^ b) eqn:E; [| exact IH].
  destruct r; cbn in E; [contradiction | discriminate].
Qed.

Lemma append_nonempty a b : a <> EmptyString -> a ^^ b <> EmptyString.
Proof. destruct a; [contradiction | discriminate]. Qed.

Lemma eqb_empty_false a :
  a <> EmptyString -> String.eqb a EmptyString = false.
Proof. destruct a; [contradiction | reflexivity]. Qed.

Lemma no_sep_endswith a : PyStr.mem "/" a = false -> PyStr.endswith_sep a = false.
Proof.
  induction a as [| x r IH]; [reflexivity |].
  cbn [PyStr.mem]. intros H. apply orb_false_iff in H as [Hx Hr].
  cbn [PyStr.endswith_sep]. destruct r; [exact Hx | auto].
Qed.

Lemma join2_plain a b :
  a <> EmptyString -> PyStr.endswith_sep a = false ->
  PyStr.startswith_sep b = false ->
  PyStr.join2 a b = a ^^ "/" ^^ b.
Proof.
  intros Ha He Hs. unfold PyStr.join2.
  now rewrite Hs, (eqb_empty_false Ha), He.
Qed.

Lemma digits_no_sep (d : Decimal.uint) :
  PyStr.mem "/" (NilEmpty.string_of_uint d) = false.
Proof. induction d; cbn; auto. Qed.

Lemma of_nat_no_sep (n : nat) : PyStr.mem "/" (PyStr.of_nat n) = false.
Proof.
  unfold PyStr.of_nat, NilZero.string_of_uint.
  destruct (Nat.to_uint n); try reflexivity; apply digits_no_sep.
Qed.

Lemma of_nat_nonempty (n : nat) : PyStr.of_nat n <> EmptyString.
Proof.
  unfold PyStr.of_nat, NilZero.string_of_uint.
  destruct (Nat.to_uint n); discriminate.
Qed.

Lemma zeros_no_sep (k : nat) : PyStr.mem "/" (PyStr.zeros k) = false.
Proof. induction k; cbn; auto. Qed.

Lemma zeros_length (k : nat) : String.length (PyStr.zeros k) = k.
Proof. induction k; cbn; auto. Qed.

Lemma format_04d_no_sep (z : Z) : PyStr.mem "/" (PyStr.format_04d z) = false.
Proof.
  unfold PyStr.format_04d. destruct (z <? 0).
  - change ("-" ^^ ?x) with (String "-" x). cbn [PyStr.mem].
    rewrite str_mem_append, zeros_no_sep, of_nat_no_sep. reflexivity.
  - rewrite str_mem_append, zeros_no_sep, of_nat_no_sep. reflexivity.
Qed.

Lemma format_04d_nonempty (z : Z) : PyStr.format_04d z <> EmptyString.
Proof.
  unfold PyStr.format_04d. destruct (z <? 0); [discriminate |].
  intros E. apply (f_equal String.length) in E.
  rewrite str_length_append in E. cbn in E.
  pose proof (of_nat_nonempty (Z.abs_nat z)) as Hd.
  destruct (PyStr.of_nat (Z.abs_nat z)); [now apply Hd |].
  cbn in E. lia.
Qed.

(** The [04d] format yields at least four characters. *)
Lemma format_04d_length (z : Z) : (4 <= String.length (PyStr.format_04d z))%nat.
Proof.
  unfold PyStr.format_04d. destruct (z <? 0).
  - change ("-" ^^ ?x) with (String "-" x). cbn [String.length].
    rewrite str_length_append, zeros_length. lia.
  - rewrite str_length_append, zeros_length. lia.
Qed.

End PathFacts.

(** [_locate_labelfile] follows the path convention
    [root/exp/user/psocake/rNNNN/exp_NNNN.label.json], the run number
    padded with zeros to at least four characters, whenever the
    experiment name and the user name are plain path components (not
    empty, no separator at either end) and the root directory is not
    empty and does not end with the separator. *)
Theorem locate_labelfile_convention (R : RandomSource) (W : World)
  (exp run root user : string) (r : Z) (s : State R) :
  PyStr.int run = Some r -> environ_USER W = Some user ->
  plain_component exp = true -> plain_component user = true ->
  root <> EmptyString -> PyStr.endswith_sep root = false ->
  let nnnn := PyStr.format_04d r in
  ImgLabelFileParser_locate_labelfile W exp run root s
  = (s, inr (root ^^ "/" ^^ exp ^^ "/" ^^ user ^^ "/" ^^ "psocake" ^^ "/"
               ^^ "r" ^^ nnnn ^^ "/" ^^ exp ^^ "_" ^^ nnnn ^^ ".label.json"))
  /\ (4 <= String.length nnnn)%nat.
Proof.
  intros Hr Hu He Hus Hroot Hrend nnnn.
  split; [| apply format_04d_length].
  rewrite (@locate_labelfile_ok R W exp run root user r s Hr Hu).
  do 2 f_equal.
  unfold plain_component in He, Hus.
  apply andb_true_iff in He as [He He3]. apply andb_true_iff in He as [He1 He2].
  apply andb_true_iff in Hus as [Hus Hu3].
  apply andb_true_iff in Hus as [Hu1 Hu2].
  apply negb_true_iff in He1, He2, He3, Hu1, Hu2, Hu3.
  assert (Hen : exp <> EmptyString) by (intros ->; discriminate).
  assert (Hun : user <> EmptyString) by (intros ->; discriminate).
  pose proof (format_04d_nonempty r) as Hfn. fold nnnn in Hfn.
  pose proof (no_sep_endswith _ (format_04d_no_sep r)) as Hfe.
  fold nnnn in Hfe.
  unfold labelfile_path, PyStr.path_join. cbn [fold_left]. fold nnnn.
  assert (E1 : PyStr.join2 exp user = exp ^^ "/" ^^ user)
    by (now apply join2_plain).
  rewrite E1.
  assert (E2 : PyStr.join2 (exp ^^ "/" ^^ user) "psocake"
               = exp ^^ "/" ^^ user ^^ "/" ^^ "psocake").
  { rewrite join2_plain; [now rewrite !str_append_assoc | | | reflexivity].
    - now apply append_nonempty.
    - rewrite endswith_sep_append by discriminate.
      rewrite endswith_sep_append by exact Hun. exact Hu3. }
  rewrite E2.
  assert (E3 : PyStr.join2 (exp ^^ "/" ^^ user ^^ "/" ^^ "psocake")
                           ("r" ^^ nnnn)
               = exp ^^ "/" ^^ user ^^ "/" ^^ "psocake" ^^ "/" ^^ "r" ^^ nnnn).
  { rewrite join2_plain; [now rewrite !str_append_assoc | | | reflexivity].
    - now apply append_nonempty.
    - rewrite endswith_sep_append by discriminate.
      rewrite endswith_sep_append by (now apply append_nonempty).
      rewrite endswith_sep_append by discriminate. reflexivity. }
  rewrite E3.
  set (inner := exp ^^ "/" ^^ user ^^ "/" ^^ "psocake" ^^ "/" ^^ "r" ^^ nnnn).
  assert (Hinner_end : PyStr.endswith_sep inner = false).
  { unfold inner.
    rewrite endswith_sep_append by discriminate.
    rewrite endswith_sep_append by (now apply append_nonempty).
    rewrite endswith_sep_append by discriminate.
    rewrite endswith_sep_append by discriminate.
    rewrite endswith_sep_append by discriminate.
    rewrite endswith_sep_append by discriminate.
    change ("r" ^^ nnnn) with (String "r" nnnn).
    cbn [PyStr.endswith_sep]. destruct nnnn; [contradiction | exact Hfe]. }
  assert (Hinner_ne : inner <> EmptyString)
    by (unfold inner; now apply append_nonempty).
  assert (E4 : PyStr.join2 root inner = root ^^ "/" ^^ inner).
  { apply join2_plain; try assumption.
    unfold inner. now rewrite startswith_sep_append. }
  rewrite E4.
  rewrite join2_plain.
  - unfold inner. now rewrite !str_append_assoc.
  - now apply append_nonempty.
  - rewrite endswith_sep_append by discriminate.
    change ("/" ^^ inner) with (String "/" inner).
    cbn [PyStr.endswith_sep]. destruct inner; [contradiction | exact Hinner_end].
  - rewrite !str_append_assoc. now rewrite startswith_sep_append.
Qed.

(** Run 7 of experiment amo06516 under /reg/data, user alice. *)
Lemma locate_labelfile_convention_witness :
  PyStr.int "7" = Some 7 /\ environ_USER Ex.two_runs = Some "alice" /\
  plain_component "amo06516" = true /\ plain_component "alice" = true /\
  "/reg/data" <> EmptyString /\ PyStr.endswith_sep "/reg/data" = false /\
  ImgLabelFileParser_locate_labelfile Ex.two_runs "amo06516" "7" "/reg/data"
                                      Ex.s0
  = (Ex.s0,
     inr "/reg/data/amo06516/alice/psocake/r0007/amo06516_0007.label.json").
Proof.
  assert (H1 : PyStr.int "7" = Some 7) by reflexivity.
  assert (H2 : environ_USER Ex.two_runs = Some "alice") by reflexivity.
  assert (H3 : plain_component "amo06516" = true) by reflexivity.
  assert (H4 : plain_component "alice" = true) by reflexivity.
  assert (H5 : "/reg/data" <> EmptyString) by discriminate.
  assert (H6 : PyStr.endswith_sep "/reg/data" = false) by reflexivity.
  repeat (split; [assumption |]).
  exact (proj1 (@locate_labelfile_convention Ex.lcg Ex.two_runs "amo06516"
                  "7" "/reg/data" "alice" 7 Ex.s0 H1 H2 H3 H4 H5 H6)).
Defined.

(** An experiment name that starts with the separator makes
    [os.path.join] drop everything before the file name: the label file
    is then looked for at [exp_NNNN.label.json], whatever the root
    directory and the user. *)
Theorem locate_labelfile_absolute_exp (R : RandomSource) (W : World)
  (exp run root user : string) (r : Z) (s : State R) :
  PyStr.int run = Some r -> environ_USER W = Some user ->
  PyStr.startswith_sep exp = true ->
  ImgLabelFileParser_locate_labelfile W exp run root s
  = (s, inr (exp ^^ "_" ^^ PyStr.format_04d r ^^ ".label.json")).
Proof.
  intros Hr Hu He.
  rewrite (@locate_labelfile_ok R W exp run root user r s Hr Hu).
  do 2 f_equal.
  unfold labelfile_path, PyStr.path_join. cbn [fold_left].
  unfold PyStr.join2 at 1.
  assert (Hs : PyStr.startswith_sep
                 ((exp ^^ "_" ^^ PyStr.format_04d r) ^^ ".label.json") = true).
  { destruct exp; [discriminate | exact He]. }
  rewrite Hs. now rewrite str_append_assoc.
Qed.

(** Experiment name [/x], run 1. *)
Lemma locate_labelfile_absolute_exp_witness :
  PyStr.int "1" = Some 1 /\ environ_USER Ex.two_runs = Some "alice" /\
  PyStr.startswith_sep "/x" = true /\
  ImgLabelFileParser_locate_labelfile Ex.two_runs "/x" "1" "/data" Ex.s0
  = (Ex.s0, inr "/x_0001.label.json").
Proof.
  assert (H1 : PyStr.int "1" = Some 1) by reflexivity.
  assert (H2 : environ_USER Ex.two_runs = Some "alice") by reflexivity.
  assert (H3 : PyStr.startswith_sep "/x" = true) by reflexivity.
  repeat (split; [assumption |]).
  exact (@locate_labelfile_absolute_exp Ex.lcg Ex.two_runs "/x" "1" "/data"
           "alice" 1 Ex.s0 H1 H2 H3).
Defined.

(** ** Rows that stop the construction *)

Section StoppedConstruction.

Context (R : RandomSource) (W : World).

Lemma foldM_app {A B : Type} (f : A -> B -> M R A) (l1 l2 : list B) :
  forall (a : A) (s : State R),
    foldM f (l1 ++ l2) a s
    = bind (foldM f l1 a) (fun a' => foldM f l2 a') s.
Proof.
  induction l1 as [| b r IH]; intros a s; cbn [foldM app].
  - reflexivity.
  - unfold bind in *. destruct (f a b s) as [s1 [e | a1]];
      [reflexivity | apply IH].
Qed.

(** The rows before the first one that fails are processed as usual,
    the rows after it not at all. *)
Lemma SPIImg_init_stops (hdr : list string) (good rest : list RunDescriptor)
  (bad : RunDescriptor) (s s' : State R) (e : exn) :
  forallb (run_ok W) good = true ->
  (forall acc,
     SPIImg_init_line W acc (manifest_line bad)
       (add_effects s (map run_datasource good)
                    (flat_map (run_diagnostic W) good))
     = (s', inl e)) ->
  SPIImg_init W (hdr :: map manifest_line (good ++ bad :: rest)) s
  = (s', inl e).
Proof.
  intros Hgood Hbad. unfold SPIImg_init.
  erewrite bind_err; [reflexivity |].
  rewrite map_app, foldM_app.
  erewrite bind_ok by exact (@SPIImg_init_lines_ok R W good Hgood ([], []) s).
  cbn [map foldM]. erewrite bind_err; [reflexivity |]. apply Hbad.
Qed.

Lemma init_line_unopened (rd : RunDescriptor) acc (s : State R) :
  psana_times W (run_datasource rd) = None ->
  SPIImg_init_line W acc (manifest_line rd) s
  = (add_effects s [run_datasource rd] [],
     inl (PsanaError (run_datasource rd))).
Proof.
  intros H. unfold SPIImg_init_line, manifest_line. cbv zeta.
  erewrite bind_err; [reflexivity |].
  unfold PsanaImg_init. cbv zeta. fold (run_datasource rd). rewrite H.
  unfold add_effects. now rewrite app_nil_r.
Qed.

Lemma init_line_nan (rd : RunDescriptor) (ts : list timestamp) acc
  (s : State R) :
  psana_times W (run_datasource rd) = Some ts ->
  PyStr.int (rd_run rd) = None ->
  SPIImg_init_line W acc (manifest_line rd) s
  = (add_effects s [run_datasource rd] [],
     inl (ValueError ("invalid literal for int() with base 10: '"
                        ^^ rd_run rd ^^ "'"))).
Proof.
  intros Ht Hr. unfold SPIImg_init_line, manifest_line. cbv zeta.
  erewrite bind_ok
    by exact (@PsanaImg_init_ok R W (rd_exp rd) (rd_run rd) (rd_mode rd)
                (rd_detector rd) ts s Ht).
  erewrite bind_err; [reflexivity |].
  unfold ImgLabelFileParser_init, ImgLabelFileParser_load_imglabel.
  erewrite bind_err; [reflexivity |].
  unfold ImgLabelFileParser_locate_labelfile. cbv zeta.
  erewrite bind_err; [reflexivity |].
  unfold py_int. rewrite Hr. reflexivity.
Qed.

Lemma digits_val_other (c : ascii) (cs : list ascii) :
  PyStr.is_digit c = false -> Ascii.eqb c "_" = false ->
  In c cs -> forall acc seen, PyStr.digits_val acc seen cs = None.
Proof.
  intros Hd Hu. induction cs as [| a r IH]; cbn; [tauto |].
  intros [-> | H] acc seen.
  - now rewrite Hd, Hu.
  - destruct (PyStr.is_digit a); [now apply IH |].
    destruct (Ascii.eqb a "_" && seen)%bool; [now apply IH | reflexivity].
Qed.

(** The strings [PyStr.int] accepts are ASCII strings. *)
Lemma int_isascii (x : string) (z : Z) :
  PyStr.int x = Some z -> PyStr.isascii x = true.
Proof.
  intros H. unfold PyStr.isascii. apply forallb_forall. intros c Hc.
  destruct (nat_of_ascii c <? 128)%nat eqn:E; [reflexivity |]. exfalso.
  pose proof E as E'. apply Nat.ltb_ge in E'.
  assert (Hs : PyStr.is_space c = false).
  { unfold PyStr.is_space. cbv zeta.
    apply orb_false_iff. split; [apply Nat.eqb_neq; lia |].
    apply andb_false_iff. right. apply Nat.leb_gt. lia. }
  assert (Hd : PyStr.is_digit c = false).
  { unfold PyStr.is_digit. cbv zeta.
    apply andb_false_iff. right. apply Nat.leb_gt. lia. }
  assert (Hu : Ascii.eqb c "_" = false).
  { apply Ascii.eqb_neq. intros ->. vm_compute in E. discriminate. }
  apply strip_keeps in Hc; [| exact Hs].
  unfold PyStr.int in H. cbv zeta in H.
  destruct (PyStr.max_str_digits <? _); [discriminate |].
  destruct (PyStr.strip (list_ascii_of_string x)) as [| c0 r];
    [discriminate |].
  destruct (Ascii.eqb c0 "-") eqn:Em.
  - apply Ascii.eqb_eq in Em; subst c0.
    destruct Hc as [<- | Hc]; [vm_compute in E; discriminate |].
    rewrite (digits_val_other c r Hd Hu Hc) in H. discriminate.
  - destruct (Ascii.eqb c0 "+") eqn:Ep.
    + apply Ascii.eqb_eq in Ep; subst c0.
      destruct Hc as [<- | Hc]; [vm_compute in E; discriminate |].
      rewrite (digits_val_other c r Hd Hu Hc) in H. discriminate.
    + rewrite (digits_val_other c (c0 :: r) Hd Hu Hc) in H. discriminate.
Qed.

Lemma split_nonempty (sep : ascii) (x : string) : PyStr.split sep x <> [].
Proof.
  destruct x as [| c r]; cbn; [discriminate |].
  destruct (Ascii.eqb c sep); [discriminate |].
  destruct (PyStr.split sep r); discriminate.
Qed.

Lemma split_length_append (sep : ascii) (a b : string) :
  (List.length (PyStr.split sep (a ^^ b)) + 1
   = List.length (PyStr.split sep a) + List.length (PyStr.split sep b))%nat.
Proof.
  induction a as [| c r IH]; cbn [String.append PyStr.split].
  - cbn. lia.
  - destruct (Ascii.eqb c sep); [cbn [List.length]; lia |].
    pose proof (@split_nonempty sep (r ^^ b)) as N1.
    pose proof (@split_nonempty sep r) as N2.
    destruct (PyStr.split sep (r ^^ b)); [contradiction |].
    destruct (PyStr.split sep r); [contradiction |].
    cbn [List.length] in *. lia.
Qed.

Lemma split_length_mem (sep : ascii) (x : string) :
  PyStr.mem sep x = true -> (2 <= List.length (PyStr.split sep x))%nat.
Proof.
  induction x as [| c r IH]; cbn [PyStr.mem PyStr.split]; [discriminate |].
  intros H. destruct (Ascii.eqb c sep) eqn:E.
  - pose proof (@split_nonempty sep r) as N.
    destruct (PyStr.split sep r); [contradiction | cbn; lia].
  - cbn [orb] in H. specialize (IH H).
    destruct (PyStr.split sep r); cbn [List.length] in *; lia.
Qed.

(** The name of a row whose experiment name holds a dot splits into
    three parts or more. *)
Lemma split_dotted (exp run : string) :
  PyStr.mem "." exp = true ->
  (3 <= List.length (PyStr.split "." (basename_of exp run)))%nat.
Proof.
  intros H. unfold basename_of.
  pose proof (split_length_append "." exp ("." ^^ run)) as E.
  pose proof (split_length_mem "." exp H) as E1.
  assert (E2 : (2 <= List.length (PyStr.split "." ("." ^^ run)))%nat)
    by (apply split_length_mem; reflexivity).
  lia.
Qed.

Lemma init_line_inv acc (line : list string) (s s1 : State R) acc1 :
  SPIImg_init_line W acc line s = (s1, inr acc1) ->
  exists exp run mode det root v,
    line = [exp; run; mode; det; root]
    /\ snd acc1 = PyDict.set String.eqb (basename_of exp run) v (snd acc).
Proof.
  unfold SPIImg_init_line.
  destruct line as [| exp [| run [| mode [| det [| root [| x t]]]]]];
    try (unfold raise; discriminate).
  cbv zeta. intros H.
  apply bind_inr_inv in H as (reader & s2 & _ & H).
  apply bind_inr_inv in H as (parser & s3 & _ & H).
  unfold ret in H. inversion H; subst.
  exists exp, run, mode, det, root, (imglabel_dict parser). now split.
Qed.

Lemma init_lines_keys (rows : list (list string)) :
  forall acc (s s' : State R) acc',
    foldM (SPIImg_init_line W) rows acc s = (s', inr acc') ->
    (forall k, In k (PyDict.keys (snd acc)) -> In k (PyDict.keys (snd acc')))
    /\ (forall exp run mode det root,
          In [exp; run; mode; det; root] rows ->
          In (basename_of exp run) (PyDict.keys (snd acc'))).
Proof.
  induction rows as [| line r IH]; intros acc s s' acc' H; cbn [foldM] in H.
  - unfold ret in H. inversion H; subst. split; [auto | intros ? ? ? ? ? []].
  - apply bind_inr_inv in H as (acc1 & s1 & H1 & H2).
    apply init_line_inv in H1 as (e0 & r0 & m0 & d0 & t0 & v & El & Es).
    destruct (IH _ _ _ _ H2) as [Hk Hr].
    assert (Hstep : forall k, In k (PyDict.keys (snd acc))
                              -> In k (PyDict.keys (snd acc1))).
    { intros k Hin. rewrite Es.
      apply (dict_keys_set_In String.eqb String.eqb_eq). now right. }
    split; [auto |].
    intros exp run mode det root [E | Hin]; [| eauto].
    apply Hk. rewrite Es. rewrite El in E. inversion E; subst.
    apply (dict_keys_set_In String.eqb String.eqb_eq). now left.
Qed.

Lemma init_datasets_fail (entries : list (string * PyDict.t string Z))
  (entry : string * PyDict.t string Z) :
  In entry entries ->
  (3 <= List.length (PyStr.split "." (fst entry)))%nat ->
  forall lst (s : State R),
    exists s' e,
      foldM (@SPIImg_init_dataset R) entries lst s = (s', inl e).
Proof.
  intros Hin Hlen.
  induction entries as [| x r IH]; [destruct Hin |]. intros lst s.
  cbn [foldM]. unfold bind.
  destruct (SPIImg_init_dataset lst x s) as [s1 [e | l1]] eqn:E;
    [now exists s1, e |].
  destruct Hin as [-> | Hin]; [| now apply IH].
  exfalso. unfold SPIImg_init_dataset in E.
  destruct (PyStr.split "." (fst entry)) as [| a [| b [| c t]]];
    try (unfold raise in E; discriminate).
  cbn in Hlen. lia.
Qed.

End StoppedConstruction.

(** A row whose data source cannot be opened stops the construction
    with the error of the imaging source: the rows before it were
    processed, the attempt to open the data source of the row itself
    is the last effect, and the rows after it are not touched. *)
Theorem SPIImg_init_stops_at_unopened (R : RandomSource) (W : World)
  (hdr : list string) (good rest : list RunDescriptor) (bad : RunDescriptor)
  (s : State R) :
  forallb (run_ok W) good = true ->
  psana_times W (run_datasource bad) = None ->
  SPIImg_init W (hdr :: map manifest_line (good ++ bad :: rest)) s
  = (add_effects s (map run_datasource (good ++ [bad]))
                 (flat_map (run_diagnostic W) good),
     inl (PsanaError (run_datasource bad))).
Proof.
  intros Hgood Hbad. apply (@SPIImg_init_stops R W); [exact Hgood |].
  intros acc. rewrite (@init_line_unopened R W bad acc _ Hbad).
  rewrite add_effects_add, map_app, app_nil_r. reflexivity.
Qed.

(** Run [A] is read, the data source of [B] cannot be opened, and a
    third row follows. *)
Lemma SPIImg_init_stops_at_unopened_witness :
  forallb (run_ok Ex.no_source_B) [Ex.runA] = true /\
  psana_times Ex.no_source_B (run_datasource Ex.runB) = None /\
  SPIImg_init Ex.no_source_B
    (Ex.header :: map manifest_line ([Ex.runA] ++ Ex.runB :: [Ex.runA_other]))
    Ex.s0
  = (add_effects Ex.s0 ["exp=A:run=1:idx"; "exp=B:run=2:idx"] [],
     inl (PsanaError "exp=B:run=2:idx")).
Proof.
  assert (H1 : forallb (run_ok Ex.no_source_B) [Ex.runA] = true)
    by reflexivity.
  assert (H2 : psana_times Ex.no_source_B (run_datasource Ex.runB) = None)
    by reflexivity.
  split; [exact H1 | split; [exact H2 |]].
  exact (@SPIImg_init_stops_at_unopened Ex.lcg Ex.no_source_B Ex.header
           [Ex.runA] [Ex.runA_other] Ex.runB Ex.s0 H1 H2).
Defined.

(** The run number of a row is parsed only when the path of its label
    file is computed, after its data source was opened: a row whose
    run, an ASCII string, is not a number stops the construction with a
    value error, its data source being the last one opened. *)
Theorem SPIImg_init_stops_at_nan (R : RandomSource) (W : World)
  (hdr : list string) (good rest : list RunDescriptor) (bad : RunDescriptor)
  (ts : list timestamp) (s : State R) :
  forallb (run_ok W) good = true ->
  psana_times W (run_datasource bad) = Some ts ->
  PyStr.isascii (rd_run bad) = true ->
  PyStr.int (rd_run bad) = None ->
  SPIImg_init W (hdr :: map manifest_line (good ++ bad :: rest)) s
  = (add_effects s (map run_datasource (good ++ [bad]))
                 (flat_map (run_diagnostic W) good),
     inl (ValueError ("invalid literal for int() with base 10: '"
                        ^^ rd_run bad ^^ "'"))).
Proof.
  intros Hgood Ht _ Hr. apply (@SPIImg_init_stops R W); [exact Hgood |].
  intros acc. rewrite (@init_line_nan R W bad ts acc _ Ht Hr).
  rewrite add_effects_add, map_app, app_nil_r. reflexivity.
Qed.

(** Run [A], then a row with run [two]. *)
Lemma SPIImg_init_stops_at_nan_witness :
  forallb (run_ok Ex.two_runs) [Ex.runA] = true /\
  psana_times Ex.two_runs (run_datasource Ex.run_nan)
  = Some [100; 101; 102; 103; 104; 105] /\
  PyStr.isascii (rd_run Ex.run_nan) = true /\
  PyStr.int (rd_run Ex.run_nan) = None /\
  SPIImg_init Ex.two_runs
    (Ex.header :: map manifest_line ([Ex.runA] ++ Ex.run_nan :: [Ex.runB]))
    Ex.s0
  = (add_effects Ex.s0 ["exp=A:run=1:idx"; "exp=B:run=two:idx"] [],
     inl (ValueError "invalid literal for int() with base 10: 'two'")).
Proof.
  assert (H1 : forallb (run_ok Ex.two_runs) [Ex.runA] = true) by reflexivity.
  assert (H2 : psana_times Ex.two_runs (run_datasource Ex.run_nan)
               = Some [100; 101; 102; 103; 104; 105]) by reflexivity.
  assert (H3 : PyStr.isascii (rd_run Ex.run_nan) = true) by reflexivity.
  assert (H4 : PyStr.int (rd_run Ex.run_nan) = None) by reflexivity.
  split; [exact H1 | split; [exact H2 | split; [exact H3 | split; [exact H4 |]]]].
  exact (@SPIImg_init_stops_at_nan Ex.lcg Ex.two_runs Ex.header
           [Ex.runA] [Ex.runB] Ex.run_nan _ Ex.s0 H1 H2 H3 H4).
Defined.

(** No catalog is constructed from a manifest one of whose rows has an
    experiment name with a dot: the loop over [dataset_dict] splits
    the names [exp.run] at their dots and unpacks two parts, so that
    the construction raises, there if not before. *)
Theorem SPIImg_init_dotted_name (R : RandomSource) (W : World)
  (hdr : list string) (rows : list (list string))
  (exp run mode det root : string) (s : State R) :
  In [exp; run; mode; det; root] rows ->
  PyStr.mem "." exp = true ->
  exists s' e, SPIImg_init W (hdr :: rows) s = (s', inl e).
Proof.
  intros Hin Hdot. unfold SPIImg_init.
  destruct (foldM (SPIImg_init_line W) rows ([], []) s)
    as [s1 [e | acc]] eqn:E.
  - exists s1, e. now apply bind_err.
  - erewrite bind_ok by exact E.
    destruct (@init_lines_keys R W rows _ _ _ _ E) as [_ Hk].
    specialize (Hk _ _ _ _ _ Hin).
    unfold PyDict.keys in Hk. apply in_map_iff in Hk as ([k v] & Ek & Hkv).
    cbn [fst] in Ek. subst k.
    destruct (@init_datasets_fail R (PyDict.items (snd acc))
                (basename_of exp run, v) Hkv
                (split_dotted exp run Hdot) [] s1) as (s' & e & Hf).
    exists s', e. now apply bind_err.
Qed.

(** Run [A] followed by a row of experiment [amo.065]: both rows are
    processed, then the construction raises. *)
Lemma SPIImg_init_dotted_name_witness :
  In (manifest_line Ex.run_dotted)
     (map manifest_line [Ex.runA; Ex.run_dotted]) /\
  PyStr.mem "." (rd_exp Ex.run_dotted) = true /\
  exists s' e,
    SPIImg_init Ex.two_runs
      (Ex.header :: map manifest_line [Ex.runA; Ex.run_dotted]) Ex.s0
    = (s', inl e).
Proof.
  assert (H1 : In (manifest_line Ex.run_dotted)
                  (map manifest_line [Ex.runA; Ex.run_dotted]))
    by (right; left; reflexivity).
  assert (H2 : PyStr.mem "." (rd_exp Ex.run_dotted) = true) by reflexivity.
  split; [exact H1 | split; [exact H2 |]].
  exact (@SPIImg_init_dotted_name Ex.lcg Ex.two_runs Ex.header
           (map manifest_line [Ex.runA; Ex.run_dotted])
           _ _ _ _ _ Ex.s0 H1 H2).
Defined.
